(** * Prompt Library Database: the data layer of [app.py]

    A shallow embedding of the prompt entity, the SQLite-backed
    repository, the tag directory and the tag filter of the library page,
    with the properties of the specification stated over them.

    Conventions.
    - Python [str] is [string] (a sequence of bytes, UTF-8); on such
      sequences the byte-wise lexicographic order is Python's code point
      order and SQLite's BINARY collation.
    - A Python [dict] is an association list in insertion order whose keys
      are pairwise distinct ([dict_wf]).
    - The database is a record of three tables, each a list of rows; a
      transaction is a function from the database to an optional result
      and a new database, [None] standing for a raised exception.
    - The clock, the source of ids and the two functions of the [json]
      library are arguments of the operations that use them. *)

From Stdlib Require Import ZArith Ascii String DecimalString.
From stdpp Require Import base strings list gmap sorting.

Open Scope string_scope.

(** ** Strings *)

(** The line feed character, written [\n] in the Python source. *)
Definition LF : string := String "010"%char EmptyString.

(** Truth value of a Python [str]: the empty string is false. *)
Definition truthy (s : string) : bool :=
  match s with
  | EmptyString => false
  | String _ _ => true
  end.

(** ** The Prompt dataclass *)

(** A Python dictionary from strings, in insertion order. *)
Definition dict (V : Type) : Type := list (string * V).

Module Prompt.

Record t : Type := mk {
  id : string;
  title : string;
  prompt_type : string;
  use_case : string;
  description : string;
  usage_notes : string;
  version : string;
  persona : string;
  context : string;
  task : string;
  style : string;
  variables : string;
  instructions : string;
  is_favorite : Z;
  created_at : string;
  last_modified : string;
  tags : dict (list string)
}.

End Prompt.

(** [list.append], under a condition. *)
Definition append_if (cond : bool) (x : string) (parts : list string)
  : list string :=
  if cond then parts ++ [x] else parts.

(** [Prompt.get_copy_text] *)
Definition get_copy_text (self : Prompt.t) : string :=
  if String.eqb (Prompt.prompt_type self) "standard" then
    (if truthy (Prompt.instructions self)
     then Prompt.instructions self else "")
  else
    let parts := [] in
    let parts := append_if (truthy (Prompt.persona self))
                   ("### PERSONA" ++ LF ++ Prompt.persona self) parts in
    let parts := append_if (truthy (Prompt.context self))
                   ("### CONTEXT" ++ LF ++ Prompt.context self) parts in
    let parts := append_if (truthy (Prompt.task self))
                   ("### TASK" ++ LF ++ Prompt.task self) parts in
    let parts := append_if (truthy (Prompt.style self))
                   ("### STYLE" ++ LF ++ Prompt.style self) parts in
    let parts := append_if (truthy (Prompt.variables self))
                   ("### VARIABLES" ++ LF ++ Prompt.variables self) parts in
    String.concat (LF ++ LF ++ "---" ++ LF ++ LF) parts.

(** The rendering rule in the words of the specification: the five
    content fields in their fixed order, each with its header; the
    non-empty ones are kept, prefixed by the header and joined by the
    separator. *)
Definition section_header (name : string) : string := "### " ++ name ++ LF.

Definition separator : string := LF ++ LF ++ "---" ++ LF ++ LF.

Definition sections (p : Prompt.t) : list (string * string) :=
  [ (section_header "PERSONA", Prompt.persona p);
    (section_header "CONTEXT", Prompt.context p);
    (section_header "TASK", Prompt.task p);
    (section_header "STYLE", Prompt.style p);
    (section_header "VARIABLES", Prompt.variables p) ].

Definition render_structured (p : Prompt.t) : string :=
  String.concat separator
    (map (fun hb => fst hb ++ snd hb)
         (List.filter (fun hb => negb (String.eqb (snd hb) "")) (sections p))).

(** A structured prompt in which only [task] is set; the remaining
    metadata is taken from [p]. *)
Definition only_task (p : Prompt.t) (text : string) : Prompt.t :=
  {| Prompt.id := Prompt.id p;
     Prompt.title := Prompt.title p;
     Prompt.prompt_type := "structured";
     Prompt.use_case := Prompt.use_case p;
     Prompt.description := Prompt.description p;
     Prompt.usage_notes := Prompt.usage_notes p;
     Prompt.version := Prompt.version p;
     Prompt.persona := "";
     Prompt.context := "";
     Prompt.task := text;
     Prompt.style := "";
     Prompt.variables := "";
     Prompt.instructions := Prompt.instructions p;
     Prompt.is_favorite := Prompt.is_favorite p;
     Prompt.created_at := Prompt.created_at p;
     Prompt.last_modified := Prompt.last_modified p;
     Prompt.tags := Prompt.tags p |}.

(** [p] with another [instructions] field. *)
Definition with_instructions (text : string) (p : Prompt.t) : Prompt.t :=
  {| Prompt.id := Prompt.id p;
     Prompt.title := Prompt.title p;
     Prompt.prompt_type := Prompt.prompt_type p;
     Prompt.use_case := Prompt.use_case p;
     Prompt.description := Prompt.description p;
     Prompt.usage_notes := Prompt.usage_notes p;
     Prompt.version := Prompt.version p;
     Prompt.persona := Prompt.persona p;
     Prompt.context := Prompt.context p;
     Prompt.task := Prompt.task p;
     Prompt.style := Prompt.style p;
     Prompt.variables := Prompt.variables p;
     Prompt.instructions := text;
     Prompt.is_favorite := Prompt.is_favorite p;
     Prompt.created_at := Prompt.created_at p;
     Prompt.last_modified := Prompt.last_modified p;
     Prompt.tags := Prompt.tags p |}.

(** ** Python dictionaries *)

(** [k in d] *)
Definition dict_contains {V} (d : dict V) (k : string) : bool :=
  existsb (fun kv => String.eqb (fst kv) k) d.

(** [d.get(k)] *)
Fixpoint dict_get {V} (d : dict V) (k : string) : option V :=
  match d with
  | [] => None
  | (k', v) :: d' => if String.eqb k' k then Some v else dict_get d' k
  end.

(** [d.get(k, dflt)] *)
Definition dict_get_default {V} (d : dict V) (k : string) (dflt : V) : V :=
  default dflt (dict_get d k).

(** [d[k] = v]: an existing key keeps its position. *)
Fixpoint dict_set {V} (d : dict V) (k : string) (v : V) : dict V :=
  match d with
  | [] => [(k, v)]
  | (k', v') :: d' =>
      if String.eqb k' k then (k', v) :: d' else (k', v') :: dict_set d' k v
  end.

(** The dictionary without the key [k] (the store left by [d.pop(k, _)]). *)
Definition dict_remove {V} (d : dict V) (k : string) : dict V :=
  List.filter (fun kv => negb (String.eqb (fst kv) k)) d.

Definition dict_keys {V} (d : dict V) : list string := map fst d.

(** Keys are pairwise distinct. *)
Definition dict_wf {V} (d : dict V) : Prop := NoDup (dict_keys d).

(** The loop body of the loaders:
    [if category not in d: d[category] = []] then
    [d[category].append(name)]. *)
Definition dict_append (d : dict (list string)) (category name : string)
  : dict (list string) :=
  let d := if dict_contains d category then d else dict_set d category [] in
  dict_set d category (dict_get_default d category [] ++ [name])%list.

(** ** Dynamically typed values

    The values of [Dict[str, Any]]: what [dict(row)] holds, what
    [asdict] produces and what [json.loads] returns. Numbers with a
    fraction or an exponent are not represented. *)
#[warnings="-register-all"] Inductive Any : Type :=
  | VNone
  | VBool (b : bool)
  | VInt (z : Z)
  | VStr (s : string)
  | VList (l : list Any)
  | VDict (d : list (string * Any)).

(** Reading a value at the type its dataclass annotation gives. *)
Definition as_str (v : Any) : option string :=
  match v with VStr s => Some s | _ => None end.

Definition as_int (v : Any) : option Z :=
  match v with VInt z => Some z | _ => None end.

Definition as_str_list (v : Any) : option (list string) :=
  match v with VList l => mapM as_str l | _ => None end.

Definition as_tags (v : Any) : option (dict (list string)) :=
  match v with
  | VDict d => mapM (fun kv => pair (fst kv) <$> as_str_list (snd kv)) d
  | _ => None
  end.

Definition of_str_list (l : list string) : Any := VList (map VStr l).

Definition of_tags (d : dict (list string)) : Any :=
  VDict (map (fun kv => (fst kv, of_str_list (snd kv))) d).

(** ** Tables *)

(** A row of [prompts], columns in the order of [CREATE TABLE]. *)
Module Row.

Record t : Type := mk {
  id : string;
  title : string;
  use_case : string;
  description : string;
  usage_notes : string;
  version : string;
  created_at : string;
  last_modified : string;
  is_favorite : Z;
  prompt_type : string;
  instructions : string;
  persona : string;
  context : string;
  task : string;
  style : string;
  variables : string
}.

End Row.

(** A row of [tags]. *)
Module Tag.

Record t : Type := mk {
  id : Z;
  name : string;
  category : string
}.

End Tag.

(** A row of [prompt_tags]. *)
Module Link.

Record t : Type := mk {
  prompt_id : string;
  tag_id : Z
}.

End Link.

Record DB : Type := mkDB {
  prompts : list Row.t;
  tags : list Tag.t;
  prompt_tags : list Link.t
}.

(** The database file before any row is written. *)
Definition empty_db : DB := mkDB [] [] [].

(** ** Transactions *)

(** Code run on a connection: [None] is a raised exception. *)
Definition tx (A : Type) : Type := DB → option (A * DB).

#[export] Instance tx_ret : MRet tx := fun A a db => Some (a, db).

#[export] Instance tx_bind : MBind tx := fun A B k m db =>
  match m db with
  | Some (a, db') => k a db'
  | None => None
  end.

Definition tx_raise {A} : tx A := fun _ => None.

Definition tx_read {A} (q : DB → A) : tx A := fun db => Some (q db, db).

Definition tx_write (f : DB → DB) : tx () := fun db => Some ((), f db).

(** A [for] loop whose body runs on the connection. *)
Fixpoint for_each {A} (xs : list A) (body : A → tx ()) : tx () :=
  match xs with
  | [] => mret ()
  | x :: xs' => body x;; for_each xs' body
  end.

(** What a call that opens a connection leaves behind: the value it
    returned with the committed database, or an exception with the
    database as it is after the rollback. *)
Inductive outcome (A : Type) : Type :=
  | Returned (a : A) (db : DB)
  | Raised (db : DB).
Arguments Returned {A} a db.
Arguments Raised {A} db.

(** [get_db_connection]: commit when the body returns, roll back and
    re-raise when it raises. *)
Definition get_db_connection {A} (body : tx A) (db : DB) : outcome A :=
  match body db with
  | Some (a, db') => Returned a db'
  | None => Raised db
  end.

Definition store {A} (o : outcome A) : DB :=
  match o with
  | Returned _ db => db
  | Raised db => db
  end.

(** ** SQL statements

    [PRIMARY KEY] and [UNIQUE] constraints are checked by the statements
    that insert. No statement of the program turns foreign-key
    enforcement on, so SQLite checks no [FOREIGN KEY] clause and runs no
    [ON DELETE CASCADE]. *)

(** [SELECT ... FROM prompts WHERE id = ?], [fetchone()] *)
Definition select_prompt (prompt_id : string) (db : DB) : option Row.t :=
  List.find (fun r => String.eqb (Row.id r) prompt_id) (prompts db).

(** The [SET] clause of the update in [save]: the columns it names take
    the values bound to them, the others ([id], [created_at],
    [is_favorite]) keep theirs. *)
Definition set_columns (current_time : string) (p : Prompt.t) (r : Row.t)
  : Row.t :=
  {| Row.id := Row.id r;
     Row.title := Prompt.title p;
     Row.use_case := Prompt.use_case p;
     Row.description := Prompt.description p;
     Row.usage_notes := Prompt.usage_notes p;
     Row.version := Prompt.version p;
     Row.created_at := Row.created_at r;
     Row.last_modified := current_time;
     Row.is_favorite := Row.is_favorite r;
     Row.prompt_type := Prompt.prompt_type p;
     Row.instructions := Prompt.instructions p;
     Row.persona := Prompt.persona p;
     Row.context := Prompt.context p;
     Row.task := Prompt.task p;
     Row.style := Prompt.style p;
     Row.variables := Prompt.variables p |}.

(** [UPDATE prompts SET title=?, ..., last_modified=? WHERE id=?] *)
Definition update_prompt (current_time : string) (p : Prompt.t) (db : DB)
  : DB :=
  mkDB (map (fun r => if String.eqb (Row.id r) (Prompt.id p)
                      then set_columns current_time p r else r)
            (prompts db))
       (tags db) (prompt_tags db).

(** [INSERT INTO prompts (...) VALUES (...)]; a taken [id] violates the
    primary key. *)
Definition insert_prompt (r : Row.t) : tx () := fun db =>
  if existsb (fun r' => String.eqb (Row.id r') (Row.id r)) (prompts db)
  then None
  else Some ((), mkDB (prompts db ++ [r]) (tags db) (prompt_tags db)).

(** The row [save] inserts for a new prompt. *)
Definition new_row (current_time : string) (p : Prompt.t) : Row.t :=
  {| Row.id := Prompt.id p;
     Row.title := Prompt.title p;
     Row.use_case := Prompt.use_case p;
     Row.description := Prompt.description p;
     Row.usage_notes := Prompt.usage_notes p;
     Row.version := Prompt.version p;
     Row.created_at := current_time;
     Row.last_modified := current_time;
     Row.is_favorite := 0%Z;
     Row.prompt_type := Prompt.prompt_type p;
     Row.instructions := Prompt.instructions p;
     Row.persona := Prompt.persona p;
     Row.context := Prompt.context p;
     Row.task := Prompt.task p;
     Row.style := Prompt.style p;
     Row.variables := Prompt.variables p |}.

(** [DELETE FROM prompt_tags WHERE prompt_id = ?] *)
Definition delete_prompt_tags (prompt_id : string) (db : DB) : DB :=
  mkDB (prompts db) (tags db)
       (List.filter (fun l => negb (String.eqb (Link.prompt_id l) prompt_id))
                    (prompt_tags db)).

(** [DELETE FROM prompts WHERE id = ?] *)
Definition delete_prompt (prompt_id : string) (db : DB) : DB :=
  mkDB (List.filter (fun r => negb (String.eqb (Row.id r) prompt_id))
                    (prompts db))
       (tags db) (prompt_tags db).

Definition same_tag (name category : string) (t : Tag.t) : bool :=
  String.eqb (Tag.name t) name && String.eqb (Tag.category t) category.

(** The next [AUTOINCREMENT] key of [tags]: one more than the largest key
    the table has held; no statement of the program deletes from [tags],
    so that is the largest key it holds. *)
Definition next_tag_id (db : DB) : Z :=
  (1 + foldr Z.max 0 (map Tag.id (tags db)))%Z.

(** [INSERT OR IGNORE INTO tags (name, category) VALUES (?, ?)] *)
Definition insert_or_ignore_tag (name category : string) (db : DB) : DB :=
  if existsb (same_tag name category) (tags db) then db
  else mkDB (prompts db)
            (tags db ++ [Tag.mk (next_tag_id db) name category])
            (prompt_tags db).

(** [SELECT id FROM tags WHERE name = ? AND category = ?], [fetchone()] *)
Definition select_tag_id (name category : string) (db : DB) : option Z :=
  Tag.id <$> List.find (same_tag name category) (tags db).

Definition same_link (prompt_id : string) (tag_id : Z) (l : Link.t) : bool :=
  String.eqb (Link.prompt_id l) prompt_id && Z.eqb (Link.tag_id l) tag_id.

(** [INSERT INTO prompt_tags (prompt_id, tag_id) VALUES (?, ?)]; a pair
    already present violates the primary key. *)
Definition insert_prompt_tag (prompt_id : string) (tag_id : Z) : tx () :=
  fun db =>
    if existsb (same_link prompt_id tag_id) (prompt_tags db) then None
    else Some ((), mkDB (prompts db) (tags db)
                        (prompt_tags db ++ [Link.mk prompt_id tag_id])).

Definition set_favorite (new_status : Z) (r : Row.t) : Row.t :=
  {| Row.id := Row.id r;
     Row.title := Row.title r;
     Row.use_case := Row.use_case r;
     Row.description := Row.description r;
     Row.usage_notes := Row.usage_notes r;
     Row.version := Row.version r;
     Row.created_at := Row.created_at r;
     Row.last_modified := Row.last_modified r;
     Row.is_favorite := new_status;
     Row.prompt_type := Row.prompt_type r;
     Row.instructions := Row.instructions r;
     Row.persona := Row.persona r;
     Row.context := Row.context r;
     Row.task := Row.task r;
     Row.style := Row.style r;
     Row.variables := Row.variables r |}.

(** [UPDATE prompts SET is_favorite = ? WHERE id = ?] *)
Definition update_favorite (new_status : Z) (prompt_id : string) (db : DB)
  : DB :=
  mkDB (map (fun r => if String.eqb (Row.id r) prompt_id
                      then set_favorite new_status r else r)
            (prompts db))
       (tags db) (prompt_tags db).

(** [SELECT t.name, t.category FROM tags t JOIN prompt_tags pt
     ON t.id = pt.tag_id WHERE pt.prompt_id = ?]: one result row per pair
    of a tag and an association that match. The statement has no
    [ORDER BY]; the rows come in the order of [tags]. *)
Definition select_prompt_tags (prompt_id : string) (db : DB)
  : list (string * string) :=
  flat_map
    (fun t =>
       map (fun _ => (Tag.name t, Tag.category t))
           (List.filter (same_link prompt_id (Tag.id t)) (prompt_tags db)))
    (tags db).

(** The byte-wise order of strings. *)
Definition str_le (s1 s2 : string) : Prop := String.leb s1 s2 = true.

#[export] Instance str_le_dec s1 s2 : Decision (str_le s1 s2).
Proof. unfold str_le. apply _. Defined.

Definition by_title (r1 r2 : Row.t) : Prop :=
  str_le (Row.title r1) (Row.title r2).

#[export] Instance by_title_dec r1 r2 : Decision (by_title r1 r2).
Proof. unfold by_title. apply _. Defined.

(** [SELECT * FROM prompts ORDER BY title] *)
Definition select_prompts_by_title (db : DB) : list Row.t :=
  merge_sort by_title (prompts db).

Definition by_name (t1 t2 : Tag.t) : Prop :=
  str_le (Tag.name t1) (Tag.name t2).

#[export] Instance by_name_dec t1 t2 : Decision (by_name t1 t2).
Proof. unfold by_name. apply _. Defined.

(** [SELECT name, category FROM tags ORDER BY name] *)
Definition select_tags_by_name (db : DB) : list (string * string) :=
  map (fun t => (Tag.name t, Tag.category t)) (merge_sort by_name (tags db)).

(** ** Records as dictionaries *)

(** [dict(row)] *)
Definition row_dict (r : Row.t) : dict Any :=
  [ ("id", VStr (Row.id r));
    ("title", VStr (Row.title r));
    ("use_case", VStr (Row.use_case r));
    ("description", VStr (Row.description r));
    ("usage_notes", VStr (Row.usage_notes r));
    ("version", VStr (Row.version r));
    ("created_at", VStr (Row.created_at r));
    ("last_modified", VStr (Row.last_modified r));
    ("is_favorite", VInt (Row.is_favorite r));
    ("prompt_type", VStr (Row.prompt_type r));
    ("instructions", VStr (Row.instructions r));
    ("persona", VStr (Row.persona r));
    ("context", VStr (Row.context r));
    ("task", VStr (Row.task r));
    ("style", VStr (Row.style r));
    ("variables", VStr (Row.variables r)) ].

(** The names of the dataclass fields. *)
Definition valid_keys : list string :=
  [ "id"; "title"; "prompt_type"; "use_case"; "description"; "usage_notes";
    "version"; "persona"; "context"; "task"; "style"; "variables";
    "instructions"; "is_favorite"; "created_at"; "last_modified"; "tags" ].

(** A keyword argument of the constructor, read at the annotated type:
    the default when the key is missing, an error when it is missing and
    has no default. A value of another type than the annotation is
    outside the typed record and is reported as an error too. *)
Definition kwarg {A} (read : Any → option A) (data : dict Any) (k : string)
    (dflt : option A) : option A :=
  match dict_get data k with
  | Some v => read v
  | None => dflt
  end.

(** [Prompt.from_dict] *)
Definition from_dict (data : dict Any) : option Prompt.t :=
  let tags := dict_get_default data "tags" (VDict []) in
  let data := dict_remove data "tags" in
  let filtered_data :=
    List.filter (fun kv => existsb (String.eqb (fst kv)) valid_keys) data in
  id ← kwarg as_str filtered_data "id" None;
  title ← kwarg as_str filtered_data "title" None;
  prompt_type ← kwarg as_str filtered_data "prompt_type" (Some "structured");
  use_case ← kwarg as_str filtered_data "use_case" (Some "");
  description ← kwarg as_str filtered_data "description" (Some "");
  usage_notes ← kwarg as_str filtered_data "usage_notes" (Some "");
  version ← kwarg as_str filtered_data "version" (Some "v1.0");
  persona ← kwarg as_str filtered_data "persona" (Some "");
  context ← kwarg as_str filtered_data "context" (Some "");
  task ← kwarg as_str filtered_data "task" (Some "");
  style ← kwarg as_str filtered_data "style" (Some "");
  variables ← kwarg as_str filtered_data "variables" (Some "");
  instructions ← kwarg as_str filtered_data "instructions" (Some "");
  is_favorite ← kwarg as_int filtered_data "is_favorite" (Some 0%Z);
  created_at ← kwarg as_str filtered_data "created_at" (Some "");
  last_modified ← kwarg as_str filtered_data "last_modified" (Some "");
  tags ← as_tags tags;
  Some (Prompt.mk id title prompt_type use_case description usage_notes
          version persona context task style variables instructions
          is_favorite created_at last_modified tags).

(** [Prompt.to_dict], that is [asdict]. *)
Definition to_dict (self : Prompt.t) : dict Any :=
  [ ("id", VStr (Prompt.id self));
    ("title", VStr (Prompt.title self));
    ("prompt_type", VStr (Prompt.prompt_type self));
    ("use_case", VStr (Prompt.use_case self));
    ("description", VStr (Prompt.description self));
    ("usage_notes", VStr (Prompt.usage_notes self));
    ("version", VStr (Prompt.version self));
    ("persona", VStr (Prompt.persona self));
    ("context", VStr (Prompt.context self));
    ("task", VStr (Prompt.task self));
    ("style", VStr (Prompt.style self));
    ("variables", VStr (Prompt.variables self));
    ("instructions", VStr (Prompt.instructions self));
    ("is_favorite", VInt (Prompt.is_favorite self));
    ("created_at", VStr (Prompt.created_at self));
    ("last_modified", VStr (Prompt.last_modified self));
    ("tags", of_tags (Prompt.tags self)) ].

(** ** PromptRepository *)

(** The tag dictionary the loaders build from the rows of the join. *)
Definition group_tags (rows : list (string * string)) : dict (list string) :=
  foldl (fun d tag => dict_append d (snd tag) (fst tag)) [] rows.

(** The body both loaders run for one row of [prompts]. *)
Definition load_prompt (row : Row.t) : tx Prompt.t :=
  let prompt_dict := row_dict row in
  tags ← tx_read (select_prompt_tags (Row.id row));
  let prompt_dict := dict_set prompt_dict "tags" (of_tags (group_tags tags)) in
  match from_dict prompt_dict with
  | Some prompt => mret prompt
  | None => tx_raise
  end.

Fixpoint load_prompts (rows : list Row.t) : tx (list Prompt.t) :=
  match rows with
  | [] => mret []
  | row :: rows' =>
      prompt ← load_prompt row;
      prompts ← load_prompts rows';
      mret (prompt :: prompts)
  end.

(** [PromptRepository.get_all] *)
Definition get_all : DB → outcome (list Prompt.t) :=
  get_db_connection (
    rows ← tx_read select_prompts_by_title;
    load_prompts rows).

(** [PromptRepository.get_by_id] *)
Definition get_by_id (prompt_id : string) : DB → outcome (option Prompt.t) :=
  get_db_connection (
    row ← tx_read (select_prompt prompt_id);
    match row with
    | None => mret None
    | Some row => prompt ← load_prompt row; mret (Some prompt)
    end).

(** The body of the inner loop of [save]: make sure the tag exists, fetch
    its key ([fetchone()[0]] raises when there is no row) and associate
    it with the prompt. *)
Definition attach_tag (prompt_id category tag_name : string) : tx () :=
  tx_write (insert_or_ignore_tag tag_name category);;
  found ← tx_read (select_tag_id tag_name category);
  match found with
  | Some tag_id => insert_prompt_tag prompt_id tag_id
  | None => tx_raise
  end.

(** The statements of [save], run on its connection. *)
Definition save_body (current_time : string) (prompt : Prompt.t)
    (tags_data : dict (list string)) : tx () :=
  exists_ ← tx_read (select_prompt (Prompt.id prompt));
  (if exists_ is Some _
   then tx_write (update_prompt current_time prompt)
   else insert_prompt (new_row current_time prompt));;
  tx_write (delete_prompt_tags (Prompt.id prompt));;
  for_each tags_data (fun item =>
    for_each (snd item) (attach_tag (Prompt.id prompt) (fst item))).

(** [PromptRepository.save]; [current_time] is the formatted reading of
    the clock. *)
Definition save (current_time : string) (prompt : Prompt.t)
    (tags_data : dict (list string)) : DB → outcome () :=
  get_db_connection (save_body current_time prompt tags_data).

(** [PromptRepository.delete] *)
Definition delete (prompt_id : string) : DB → outcome bool :=
  get_db_connection (
    tx_write (delete_prompt_tags prompt_id);;
    tx_write (delete_prompt prompt_id);;
    mret true).

(** [PromptRepository.toggle_favorite] *)
Definition toggle_favorite (prompt_id : string) (current_status : Z)
  : DB → outcome () :=
  get_db_connection (
    let new_status := if Z.eqb current_status 0 then 1%Z else 0%Z in
    tx_write (update_favorite new_status prompt_id)).

(** Sequencing two calls that each open their own connection. *)
Definition and_then {A B} (o : outcome A) (k : A → DB → outcome B)
  : outcome B :=
  match o with
  | Returned a db => k a db
  | Raised db => Raised db
  end.

(** [PromptRepository.duplicate]; [new_id] is the value of
    [str(uuid.uuid4())]. *)
Definition duplicate (new_id current_time : string) (prompt_id : string)
    (db : DB) : outcome (option string) :=
  and_then (get_by_id prompt_id db) (fun original db =>
    match original with
    | None => Returned None db
    | Some original =>
        let original :=
          {| Prompt.id := new_id;
             Prompt.title := Prompt.title original ++ " (Copy)";
             Prompt.prompt_type := Prompt.prompt_type original;
             Prompt.use_case := Prompt.use_case original;
             Prompt.description := Prompt.description original;
             Prompt.usage_notes := Prompt.usage_notes original;
             Prompt.version := Prompt.version original;
             Prompt.persona := Prompt.persona original;
             Prompt.context := Prompt.context original;
             Prompt.task := Prompt.task original;
             Prompt.style := Prompt.style original;
             Prompt.variables := Prompt.variables original;
             Prompt.instructions := Prompt.instructions original;
             Prompt.is_favorite := 0;
             Prompt.created_at := "";
             Prompt.last_modified := "";
             Prompt.tags := Prompt.tags original |} in
        and_then (save current_time original (Prompt.tags original) db)
          (fun _ db => Returned (Some new_id) db)
    end).

(** [PromptRepository.export_all]; [json_dumps] stands for
    [json.dumps(_, indent=2)]. *)
Definition export_all (json_dumps : Any → string) (db : DB)
  : outcome string :=
  and_then (get_all db) (fun prompts db =>
    let data := map (fun p => VDict (to_dict p)) prompts in
    Returned (json_dumps (VList data)) db).

(** What [for item in data] runs over: the elements of a list, the keys
    of a dictionary, the characters of a string (here its bytes, each of
    them a string on which the loop body fails alike); other values are
    not iterable. *)
Definition iterate (data : Any) : option (list Any) :=
  match data with
  | VList l => Some l
  | VDict d => Some (map (fun kv => VStr (fst kv)) d)
  | VStr s => Some (map (fun c => VStr (String c EmptyString))
                        (list_ascii_of_string s))
  | _ => None
  end.

(** The part of the loop body of [import_from_json] that precedes the
    call of [save]: [item.pop('tags', {})], the assignment of the fresh
    id and [Prompt.from_dict]; the tag map is read at the type [save]
    declares for it. *)
Definition import_item (new_id : string) (item : Any)
  : option (Prompt.t * dict (list string)) :=
  match item with
  | VDict item =>
      let tags := dict_get_default item "tags" (VDict []) in
      let item := dict_remove item "tags" in
      let item := dict_set item "id" (VStr new_id) in
      prompt ← from_dict item;
      tags ← as_tags tags;
      Some (prompt, tags)
  | _ => None
  end.

(** The loop of [import_from_json] from its [i]-th round on; [uuid4 i]
    and [utcnow i] are the id drawn and the clock read in round [i]. Every
    [save] commits on its own, so an exception in a later round leaves
    the earlier rounds in the database. *)
Fixpoint import_items (uuid4 utcnow : nat → string) (i : nat)
    (items : list Any) (count : nat) (db : DB) : outcome nat :=
  match items with
  | [] => Returned count db
  | item :: items' =>
      match import_item (uuid4 i) item with
      | None => Raised db
      | Some (prompt, tags) =>
          and_then (save (utcnow i) prompt tags db) (fun _ db =>
            import_items uuid4 utcnow (S i) items' (S count) db)
      end
  end.

(** [PromptRepository.import_from_json]; [json_loads] stands for
    [json.loads], [None] for its [JSONDecodeError]. *)
Definition import_from_json (json_loads : string → option Any)
    (uuid4 utcnow : nat → string) (json_str : string) (db : DB)
  : outcome nat :=
  match json_loads json_str with
  | None => Raised db
  | Some data =>
      match iterate data with
      | None => Raised db
      | Some items => import_items uuid4 utcnow 0 items 0 db
      end
  end.

(** ** Tag directory *)

(** [TAG_CATEGORIES], in the order of the source. *)
Definition TAG_CATEGORIES : dict (list string) :=
  [ ("Abstraction Level",
     [ "framework"; "meta-prompt"; "ready-to-use"; "snippet"; "template" ]);
    ("Complexity",
     [ "basic"; "simple"; "intermediate"; "advanced"; "expert" ]);
    ("Language",
     [ "de-DE"; "en-GB"; "en-US"; "es-ES"; "fr-FR"; "nb-NO"; "sv-SE" ]);
    ("Task Type",
     [ "analysis"; "automation"; "brainstorming"; "classification";
     "code-generation"; "comparison"; "conversation"; "data-extraction";
     "debugging"; "decision-support"; "documentation"; "editing";
     "evaluation"; "explanation"; "generation"; "planning";
     "question-answering"; "reasoning"; "refactoring"; "research";
     "summarization"; "transformation"; "translation"; "validation";
     "writing" ]);
    ("Domain",
     [ "agriculture"; "business"; "creative"; "education"; "engineering";
     "finance"; "healthcare"; "legal"; "manufacturing"; "marketing";
     "media"; "non-profit"; "real-estate"; "retail"; "sales"; "science";
     "security"; "software"; "technology"; "telecommunications" ]);
    ("Function",
     [ "administration"; "business-development"; "communications";
     "consulting"; "customer-support"; "data-analysis"; "design"; "devops";
     "executive"; "finance-accounting"; "hr"; "it-operations";
     "legal-compliance"; "operations"; "product-management";
     "project-management"; "quality-assurance"; "research-development";
     "sales-marketing"; "strategy"; "training" ]);
    ("Use Case",
     [ "career-development"; "code-review"; "content-creation";
     "cover-letter"; "crm-management"; "data-pipeline"; "email-drafting";
     "interview-prep"; "job-application"; "knowledge-management";
     "learning"; "meeting-notes"; "networking"; "onboarding";
     "personal-assistant"; "presentation"; "process-automation";
     "proposal-writing"; "report-generation"; "resume-cv";
     "seo-optimization"; "social-media"; "system-design";
     "team-collaboration"; "technical-writing"; "time-management";
     "troubleshooting"; "workflow-automation" ]);
    ("Prompt Technique",
     [ "chain-of-draft"; "chain-of-thought"; "constrained-generation";
     "context-stuffing"; "fabric-pattern"; "few-shot";
     "instruction-following"; "iterative-refinement"; "least-to-most";
     "mega-prompt"; "meta-prompting"; "multi-agent"; "persona-based";
     "RAG"; "ReAct"; "reflexion"; "role-prompting"; "self-consistency";
     "self-critique"; "self-refinement"; "tree-of-thought"; "zero-shot" ]);
    ("Prompt Structure",
     [ "atomic"; "conditional"; "conversational"; "fabric-pattern";
     "hierarchical"; "modular"; "nate-prompt"; "sequential";
     "system-user-assistant"; "template-based" ]);
    ("Input Type",
     [ "audio"; "code"; "conversation-history"; "document"; "form-data";
     "image"; "structured-data"; "text"; "url"; "video" ]);
    ("Content Source",
     [ "API"; "blog"; "book"; "code-repository"; "database"; "documentation";
     "email"; "general-knowledge"; "news-article"; "PDF"; "podcast";
     "research-paper"; "RSS-feed"; "social-media"; "spreadsheet";
     "transcript"; "webpage"; "wiki"; "YouTube" ]);
    ("Output Format",
     [ "bullet-list"; "checklist"; "code"; "CSV"; "diagram"; "email"; "HTML";
     "JSON"; "JSONL"; "markdown"; "numbered-list"; "plain-text"; "report";
     "slides"; "structured-plan"; "table"; "XML"; "YAML" ]);
    ("Tone",
     [ "assertive"; "casual"; "confident"; "constructive"; "diplomatic";
     "direct"; "empathetic"; "encouraging"; "enthusiastic"; "formal";
     "friendly"; "humorous"; "inquisitive"; "neutral"; "persuasive";
     "professional"; "supportive"; "technical"; "witty" ]);
    ("Audience",
     [ "beginner"; "child"; "colleague"; "customer"; "developer";
     "executive"; "expert"; "general-public"; "investor"; "manager";
     "non-technical"; "recruiter"; "student"; "technical" ]);
    ("Model Family",
     [ "Claude"; "DeepSeek"; "Gemini"; "GLM"; "GPT"; "Grok"; "Kimi"; "Llama";
     "Mistral"; "Qwen"; "Stable-Diffusion" ]);
    ("Model",
     [ "Claude 3 Haiku"; "Claude 3 Opus"; "Claude 3 Sonnet";
     "Claude 3.5 Haiku"; "Claude 3.5 Sonnet"; "Claude 4 Opus";
     "Claude 4 Sonnet"; "Claude 4.5 Haiku"; "Claude 4.5 Opus";
     "Claude 4.5 Sonnet"; "DeepSeek-R1"; "DeepSeek-V3"; "Gemini 2.0 Flash";
     "Gemini 2.5 Flash"; "Gemini 2.5 Pro"; "GLM-4"; "GLM-4V";
     "GPT-3.5 Turbo"; "GPT-4"; "GPT-4 Turbo"; "GPT-4.1"; "GPT-4.1 mini";
     "GPT-4o"; "GPT-4o mini"; "GPT-o1"; "GPT-o1 mini"; "GPT-o3";
     "GPT-o3 mini"; "GPT-o4 mini"; "Grok-2"; "Grok-3"; "Kimi K2";
     "Llama 3.1"; "Llama 3.2"; "Llama 3.3"; "Llama 4 Maverick";
     "Llama 4 Scout"; "Mistral Large"; "Mistral Medium"; "Mistral Small";
     "Model-Agnostic"; "Qwen 2.5"; "Qwen 3"; "Stable Diffusion 3.5";
     "Stable Diffusion XL" ]);
    ("Platform",
     [ "Anthropic API"; "AWS Bedrock"; "Azure OpenAI"; "Google AI Studio";
     "Google Vertex AI"; "Groq"; "Hugging Face"; "LangChain"; "LlamaIndex";
     "NotebookLM"; "Ollama"; "OpenAI API"; "OpenRouter"; "Perplexity";
     "Replicate"; "Together AI" ]);
    ("Safety & Guardrails",
     [ "bias-mitigation"; "content-filtering"; "ethical-guardrails";
     "factual-grounding"; "hallucination-prevention";
     "jailbreak-prevention"; "output-validation"; "pii-protection";
     "prompt-injection-defense"; "rate-limiting"; "source-citation";
     "toxicity-filtering"; "uncertainty-flagging" ]);
    ("Quality Attributes",
     [ "accuracy"; "actionable"; "clarity"; "completeness"; "conciseness";
     "consistency"; "creativity"; "depth"; "objectivity"; "originality";
     "relevance"; "reproducibility"; "specificity"; "structured" ]);
    ("Status",
     [ "archived"; "deprecated"; "draft"; "experimental"; "production";
     "review"; "stable"; "testing" ]) ].

(** The body of the loop over the rows of [tags]. *)
Definition add_db_tag (categorized_tags : dict (list string))
    (tag : string * string) : dict (list string) :=
  let name := fst tag in
  let category := snd tag in
  let present := dict_get_default categorized_tags category [] in
  if dict_contains categorized_tags category
     && negb (existsb (String.eqb name) present)
  then dict_set categorized_tags category (present ++ [name])%list
  else categorized_tags.

(** The loop that sorts every list but that of "Complexity". *)
Definition sort_tag_lists (categorized_tags : dict (list string))
  : dict (list string) :=
  map (fun kv =>
         (fst kv,
          if String.eqb (fst kv) "Complexity" then snd kv
          else merge_sort str_le (snd kv)))
      categorized_tags.

(** [get_all_tags_by_category] *)
Definition get_all_tags_by_category (db : DB)
  : outcome (dict (list string)) :=
  let categorized_tags := TAG_CATEGORIES in
  and_then
    (get_db_connection (
       db_tags ← tx_read select_tags_by_name;
       mret (foldl add_db_tag categorized_tags db_tags)) db)
    (fun categorized_tags db =>
       Returned (sort_tag_lists categorized_tags) db).

(** ** Tag filters of the library page *)

(** [set(tags).issubset(set(have))] *)
Definition issubset (tags have : list string) : bool :=
  bool_decide (list_to_set tags ⊆@{gset string} list_to_set have).

(** One round of the loop over [selected_tags.items()]. *)
Definition tag_filter (filtered_prompts : list Prompt.t)
    (item : string * list string) : list Prompt.t :=
  let category := fst item in
  let tags := snd item in
  if tags is [] then filtered_prompts
  else
    List.filter
      (fun p =>
         (if Prompt.tags p is [] then false else true)
         && issubset tags (dict_get_default (Prompt.tags p) category []))
      filtered_prompts.

(** The tag-filter stage of [render_library_page]. *)
Definition tag_filters (selected_tags : dict (list string))
    (filtered_prompts : list Prompt.t) : list Prompt.t :=
  foldl tag_filter filtered_prompts selected_tags.

(** ** Integrity of a database *)

Definition prompt_ids (db : DB) : list string := map Row.id (prompts db).

Definition tag_key (t : Tag.t) : string * string :=
  (Tag.name t, Tag.category t).

(** What the schema declares and SQLite checks ([PRIMARY KEY], [UNIQUE]),
    and the reference from an association to its tag, which the program
    keeps by never deleting a tag. *)
Record db_ok (db : DB) : Prop := mk_db_ok {
  ok_prompt_ids : NoDup (prompt_ids db);
  ok_tag_ids : NoDup (map Tag.id (tags db));
  ok_tag_keys : NoDup (map tag_key (tags db));
  ok_links : NoDup (prompt_tags db);
  ok_tag_refs :
    ∀ l, l ∈ prompt_tags db → Link.tag_id l ∈ map Tag.id (tags db)
}.

(** No association row references a prompt id absent from [prompts]. *)
Definition prompt_refs_ok (db : DB) : Prop :=
  ∀ l, l ∈ prompt_tags db → Link.prompt_id l ∈ prompt_ids db.

#[export] Instance link_eq_dec : EqDecision Link.t.
Proof. solve_decision. Defined.

(** The integrity conditions in a form that can be decided on a given
    database. *)
Definition db_ok_check (db : DB) : Prop :=
  NoDup (prompt_ids db)
  ∧ NoDup (map Tag.id (tags db))
  ∧ NoDup (map tag_key (tags db))
  ∧ NoDup (prompt_tags db)
  ∧ Forall (fun l => Link.tag_id l ∈ map Tag.id (tags db)) (prompt_tags db).

#[export] Instance db_ok_check_dec db : Decision (db_ok_check db).
Proof. unfold db_ok_check. apply _. Defined.

Definition prompt_refs_check (db : DB) : Prop :=
  Forall (fun l => Link.prompt_id l ∈ prompt_ids db) (prompt_tags db).

#[export] Instance prompt_refs_check_dec db : Decision (prompt_refs_check db).
Proof. unfold prompt_refs_check. apply _. Defined.

(** ** The effect of [save] on the tables *)

(** The row [save] leaves for the prompt: the updated row when one is
    there, the inserted row otherwise. *)
Definition stored_row (current_time : string) (p : Prompt.t) (db : DB)
  : Row.t :=
  match select_prompt (Prompt.id p) db with
  | Some r => set_columns current_time p r
  | None => new_row current_time p
  end.

(** The database after the first statements of [save], up to the loop. *)
Definition upsert (current_time : string) (p : Prompt.t) (db : DB) : DB :=
  match select_prompt (Prompt.id p) db with
  | Some _ => update_prompt current_time p db
  | None =>
      mkDB (prompts db ++ [new_row current_time p]) (tags db) (prompt_tags db)
  end.

(** The two loops of [save] as one loop over the pairs. *)
Definition attach_all (prompt_id : string) (pairs : list (string * string))
  : tx () :=
  for_each pairs (fun cn => attach_tag prompt_id (fst cn) (snd cn)).

(** ** Tag maps *)

(** The (category, value) pairs of a tag map, in the order [save] visits
    them. *)
Definition tag_pairs (tags_data : dict (list string))
  : list (string * string) :=
  flat_map (fun item => map (pair (fst item)) (snd item)) tags_data.

(** A tag map whose value lists are sets: no category twice, no value
    twice under a category. *)
Definition tag_map_ok (tags_data : dict (list string)) : Prop :=
  dict_wf tags_data ∧ ∀ item, item ∈ tags_data → NoDup (snd item).

Definition tag_map_check (tags_data : dict (list string)) : Prop :=
  NoDup (dict_keys tags_data)
  ∧ Forall (fun item : string * list string => NoDup (snd item)) tags_data.

#[export] Instance tag_map_check_dec tags_data
  : Decision (tag_map_check tags_data).
Proof. unfold tag_map_check. apply _. Defined.

(** The values under a category; none when the category is missing. *)
Definition values_of (d : dict (list string)) (category : string)
  : list string :=
  dict_get_default d category [].

(** Two tag maps with the same categories and, under each, the same set
    of values. *)
Definition same_tag_map (d1 d2 : dict (list string)) : Prop :=
  (∀ c, c ∈ dict_keys d1 ↔ c ∈ dict_keys d2)
  ∧ ∀ c v, v ∈ values_of d1 c ↔ v ∈ values_of d2 c.

(** The tag map without the categories that have no value. *)
Definition drop_empty (d : dict (list string)) : dict (list string) :=
  List.filter (fun item => if snd item is [] then false else true) d.

(** The record the loaders build from a row and its tag map. *)
Definition prompt_of_row (row : Row.t) (tags : dict (list string))
  : Prompt.t :=
  {| Prompt.id := Row.id row;
     Prompt.title := Row.title row;
     Prompt.prompt_type := Row.prompt_type row;
     Prompt.use_case := Row.use_case row;
     Prompt.description := Row.description row;
     Prompt.usage_notes := Row.usage_notes row;
     Prompt.version := Row.version row;
     Prompt.persona := Row.persona row;
     Prompt.context := Row.context row;
     Prompt.task := Row.task row;
     Prompt.style := Row.style row;
     Prompt.variables := Row.variables row;
     Prompt.instructions := Row.instructions row;
     Prompt.is_favorite := Row.is_favorite row;
     Prompt.created_at := Row.created_at row;
     Prompt.last_modified := Row.last_modified row;
     Prompt.tags := tags |}.

(** The fields of a prompt that [save] writes from its argument. *)
Definition content (p : Prompt.t) : list string :=
  [ Prompt.title p; Prompt.prompt_type p; Prompt.use_case p;
    Prompt.description p; Prompt.usage_notes p; Prompt.version p;
    Prompt.persona p; Prompt.context p; Prompt.task p; Prompt.style p;
    Prompt.variables p; Prompt.instructions p ].

(** ** Export and import of a library *)

(** The value [export_all] serialises. *)
Definition document (exported : list Prompt.t) : Any :=
  VList (map (fun p => VDict (to_dict p)) exported).

(** The record [import_from_json] hands to [save] for an exported record:
    the fresh id replaces the exported one, and [from_dict], which finds
    no "tags" key left, gives it the empty tag map. *)
Definition imported_as (new_id : string) (p : Prompt.t) : Prompt.t :=
  {| Prompt.id := new_id;
     Prompt.title := Prompt.title p;
     Prompt.prompt_type := Prompt.prompt_type p;
     Prompt.use_case := Prompt.use_case p;
     Prompt.description := Prompt.description p;
     Prompt.usage_notes := Prompt.usage_notes p;
     Prompt.version := Prompt.version p;
     Prompt.persona := Prompt.persona p;
     Prompt.context := Prompt.context p;
     Prompt.task := Prompt.task p;
     Prompt.style := Prompt.style p;
     Prompt.variables := Prompt.variables p;
     Prompt.instructions := Prompt.instructions p;
     Prompt.is_favorite := Prompt.is_favorite p;
     Prompt.created_at := Prompt.created_at p;
     Prompt.last_modified := Prompt.last_modified p;
     Prompt.tags := [] |}.

(** The ids drawn in the rounds [i], ..., [i + n - 1] of an import. *)
Definition drawn (uuid4 : nat → string) (i n : nat) : list string :=
  map uuid4 (seq i n).

(** The ids an import of [n] records draws are new: pairwise distinct and
    not in the database. *)
Definition fresh_ids (uuid4 : nat → string) (n : nat) (db : DB) : Prop :=
  NoDup (drawn uuid4 0 n) ∧ ∀ i, i ∈ drawn uuid4 0 n → i ∉ prompt_ids db.

Definition fresh_ids_check (uuid4 : nat → string) (n : nat) (db : DB)
  : Prop :=
  NoDup (drawn uuid4 0 n)
  ∧ Forall (fun i => i ∉ prompt_ids db) (drawn uuid4 0 n).

#[export] Instance fresh_ids_check_dec uuid4 n db
  : Decision (fresh_ids_check uuid4 n db).
Proof. unfold fresh_ids_check. apply _. Defined.

(** ** A reference instance of the [json] functions

    [json.dumps(_, indent=2)] and [json.loads] are library functions; the
    repository operations take them as arguments. The instance below is
    used to run the operations on sample data. It covers the values of
    [Any] and ASCII text: a number with a fraction or an exponent and a
    [\u] escape above [00ff] are not read. *)

(** The double quote. *)
Definition DQ : ascii := "034"%char.

Definition hex_digit (n : N) : ascii :=
  ascii_of_N (if (n <? 10)%N then 48 + n else 87 + n).

(** A character inside a JSON string literal. *)
Definition escape_char (c : ascii) : string :=
  if Ascii.eqb c DQ then String "\" (String DQ "")
  else if Ascii.eqb c "\" then "\\"
  else if Ascii.eqb c "010" then "\n"
  else if Ascii.eqb c "013" then "\r"
  else if Ascii.eqb c "009" then "\t"
  else if Ascii.eqb c "008" then "\b"
  else if Ascii.eqb c "012" then "\f"
  else if (N_of_ascii c <? 32)%N then
    "\u00" ++ String (hex_digit (N_of_ascii c / 16))
                (String (hex_digit (N_of_ascii c mod 16)) "")
  else String c "".

Fixpoint escape (s : string) : string :=
  match s with
  | EmptyString => ""
  | String c s' => escape_char c ++ escape s'
  end.

Definition quote (s : string) : string :=
  String DQ (escape s ++ String DQ "").

Fixpoint spaces (n : nat) : string :=
  match n with
  | O => ""
  | S n' => " " ++ spaces n'
  end.

(** The text of a value whose opening bracket is indented by [level]
    steps of two spaces. *)
Fixpoint dumps_at (level : nat) (v : Any) : string :=
  let inner := LF ++ spaces (2 * S level) in
  let close := LF ++ spaces (2 * level) in
  match v with
  | VNone => "null"
  | VBool true => "true"
  | VBool false => "false"
  | VInt z => NilZero.string_of_int (Z.to_int z)
  | VStr s => quote s
  | VList [] => "[]"
  | VList l =>
      "[" ++ inner
      ++ String.concat ("," ++ inner) (map (dumps_at (S level)) l)
      ++ close ++ "]"
  | VDict [] => "{}"
  | VDict d =>
      "{" ++ inner
      ++ String.concat ("," ++ inner)
           (map (fun kv => let '(k, x) := kv in
                           quote k ++ ": " ++ dumps_at (S level) x) d)
      ++ close ++ "}"
  end.

Definition ref_dumps (v : Any) : string := dumps_at 0 v.

Definition is_ws (c : ascii) : bool :=
  Ascii.eqb c " " || Ascii.eqb c "010" || Ascii.eqb c "013"
  || Ascii.eqb c "009".

Fixpoint skip_ws (s : list ascii) : list ascii :=
  match s with
  | c :: s' => if is_ws c then skip_ws s' else s
  | [] => []
  end.

Definition is_digit (c : ascii) : bool :=
  (48 <=? N_of_ascii c)%N && (N_of_ascii c <=? 57)%N.

Definition hex_value (c : ascii) : option N :=
  let n := N_of_ascii c in
  if (48 <=? n)%N && (n <=? 57)%N then Some (n - 48)%N
  else if (97 <=? n)%N && (n <=? 102)%N then Some (n - 87)%N
  else if (65 <=? n)%N && (n <=? 70)%N then Some (n - 55)%N
  else None.

(** The rest of a string literal, after its opening quote. *)
Fixpoint read_string (s : list ascii) (acc : string)
  : option (string * list ascii) :=
  match s with
  | [] => None
  | c :: s' =>
      if Ascii.eqb c DQ then Some (String.rev acc, s')
      else if Ascii.eqb c "\" then
        match s' with
        | e :: s'' =>
            if Ascii.eqb e "u" then
              match s'' with
              | "0"%char :: "0"%char :: h :: l :: s3 =>
                  match hex_value h, hex_value l with
                  | Some h, Some l =>
                      read_string s3 (String (ascii_of_N (16 * h + l)) acc)
                  | _, _ => None
                  end
              | _ => None
              end
            else
              let plain (c : ascii) := read_string s'' (String c acc) in
              if Ascii.eqb e "n" then plain "010"%char
              else if Ascii.eqb e "r" then plain "013"%char
              else if Ascii.eqb e "t" then plain "009"%char
              else if Ascii.eqb e "b" then plain "008"%char
              else if Ascii.eqb e "f" then plain "012"%char
              else if Ascii.eqb e DQ || Ascii.eqb e "\" || Ascii.eqb e "/"
              then plain e
              else None
        | [] => None
        end
      else if (N_of_ascii c <? 32)%N then None
      else read_string s' (String c acc)
  end.

(** The digits at the head of the text. *)
Fixpoint read_digits (s : list ascii) (acc : string)
  : string * list ascii :=
  match s with
  | c :: s' =>
      if is_digit c then read_digits s' (String c acc)
      else (String.rev acc, s)
  | [] => (String.rev acc, [])
  end.

(** An integer literal: an optional sign and digits without a leading
    zero; a literal that goes on as a fraction or an exponent is not
    read. *)
Definition read_int (s : list ascii) : option (Z * list ascii) :=
  let (sign, s) :=
    match s with
    | "-"%char :: s' => ("-", s')
    | _ => (EmptyString, s)
    end in
  let (digits, rest) := read_digits s EmptyString in
  let leading_zero :=
    match digits with
    | String "0" (String _ _) => true
    | _ => false
    end in
  let goes_on :=
    match rest with
    | c :: _ => Ascii.eqb c "." || Ascii.eqb c "e" || Ascii.eqb c "E"
    | [] => false
    end in
  if leading_zero || goes_on then None
  else z ← NilZero.int_of_string (sign ++ digits); Some (Z.of_int z, rest).

Definition read_word (word : string) (v : Any) (s : list ascii)
  : option (Any * list ascii) :=
  let w := list_ascii_of_string word in
  if bool_decide (take (length w) s = w)
  then Some (v, drop (length w) s) else None.

(** Recursive descent; [fuel] bounds the number of nested calls. *)
Fixpoint parse_value (fuel : nat) (s : list ascii) {struct fuel}
  : option (Any * list ascii) :=
  match fuel with
  | O => None
  | S fuel =>
      match skip_ws s with
      | [] => None
      | c :: rest =>
          if Ascii.eqb c "[" then
            match skip_ws rest with
            | "]"%char :: rest' => Some (VList [], rest')
            | _ => parse_elements fuel rest []
            end
          else if Ascii.eqb c "{" then
            match skip_ws rest with
            | "}"%char :: rest' => Some (VDict [], rest')
            | _ => parse_members fuel rest []
            end
          else if Ascii.eqb c DQ then
            '(str, rest') ← read_string rest EmptyString;
            Some (VStr str, rest')
          else if Ascii.eqb c "n" then read_word "null" VNone (c :: rest)
          else if Ascii.eqb c "t" then
            read_word "true" (VBool true) (c :: rest)
          else if Ascii.eqb c "f" then
            read_word "false" (VBool false) (c :: rest)
          else
            '(z, rest') ← read_int (c :: rest);
            Some (VInt z, rest')
      end
  end
with parse_elements (fuel : nat) (s : list ascii) (acc : list Any)
    {struct fuel} : option (Any * list ascii) :=
  match fuel with
  | O => None
  | S fuel =>
      '(v, rest) ← parse_value fuel s;
      match skip_ws rest with
      | ","%char :: rest' => parse_elements fuel rest' (acc ++ [v])
      | "]"%char :: rest' => Some (VList (acc ++ [v]), rest')
      | _ => None
      end
  end
with parse_members (fuel : nat) (s : list ascii) (acc : dict Any)
    {struct fuel} : option (Any * list ascii) :=
  match fuel with
  | O => None
  | S fuel =>
      match skip_ws s with
      | c :: rest =>
          if Ascii.eqb c DQ then
            '(key, rest) ← read_string rest EmptyString;
            match skip_ws rest with
            | ":"%char :: rest =>
                '(v, rest) ← parse_value fuel rest;
                match skip_ws rest with
                | ","%char :: rest' =>
                    parse_members fuel rest' (dict_set acc key v)
                | "}"%char :: rest' => Some (VDict (dict_set acc key v), rest')
                | _ => None
                end
            | _ => None
            end
          else None
      | [] => None
      end
  end.

Definition ref_loads (text : string) : option Any :=
  let s := list_ascii_of_string text in
  '(v, rest) ← parse_value (2 * length s + 2) s;
  if skip_ws rest is [] then Some v else None.

(** ** The tag filter in the words of the specification *)

(** For each category of the selection, the values the prompt has under
    it include every selected value. *)
Definition matches (selected_tags : dict (list string)) (p : Prompt.t)
  : Prop :=
  Forall (fun item =>
            Forall (fun v => v ∈ values_of (Prompt.tags p) (fst item))
                   (snd item))
         selected_tags.

#[export] Instance matches_dec selected_tags p
  : Decision (matches selected_tags p).
Proof. unfold matches. apply _. Defined.

(** ** Reading the result of a call *)

(** The value a call returned; none when it raised. *)
Definition returned {A} (o : outcome A) : option A :=
  match o with
  | Returned a _ => Some a
  | Raised _ => None
  end.

(** [p] with another favorite flag. *)
Definition with_favorite (flag : Z) (p : Prompt.t) : Prompt.t :=
  {| Prompt.id := Prompt.id p;
     Prompt.title := Prompt.title p;
     Prompt.prompt_type := Prompt.prompt_type p;
     Prompt.use_case := Prompt.use_case p;
     Prompt.description := Prompt.description p;
     Prompt.usage_notes := Prompt.usage_notes p;
     Prompt.version := Prompt.version p;
     Prompt.persona := Prompt.persona p;
     Prompt.context := Prompt.context p;
     Prompt.task := Prompt.task p;
     Prompt.style := Prompt.style p;
     Prompt.variables := Prompt.variables p;
     Prompt.instructions := Prompt.instructions p;
     Prompt.is_favorite := flag;
     Prompt.created_at := Prompt.created_at p;
     Prompt.last_modified := Prompt.last_modified p;
     Prompt.tags := Prompt.tags p |}.

(** The record [from_dict] builds when only the two required keys are
    given: every other field takes the default of the dataclass. *)
Definition default_prompt (id title : string) : Prompt.t :=
  {| Prompt.id := id;
     Prompt.title := title;
     Prompt.prompt_type := "structured";
     Prompt.use_case := "";
     Prompt.description := "";
     Prompt.usage_notes := "";
     Prompt.version := "v1.0";
     Prompt.persona := "";
     Prompt.context := "";
     Prompt.task := "";
     Prompt.style := "";
     Prompt.variables := "";
     Prompt.instructions := "";
     Prompt.is_favorite := 0;
     Prompt.created_at := "";
     Prompt.last_modified := "";
     Prompt.tags := [] |}.

(** ** The result list of the library page

    The stages of [render_library_page] between loading and rendering.
    [lower] stands for [str.lower]. *)

(** [needle in hay], on strings. *)
Fixpoint contains (needle hay : string) : bool :=
  String.prefix needle hay
  || match hay with
     | EmptyString => false
     | String _ hay' => contains needle hay'
     end.

(** The favorites stage. *)
Definition favorites_filter (show_favorites : bool)
    (filtered_prompts : list Prompt.t) : list Prompt.t :=
  if show_favorites
  then List.filter (fun p => Z.eqb (Prompt.is_favorite p) 1) filtered_prompts
  else filtered_prompts.

(** The fields the search looks into, in the order of the source. *)
Definition searched_fields (p : Prompt.t) : list string :=
  [ Prompt.title p; Prompt.use_case p; Prompt.description p;
    Prompt.instructions p; Prompt.task p; Prompt.persona p;
    Prompt.context p ].

(** The condition of the search stage on one prompt. *)
Definition search_hit (lower : string → string) (query : string)
    (p : Prompt.t) : bool :=
  contains query (lower (Prompt.title p))
  || contains query (lower (Prompt.use_case p))
  || contains query (lower (Prompt.description p))
  || contains query (lower (Prompt.instructions p))
  || contains query (lower (Prompt.task p))
  || contains query (lower (Prompt.persona p))
  || contains query (lower (Prompt.context p)).

(** The search stage. *)
Definition search_filter (lower : string → string) (search_query : string)
    (filtered_prompts : list Prompt.t) : list Prompt.t :=
  if truthy search_query then
    let query := lower search_query in
    List.filter (search_hit lower query) filtered_prompts
  else filtered_prompts.

(** [list.sort(key=..., reverse=...)] on keys that are strings. The sort
    of Python is stable, so its result is determined by the list and the
    keys: it is the list a stable insertion sort gives. With
    [reverse=True] elements with equal keys keep their order too: the
    list is reversed, sorted and reversed again. *)
Fixpoint insert_by {A} (key : A → string) (x : A) (l : list A) : list A :=
  match l with
  | [] => [x]
  | y :: l' =>
      if String.leb (key x) (key y) then x :: y :: l'
      else y :: insert_by key x l'
  end.

Definition stable_sort {A} (key : A → string) (l : list A) : list A :=
  foldr (insert_by key) [] l.

Definition list_sort {A} (key : A → string) (reverse : bool) (l : list A)
  : list A :=
  if reverse then rev (stable_sort key (rev l)) else stable_sort key l.

(** The key of each sort option and whether it sorts in reverse; none
    for a string that is not one of the four options. *)
Definition sort_key (lower : string → string) (sort_option : string)
  : option ((Prompt.t → string) * bool) :=
  if String.eqb sort_option "Title (A-Z)" then
    Some (fun p => lower (Prompt.title p), false)
  else if String.eqb sort_option "Title (Z-A)" then
    Some (fun p => lower (Prompt.title p), true)
  else if String.eqb sort_option "Newest" then
    Some (fun p => if truthy (Prompt.last_modified p)
                   then Prompt.last_modified p else "", true)
  else if String.eqb sort_option "Oldest" then
    Some (fun p => if truthy (Prompt.created_at p)
                   then Prompt.created_at p else "", false)
  else None.

(** The sort stage. *)
Definition sort_prompts (lower : string → string) (sort_option : string)
    (filtered_prompts : list Prompt.t) : list Prompt.t :=
  match sort_key lower sort_option with
  | Some (key, reverse) => list_sort key reverse filtered_prompts
  | None => filtered_prompts
  end.

(** The list [render_library_page] renders. *)
Definition library_results (lower : string → string) (show_favorites : bool)
    (selected_tags : dict (list string)) (search_query sort_option : string)
    (all_prompts : list Prompt.t) : list Prompt.t :=
  let filtered_prompts := all_prompts in
  let filtered_prompts := favorites_filter show_favorites filtered_prompts in
  let filtered_prompts := tag_filters selected_tags filtered_prompts in
  let filtered_prompts := search_filter lower search_query filtered_prompts in
  sort_prompts lower sort_option filtered_prompts.

(** The condition under which a prompt is listed. *)
Definition listed (lower : string → string) (show_favorites : bool)
    (selected_tags : dict (list string)) (search_query : string)
    (p : Prompt.t) : bool :=
  (if show_favorites then Z.eqb (Prompt.is_favorite p) 1 else true)
  && bool_decide (matches selected_tags p)
  && (if truthy search_query
      then search_hit lower (lower search_query) p else true).

(** [str.lower] on ASCII text, for the sample runs. *)
Definition ascii_lower_char (c : ascii) : ascii :=
  let n := N_of_ascii c in
  if (65 <=? n)%N && (n <=? 90)%N then ascii_of_N (n + 32) else c.

Fixpoint ascii_lower (s : string) : string :=
  match s with
  | EmptyString => EmptyString
  | String c s' => String (ascii_lower_char c) (ascii_lower s')
  end.

(** ** The favorite button and the edit form *)

(** The favorite button of [render_prompt_card]: the status handed to
    [toggle_favorite] is the one of the prompt the card shows. *)
Definition favorite_button (prompt : Prompt.t) : DB → outcome () :=
  toggle_favorite (Prompt.id prompt) (Prompt.is_favorite prompt).

(** [value or ""], where [None] is what the form assigns to the variable
    of a text area it does not draw. *)
Definition or_blank (value : option string) : string :=
  match value with
  | Some s => if truthy s then s else ""
  | None => ""
  end.

(** The submit handler of [render_edit_page], from the prompt type chosen
    and the texts the widgets hold. Of the content areas the form draws
    the five structured ones or the one for instructions, by the prompt
    type. [strip] and [lower] stand for [str.strip] and [str.lower]; the
    result tells whether the handler saved. *)
Definition submit_form (strip lower : string → string)
    (new_id current_time : string) (prompt_to_edit : option Prompt.t)
    (prompt_type title use_case version description usage_notes : string)
    (persona_text context_text task_text style_text variables_text
       instructions_text : string)
    (tags_data : dict (list string)) (db : DB) : outcome bool :=
  let '(persona, context, task, style, variables, instructions) :=
    if String.eqb prompt_type "Structured"
    then (Some persona_text, Some context_text, Some task_text,
          Some style_text, Some variables_text, None)
    else (None, None, None, None, None, Some instructions_text) in
  if negb (truthy (strip title)) then Returned false db
  else
    let prompt :=
      {| Prompt.id := match prompt_to_edit with
                      | Some edited => Prompt.id edited
                      | None => new_id
                      end;
         Prompt.title := strip title;
         Prompt.prompt_type := lower prompt_type;
         Prompt.use_case := use_case;
         Prompt.description := description;
         Prompt.usage_notes := usage_notes;
         Prompt.version := version;
         Prompt.persona := or_blank persona;
         Prompt.context := or_blank context;
         Prompt.task := or_blank task;
         Prompt.style := or_blank style;
         Prompt.variables := or_blank variables;
         Prompt.instructions := or_blank instructions;
         Prompt.is_favorite := 0;
         Prompt.created_at := "";
         Prompt.last_modified := "";
         Prompt.tags := [] |} in
    and_then (save current_time prompt tags_data db)
             (fun _ db' => Returned true db').

(** [str.strip] on ASCII text, for the sample runs. *)
Fixpoint ascii_lstrip (s : string) : string :=
  match s with
  | EmptyString => EmptyString
  | String c s' => if is_ws c then ascii_lstrip s' else s
  end.

Fixpoint ascii_rstrip (s : string) : string :=
  match s with
  | EmptyString => EmptyString
  | String c s' =>
      let rest := ascii_rstrip s' in
      if is_ws c && negb (truthy rest) then EmptyString else String c rest
  end.

Definition ascii_strip (s : string) : string :=
  ascii_rstrip (ascii_lstrip s).

(** ** The tag widgets *)

(** [category_groups] of [render_tag_filters]: the categories of each tab
    of the filter. *)
Definition category_groups : dict (list string) :=
  [ ("Task & Domain", ["Task Type"; "Domain"; "Function"; "Use Case"]);
    ("Technique & Format",
     ["Prompt Technique"; "Prompt Structure"; "Input Type"; "Output Format";
      "Content Source"]);
    ("Model & Platform", ["Model Family"; "Model"; "Platform"; "Language"]);
    ("Quality & Management",
     ["Tone"; "Audience"; "Complexity"; "Abstraction Level";
      "Safety & Guardrails"; "Quality Attributes"; "Status"]) ].

(** [tag_groups] of [render_edit_page]: the categories of each tab of the
    form. *)
Definition tag_groups : dict (list string) :=
  [ ("Core", ["Task Type"; "Domain"; "Function"; "Use Case"]);
    ("Methodology",
     ["Prompt Technique"; "Prompt Structure"; "Complexity";
      "Abstraction Level"]);
    ("Format", ["Input Type"; "Output Format"; "Content Source"; "Language"]);
    ("Model", ["Model Family"; "Model"; "Platform"]);
    ("Quality",
     ["Tone"; "Audience"; "Safety & Guardrails"; "Quality Attributes";
      "Status"]) ].

(** The categories for which the loops over the groups draw a
    multiselect, in the order of the loops: those that are keys of the
    tag directory. They are the keys the loops assign in the dictionary
    they build. *)
Definition widget_categories (groups : dict (list string))
    (all_tags_by_cat : dict (list string)) : list string :=
  List.filter (dict_contains all_tags_by_cat) (concat (map snd groups)).

(** ** Statements of the specification

    The sentences of the specification that the code does not satisfy as
    they stand, written out so that they can be evaluated on an input. *)

(** After [save] with the tag map [T], [get_by_id] yields a record whose
    tag map has the categories of [T] and the same values under each. *)
Definition load_after_save_equals (current_time : string) (p : Prompt.t)
    (T : dict (list string)) (db : DB) : Prop :=
  ∃ db' r,
    save current_time p T db = Returned () db'
    ∧ get_by_id (Prompt.id p) db' = Returned (Some r) db'
    ∧ same_tag_map (Prompt.tags r) T.

(** [delete] of an id that is not stored returns the unsuccessful
    result. *)
Definition delete_reports_absence (prompt_id : string) (db : DB) : Prop :=
  prompt_id ∉ prompt_ids db → ∃ db', delete prompt_id db = Returned false db'.

(** [save] on a stored id keeps [id] and [created_at], stamps
    [last_modified] and overwrites every other field, [is_favorite]
    included, with the values of its argument. *)
Definition update_overwrites_all (current_time : string) (p : Prompt.t)
    (T : dict (list string)) (db : DB) : Prop :=
  ∀ old, get_by_id (Prompt.id p) db = Returned (Some old) db →
  ∃ db' new,
    save current_time p T db = Returned () db'
    ∧ get_by_id (Prompt.id p) db' = Returned (Some new) db'
    ∧ Prompt.id new = Prompt.id old
    ∧ Prompt.created_at new = Prompt.created_at old
    ∧ Prompt.last_modified new = current_time
    ∧ content new = content p
    ∧ Prompt.is_favorite new = Prompt.is_favorite p.

(** Two records agree on every field but the id (tag maps as sets). *)
Definition same_but_id (r p : Prompt.t) : Prop :=
  content r = content p
  ∧ Prompt.is_favorite r = Prompt.is_favorite p
  ∧ Prompt.created_at r = Prompt.created_at p
  ∧ Prompt.last_modified r = Prompt.last_modified p
  ∧ same_tag_map (Prompt.tags r) (Prompt.tags p).

(** Importing the export of [source] into [target] succeeds, counts the
    exported records and stores, under the fresh ids, records that differ
    from the exported ones in the id only. *)
Definition export_import_reproduces (json_dumps : Any → string)
    (json_loads : string → option Any) (uuid4 utcnow : nat → string)
    (source target : DB) : Prop :=
  ∃ exported text target',
    get_all source = Returned exported source
    ∧ export_all json_dumps source = Returned text source
    ∧ import_from_json json_loads uuid4 utcnow text target
      = Returned (length exported) target'
    ∧ ∀ i p, exported !! i = Some p →
        ∃ r, get_by_id (uuid4 i) target' = Returned (Some r) target'
             ∧ same_but_id r p.

(** ** Sample data *)

Definition bug_triage : Prompt.t :=
  {| Prompt.id := "p-1";
     Prompt.title := "Bug Triage";
     Prompt.prompt_type := "standard";
     Prompt.use_case := "";
     Prompt.description := "";
     Prompt.usage_notes := "";
     Prompt.version := "v1.0";
     Prompt.persona := "";
     Prompt.context := "";
     Prompt.task := "";
     Prompt.style := "";
     Prompt.variables := "";
     Prompt.instructions := "Find the root cause.";
     Prompt.is_favorite := 0;
     Prompt.created_at := "";
     Prompt.last_modified := "";
     Prompt.tags := [] |}.

(** A record whose type is neither of the two known ones. *)
Definition untyped_note : Prompt.t :=
  {| Prompt.id := "p-2";
     Prompt.title := "Note";
     Prompt.prompt_type := "";
     Prompt.use_case := "";
     Prompt.description := "";
     Prompt.usage_notes := "";
     Prompt.version := "v1.0";
     Prompt.persona := "";
     Prompt.context := "";
     Prompt.task := "Summarize the document";
     Prompt.style := "";
     Prompt.variables := "";
     Prompt.instructions := "Not shown.";
     Prompt.is_favorite := 0;
     Prompt.created_at := "";
     Prompt.last_modified := "";
     Prompt.tags := [] |}.

Definition bug_triage_tags : dict (list string) :=
  [ ("Task Type", ["debugging"]); ("Complexity", ["intermediate"]) ].

(** The library after [bug_triage] was saved. *)
Definition one_prompt_db : DB :=
  store (save "2024-05-01 10:00:00 UTC" bug_triage bug_triage_tags empty_db).

(** The same library after the prompt was marked as a favorite. *)
Definition favorite_db : DB :=
  store (toggle_favorite "p-1" 0 one_prompt_db).

(** The record [get_by_id] and [get_all] load from [favorite_db]. *)
Definition favorite_record : Prompt.t :=
  prompt_of_row
    (set_favorite 1 (new_row "2024-05-01 10:00:00 UTC" bug_triage))
    bug_triage_tags.

(** Ids and clock readings for the sample runs. *)
Definition sample_uuid4 (i : nat) : string :=
  "imported-" ++ NilZero.string_of_uint (Nat.to_uint i).

Definition sample_utcnow (i : nat) : string := "2024-06-01 12:00:00 UTC".

(** An array whose first element is a record and whose second is not. *)
Definition broken_document : string :=
  ref_dumps (VList [VDict [("title", VStr "First")]; VInt 7]).

(** A text that is no JSON document: an array that is not closed. *)
Definition truncated_document : string := "[1, 2".

(** Closes a decidable goal about given data by evaluation. *)
Ltac by_evaluation := apply (bool_decide_unpack _); vm_compute; exact I.

(** * Properties *)

(** ** Rendering *)

Lemma truthy_eqb (s : string) : truthy s = negb (String.eqb s "").
Proof. by destruct s. Qed.

Lemma truthy_or_empty (s : string) : (if truthy s then s else "") = s.
Proof. by destruct s. Qed.

Lemma get_copy_text_structured (p : Prompt.t) :
  String.eqb (Prompt.prompt_type p) "standard" = false →
  get_copy_text p = render_structured p.
Proof.
  intros Hty. unfold get_copy_text, render_structured, sections.
  rewrite Hty. cbn [List.filter snd fst]. rewrite <- !truthy_eqb.
  unfold append_if, separator, section_header.
  destruct (truthy (Prompt.persona p)), (truthy (Prompt.context p)),
    (truthy (Prompt.task p)), (truthy (Prompt.style p)),
    (truthy (Prompt.variables p)); reflexivity.
Qed.

(** C2: [get_copy_text] returns the instructions verbatim for the
    "standard" type and otherwise the non-empty fields among persona,
    context, task, style, variables, in this order, each under its header
    and joined by the separator; a structured prompt with only the task
    "Summarize the document" renders as the TASK header, a line feed and
    that text. *)
Theorem C2_get_copy_text (p : Prompt.t) :
  get_copy_text p =
    (if decide (Prompt.prompt_type p = "standard")
     then Prompt.instructions p
     else render_structured p)
  ∧ get_copy_text (only_task p "Summarize the document")
    = "### TASK" ++ LF ++ "Summarize the document".
Proof.
  split; [|reflexivity].
  case_decide as Hty.
  - unfold get_copy_text. rewrite Hty. cbn. apply truthy_or_empty.
  - apply get_copy_text_structured.
    by apply String.eqb_neq.
Qed.

(** C9: every prompt whose type is not the string "standard" is rendered
    by the structured rule, whatever its instructions field holds. *)
Theorem C9_non_standard_is_structured (p : Prompt.t) :
  Prompt.prompt_type p ≠ "standard" →
  get_copy_text p = render_structured p
  ∧ ∀ text, get_copy_text (with_instructions text p) = get_copy_text p.
Proof.
  intros Hty%String.eqb_neq. split.
  - by apply get_copy_text_structured.
  - intros text. unfold get_copy_text. cbn. by rewrite Hty.
Qed.
Open Scope list_scope.

(** ** Lists and strings *)

Lemma elem_of_filterb {A} (f : A → bool) (l : list A) (x : A) :
  x ∈ List.filter f l ↔ x ∈ l ∧ f x = true.
Proof. rewrite !list_elem_of_In. apply filter_In. Qed.

Lemma existsb_elem_of {A} (f : A → bool) (l : list A) :
  existsb f l = true ↔ ∃ x, x ∈ l ∧ f x = true.
Proof.
  rewrite existsb_exists.
  split; intros (x & Hx & Hf); exists x; split; try done;
    by apply list_elem_of_In.
Qed.

Lemma existsb_false {A} (f : A → bool) (l : list A) :
  existsb f l = false ↔ ∀ x, x ∈ l → f x = false.
Proof.
  rewrite <- not_true_iff_false, existsb_elem_of. split.
  - intros Hno x Hx. apply not_true_iff_false. intros Hf. apply Hno. eauto.
  - intros Hall (x & Hx & Hf). specialize (Hall x Hx). congruence.
Qed.

Lemma find_some_elem_of {A} (f : A → bool) (l : list A) (x : A) :
  List.find f l = Some x → x ∈ l ∧ f x = true.
Proof. intros H%find_some. by rewrite list_elem_of_In. Qed.

Lemma find_none_elem_of {A} (f : A → bool) (l : list A) :
  List.find f l = None ↔ ∀ x, x ∈ l → f x = false.
Proof.
  split.
  - intros H x Hx. apply (find_none f l H). by apply list_elem_of_In.
  - induction l as [|a l IH]; [done|]. intros H. cbn.
    rewrite (H a) by left. apply IH. intros x Hx. apply H. by right.
Qed.

Lemma same_link_true pid tid l :
  same_link pid tid l = true ↔ l = Link.mk pid tid.
Proof.
  unfold same_link. rewrite andb_true_iff, String.eqb_eq, Z.eqb_eq.
  destruct l as [p t]; cbn. split; [intros [-> ->]|intros [= -> ->]]; done.
Qed.

Lemma same_tag_true n c t :
  same_tag n c t = true ↔ tag_key t = (n, c).
Proof.
  unfold same_tag, tag_key. rewrite andb_true_iff, !String.eqb_eq.
  split; [intros [-> ->]|intros [= -> ->]]; done.
Qed.

(** ** Transactions *)

Lemma tx_bind_Some {A B} (m : tx A) (k : A → tx B) db b db2 :
  (m ≫= k) db = Some (b, db2) ↔
  ∃ a db1, m db = Some (a, db1) ∧ k a db1 = Some (b, db2).
Proof.
  unfold mbind, tx_bind. destruct (m db) as [[a db1]|]; split.
  - eauto.
  - by intros (? & ? & [= <- <-] & ?).
  - done.
  - by intros (? & ? & ? & ?).
Qed.

Lemma for_each_cons {A} (x : A) (xs : list A) (body : A → tx ()) db :
  for_each (x :: xs) body db =
    match body x db with
    | Some (_, db1) => for_each xs body db1
    | None => None
    end.
Proof. reflexivity. Qed.

Lemma for_each_app {A} (xs ys : list A) (body : A → tx ()) db :
  for_each (xs ++ ys) body db =
    match for_each xs body db with
    | Some (_, db1) => for_each ys body db1
    | None => None
    end.
Proof.
  revert db. induction xs as [|x xs IH]; intros db; [done|].
  rewrite <- app_comm_cons, !for_each_cons.
  destruct (body x db) as [[[] db1]|]; [|done]. apply IH.
Qed.

Lemma for_each_pairs pid (T : dict (list string)) db :
  for_each T (fun item => for_each (snd item) (attach_tag pid (fst item))) db
  = for_each (tag_pairs T) (fun cn => attach_tag pid (fst cn) (snd cn)) db.
Proof.
  revert db. induction T as [|[c vs] T IH]; intros db; [done|].
  cbn [tag_pairs flat_map fst snd]. rewrite for_each_app, for_each_cons.
  cbn [fst snd].
  assert (∀ db, for_each vs (attach_tag pid c) db
     = for_each (map (pair c) vs) (λ cn, attach_tag pid cn.1 cn.2) db) as ->.
  { clear. induction vs as [|v vs IHv]; intros db; [done|].
    cbn [map]. rewrite !for_each_cons. cbn [fst snd].
    destruct (attach_tag pid c v db) as [[[] db1]|]; [|done]. apply IHv. }
  destruct (for_each _ _ db) as [[[] db1]|]; [|done]. apply IH.
Qed.

Lemma find_app {A} (f : A → bool) (l1 l2 : list A) :
  List.find f (l1 ++ l2) =
    match List.find f l1 with
    | Some x => Some x
    | None => List.find f l2
    end.
Proof.
  induction l1 as [|a l1 IH]; [done|]. cbn. by destruct (f a).
Qed.

(** ** The statements of [save] *)

Lemma next_tag_id_fresh db : next_tag_id db ∉ map Tag.id (tags db).
Proof.
  unfold next_tag_id.
  assert (∀ ids : list Z, ∀ i, i ∈ ids → (i ≤ foldr Z.max 0 ids)%Z) as Hmax.
  { induction ids as [|j ids IH]; intros i Hi; [by apply elem_of_nil in Hi|].
    apply elem_of_cons in Hi as [->|Hi]; cbn; [lia|].
    specialize (IH i Hi). lia. }
  intros Hin%Hmax. lia.
Qed.

Lemma elem_of_select_prompt_tags pid db (x : string * string) :
  x ∈ select_prompt_tags pid db ↔
  ∃ t, t ∈ tags db ∧ tag_key t = x ∧ Link.mk pid (Tag.id t) ∈ prompt_tags db.
Proof.
  unfold select_prompt_tags. rewrite list_elem_of_In, in_flat_map. split.
  - intros (t & Ht & Hx). exists t. apply list_elem_of_In in Ht, Hx.
    apply list_elem_of_fmap in Hx as (l & -> & Hl).
    apply elem_of_filterb in Hl as [Hl ->%same_link_true]. done.
  - intros (t & Ht & <- & Hl). exists t. split; [by apply list_elem_of_In|].
    apply list_elem_of_In, list_elem_of_fmap. eexists. split; [done|].
    apply elem_of_filterb. split; [done|]. by apply same_link_true.
Qed.

Lemma insert_or_ignore_tag_spec n c db :
  let db1 := insert_or_ignore_tag n c db in
  prompts db1 = prompts db ∧ prompt_tags db1 = prompt_tags db
  ∧ ∃ tid, select_tag_id n c db1 = Some tid
      ∧ Tag.mk tid n c ∈ tags db1
      ∧ (tags db1 = tags db
         ∨ tags db1 = tags db ++ [Tag.mk tid n c]
           ∧ tid = next_tag_id db
           ∧ (∀ t, t ∈ tags db → tag_key t ≠ (n, c))).
Proof.
  unfold insert_or_ignore_tag, select_tag_id.
  destruct (existsb (same_tag n c) (tags db)) eqn:Hex; cbn.
  - do 2 (split; [done|]).
    destruct (List.find (same_tag n c) (tags db)) as [t|] eqn:Hfind.
    + apply find_some_elem_of in Hfind as [Ht Hk%same_tag_true].
      exists (Tag.id t). split; [done|]. split; [|by left].
      destruct t as [i n' c']. by injection Hk as -> ->.
    + apply existsb_elem_of in Hex as (t & Ht & Hs).
      rewrite find_none_elem_of in Hfind. rewrite (Hfind t Ht) in Hs. done.
  - do 2 (split; [done|]). exists (next_tag_id db).
    rewrite existsb_false in Hex.
    assert (List.find (same_tag n c) (tags db) = None) as Hnone
      by by apply find_none_elem_of.
    rewrite find_app, Hnone. cbn. unfold same_tag at 1. cbn.
    rewrite !String.eqb_refl. cbn. split; [done|].
    split; [apply elem_of_app; right; by left|]. right.
    do 2 (split; [done|]). intros t Ht Hk%same_tag_true.
    rewrite (Hex t Ht) in Hk. done.
Qed.

(** What a successful [attach_tag] changes. *)
Lemma attach_tag_Some pid c n db db' :
  attach_tag pid c n db = Some ((), db') →
  prompts db' = prompts db
  ∧ ∃ tid, prompt_tags db' = prompt_tags db ++ [Link.mk pid tid]
      ∧ (Link.mk pid tid ∉ prompt_tags db)
      ∧ Tag.mk tid n c ∈ tags db'
      ∧ (tags db' = tags db
         ∨ tags db' = tags db ++ [Tag.mk tid n c]
           ∧ tid = next_tag_id db
           ∧ (∀ t, t ∈ tags db → tag_key t ≠ (n, c))).
Proof.
  destruct (insert_or_ignore_tag_spec n c db)
    as (Hp & Hl & tid & Hsel & Hin & Htags).
  unfold attach_tag, mbind, tx_bind, tx_write, tx_read. rewrite Hsel.
  unfold insert_prompt_tag. rewrite Hl.
  destruct (existsb _ (prompt_tags db)) eqn:Hex; [done|].
  intros [= <-]. cbn. split; [done|]. exists tid. split; [done|].
  split; [|done]. intros Hlink. rewrite existsb_false in Hex.
  specialize (Hex _ Hlink). by rewrite (proj2 (same_link_true _ _ _)) in Hex.
Qed.

(** [attach_tag] fails only on a pair that is already associated. *)
Lemma attach_tag_None pid c n db :
  attach_tag pid c n db = None →
  ∃ tid, Link.mk pid tid ∈ prompt_tags db
    ∧ (Tag.mk tid n c ∈ tags db ∨ tid = next_tag_id db).
Proof.
  destruct (insert_or_ignore_tag_spec n c db)
    as (Hp & Hl & tid & Hsel & Hin & Htags).
  unfold attach_tag, mbind, tx_bind, tx_write, tx_read. rewrite Hsel.
  unfold insert_prompt_tag. rewrite Hl.
  destruct (existsb _ (prompt_tags db)) eqn:Hex; [|done].
  intros _. apply existsb_elem_of in Hex as (l & Hlin & ->%same_link_true).
  exists tid. split; [done|].
  destruct Htags as [Heq|(_ & -> & _)]; [left; by rewrite <- Heq|by right].
Qed.

Lemma db_ok_empty : db_ok empty_db.
Proof.
  split; cbn; try apply NoDup_nil_2. intros l Hl. by apply elem_of_nil in Hl.
Qed.

(** [attach_tag] keeps the integrity of the database. *)
Lemma attach_tag_ok pid c n db db' :
  db_ok db → attach_tag pid c n db = Some ((), db') → db_ok db'.
Proof.
  intros [Hpi Hti Htk Hl Hr] (Hp & tid & Hlinks & Hfresh & Hin & Htags)%attach_tag_Some.
  assert (∀ t, t ∈ tags db → t ∈ tags db') as Hmono.
  { intros t Ht. destruct Htags as [->|(-> & _)]; [done|].
    apply elem_of_app. by left. }
  split.
  - unfold prompt_ids. by rewrite Hp.
  - destruct Htags as [->|(-> & -> & _)]; [done|].
    rewrite map_app. apply NoDup_app. split; [done|]. split.
    + intros i Hi [->|[]%elem_of_nil]%elem_of_cons.
      by apply (next_tag_id_fresh db).
    + apply NoDup_singleton.
  - destruct Htags as [->|(-> & _ & Hnew)]; [done|].
    rewrite map_app. apply NoDup_app. split; [done|]. split.
    + intros k (t & -> & Ht)%list_elem_of_fmap [Hk|[]%elem_of_nil]%elem_of_cons.
      by apply (Hnew t Ht).
    + apply NoDup_singleton.
  - rewrite Hlinks. apply NoDup_app. split; [done|]. split.
    + by intros l Hlin [->|[]%elem_of_nil]%elem_of_cons.
    + apply NoDup_singleton.
  - intros l. rewrite Hlinks.
    intros [Hlin|[->|[]%elem_of_nil]%elem_of_cons]%elem_of_app.
    + specialize (Hr l Hlin).
      apply list_elem_of_fmap in Hr as (t & -> & Ht).
      apply list_elem_of_fmap. eauto.
    + apply list_elem_of_fmap. exists (Tag.mk tid n c). done.
Qed.

(** On a sound database [attach_tag] succeeds for a pair that is not yet
    associated with the prompt. *)
Lemma attach_tag_succeeds pid c n db :
  db_ok db → (n, c) ∉ select_prompt_tags pid db →
  ∃ db', attach_tag pid c n db = Some ((), db').
Proof.
  intros Hok Hnot.
  destruct (attach_tag pid c n db) as [[[] db']|] eqn:Hat; [by eexists|].
  exfalso. apply attach_tag_None in Hat as (tid & Hlink & [Ht| ->]).
  - apply Hnot, elem_of_select_prompt_tags. by exists (Tag.mk tid n c).
  - apply (next_tag_id_fresh db). by apply (ok_tag_refs db Hok _ Hlink).
Qed.

Lemma NoDup_fmap_inj {A B} (f : A → B) (l : list A) (x y : A) :
  NoDup (f <$> l) → x ∈ l → y ∈ l → f x = f y → x = y.
Proof.
  induction l as [|a l IH]; [by intros _ []%elem_of_nil|].
  rewrite fmap_cons, NoDup_cons. intros [Ha Hnd].
  intros [->|Hx]%elem_of_cons [->|Hy]%elem_of_cons Hf; try done.
  - exfalso. apply Ha. rewrite Hf. by apply list_elem_of_fmap_2.
  - exfalso. apply Ha. rewrite <- Hf. by apply list_elem_of_fmap_2.
  - by apply IH.
Qed.

(** The tags of the prompt after [attach_tag]. *)
Lemma attach_tag_tags pid c n db db' x :
  db_ok db → attach_tag pid c n db = Some ((), db') →
  x ∈ select_prompt_tags pid db' ↔
  x ∈ select_prompt_tags pid db ∨ x = (n, c).
Proof.
  intros Hok Hat. pose proof (attach_tag_ok _ _ _ _ _ Hok Hat) as Hok'.
  apply attach_tag_Some in Hat as (Hp & tid & Hlinks & Hfresh & Hin & Htags).
  assert (∀ t, t ∈ tags db → t ∈ tags db') as Hmono.
  { intros t Ht. destruct Htags as [->|(-> & _)]; [done|].
    apply elem_of_app. by left. }
  rewrite !elem_of_select_prompt_tags. split.
  - intros (t & Ht & <- & Hl). rewrite Hlinks in Hl.
    apply elem_of_app in Hl as [Hl|[[= Htid]|[]%elem_of_nil]%elem_of_cons].
    + left. exists t. split; [|done].
      destruct Htags as [<-|(Heq & -> & _)]; [done|].
      rewrite Heq in Ht. apply elem_of_app in Ht as [Ht|Ht]; [done|].
      apply list_elem_of_singleton in Ht as ->. cbn in Hl.
      exfalso. apply (next_tag_id_fresh db).
      by apply (ok_tag_refs db Hok _ Hl).
    + right. assert (t = Tag.mk tid n c) as ->; [|done].
      by apply (NoDup_fmap_inj Tag.id (tags db') _ _ (ok_tag_ids db' Hok')).
  - intros [(t & Ht & <- & Hl)| ->].
    + exists t. split; [by apply Hmono|]. split; [done|].
      rewrite Hlinks. apply elem_of_app. by left.
    + exists (Tag.mk tid n c). split; [done|]. split; [done|].
      rewrite Hlinks. apply elem_of_app. right. by left.
Qed.

(** The tags of the other prompts are the same list as before. *)
Lemma attach_tag_frame pid c n db db' pid' :
  db_ok db → attach_tag pid c n db = Some ((), db') → pid' ≠ pid →
  select_prompt_tags pid' db' = select_prompt_tags pid' db.
Proof.
  intros Hok (Hp & tid & Hlinks & Hfresh & Hin & Htags)%attach_tag_Some Hne.
  unfold select_prompt_tags. rewrite Hlinks.
  assert (∀ t, List.filter (same_link pid' (Tag.id t))
                 (prompt_tags db ++ [Link.mk pid tid])
               = List.filter (same_link pid' (Tag.id t)) (prompt_tags db))
    as Hfilter.
  { intros t. rewrite List.filter_app. cbn. unfold same_link at 2. cbn.
    rewrite (proj2 (String.eqb_neq pid pid')) by done. cbn.
    by rewrite app_nil_r. }
  destruct Htags as [->|(-> & -> & _)].
  - apply flat_map_ext. intros t. by rewrite Hfilter.
  - rewrite flat_map_app. cbn [flat_map]. rewrite Hfilter.
    cbn [Tag.id].
    assert (List.filter (same_link pid' (next_tag_id db)) (prompt_tags db)
            = []) as ->.
    + apply elem_of_nil_inv. intros l [Hl Heq%same_link_true]%elem_of_filterb.
      subst l. apply (next_tag_id_fresh db).
      by apply (ok_tag_refs db Hok _ Hl).
    + cbn. rewrite !app_nil_r. apply flat_map_ext.
      intros t. by rewrite Hfilter.
Qed.

(** The loop of [save] on a sound database. *)
Lemma attach_all_spec pid pairs db :
  db_ok db → NoDup pairs →
  (∀ c n, (c, n) ∈ pairs → (n, c) ∉ select_prompt_tags pid db) →
  ∃ db', attach_all pid pairs db = Some ((), db')
    ∧ db_ok db'
    ∧ prompts db' = prompts db
    ∧ (∀ x, x ∈ select_prompt_tags pid db' ↔
            x ∈ select_prompt_tags pid db ∨ (x.2, x.1) ∈ pairs)
    ∧ (∀ pid', pid' ≠ pid →
         select_prompt_tags pid' db' = select_prompt_tags pid' db).
Proof.
  revert db. induction pairs as [|[c n] pairs IH]; intros db Hok Hnd Hnew.
  - exists db. split; [done|]. split; [done|]. split; [done|]. split; [|done].
    intros x. split; [by left|]. by intros [?|[]%elem_of_nil].
  - apply NoDup_cons in Hnd as [Hhd Hnd].
    destruct (attach_tag_succeeds pid c n db Hok) as [db1 Hat].
    { apply Hnew. by left. }
    pose proof (attach_tag_ok _ _ _ _ _ Hok Hat) as Hok1.
    destruct (IH db1 Hok1 Hnd) as (db' & Hloop & Hok' & Hp & Hmine & Hothers).
    { intros c' n' Hin [Hold| [= -> ->]]%(attach_tag_tags _ _ _ _ _ _ Hok Hat).
      - apply (Hnew c' n'); [by right|done].
      - done. }
    exists db'. split.
    { unfold attach_all in *. rewrite for_each_cons. cbn [fst snd].
      by rewrite Hat. }
    split; [done|]. split.
    { rewrite Hp. by apply attach_tag_Some in Hat as [-> _]. }
    split.
    + intros x. rewrite Hmine, (attach_tag_tags _ _ _ _ _ _ Hok Hat).
      rewrite elem_of_cons. destruct x as [n' c']. cbn. split.
      * intros [[?| [= -> ->]]|?]; auto.
      * intros [?|[[= -> ->]|?]]; auto.
    + intros pid' Hne. rewrite (Hothers pid' Hne).
      by apply (attach_tag_frame _ _ _ _ _ _ Hok Hat).
Qed.

(** What the loop does on any database on which it completes. *)
Lemma attach_all_Some pid pairs db db' :
  attach_all pid pairs db = Some ((), db') →
  prompts db' = prompts db
  ∧ ∀ l, l ∈ prompt_tags db' →
         l ∈ prompt_tags db ∨ Link.prompt_id l = pid.
Proof.
  revert db. induction pairs as [|[c n] pairs IH]; intros db.
  - intros [= <-]. split; [done|]. by left.
  - unfold attach_all in *. rewrite for_each_cons. cbn [fst snd].
    destruct (attach_tag pid c n db) as [[[] db1]|] eqn:Hat; [|done].
    intros [Hp Hl]%IH.
    apply attach_tag_Some in Hat as (Hp1 & tid & Hlinks & _).
    split; [congruence|]. intros l [Hin|Hpid]%Hl; [|by right].
    rewrite Hlinks in Hin.
    apply elem_of_app in Hin as [?| ->%list_elem_of_singleton]; [by left|].
    by right.
Qed.

(** ** The first statements of [save] *)

Lemma save_body_eq now p T db :
  save_body now p T db =
    attach_all (Prompt.id p) (tag_pairs T)
      (delete_prompt_tags (Prompt.id p) (upsert now p db)).
Proof.
  unfold save_body, attach_all, upsert, mbind, tx_bind, tx_read, tx_write.
  destruct (select_prompt (Prompt.id p) db) as [r|] eqn:Hsel.
  - apply for_each_pairs.
  - unfold insert_prompt, select_prompt in *.
    rewrite find_none_elem_of in Hsel.
    replace (existsb _ (prompts db)) with false.
    + apply for_each_pairs.
    + symmetry. apply existsb_false. intros r Hr.
      by apply Hsel.
Qed.

Lemma find_fmap_id (set : Row.t → Row.t) pid (rows : list Row.t) :
  (∀ r, Row.id (set r) = Row.id r) →
  List.find (λ r, String.eqb (Row.id r) pid) (map set rows)
  = set <$> List.find (λ r, String.eqb (Row.id r) pid) rows.
Proof.
  intros Hid. induction rows as [|r rows IH]; [done|]. cbn.
  rewrite Hid. by destruct (String.eqb (Row.id r) pid).
Qed.

Lemma select_prompt_Some pid db r :
  select_prompt pid db = Some r → r ∈ prompts db ∧ Row.id r = pid.
Proof.
  intros [Hin Heq]%find_some_elem_of. by apply String.eqb_eq in Heq.
Qed.

Lemma select_prompt_None pid db :
  select_prompt pid db = None ↔ pid ∉ prompt_ids db.
Proof.
  unfold select_prompt, prompt_ids. rewrite find_none_elem_of. split.
  - intros Hno (r & -> & Hr)%list_elem_of_fmap.
    specialize (Hno r Hr). by rewrite String.eqb_refl in Hno.
  - intros Hno r Hr. apply String.eqb_neq. intros <-. apply Hno.
    by apply list_elem_of_fmap_2.
Qed.

Lemma upsert_select now p db :
  select_prompt (Prompt.id p) (upsert now p db) = Some (stored_row now p db).
Proof.
  unfold upsert, stored_row.
  destruct (select_prompt (Prompt.id p) db) as [r|] eqn:Hsel.
  - unfold select_prompt, update_prompt in *. cbn.
    rewrite find_fmap_id.
    + rewrite Hsel. cbn. apply find_some_elem_of in Hsel as [_ Heq].
      by rewrite Heq.
    + intros r'. by destruct (String.eqb (Row.id r') (Prompt.id p)).
  - unfold select_prompt in *. cbn. rewrite find_app, Hsel. cbn.
    by rewrite String.eqb_refl.
Qed.

Lemma upsert_select_other now p db pid :
  pid ≠ Prompt.id p →
  select_prompt pid (upsert now p db) = select_prompt pid db.
Proof.
  intros Hne. unfold upsert.
  destruct (select_prompt (Prompt.id p) db) as [r|] eqn:Hsel.
  - unfold select_prompt, update_prompt. cbn. rewrite find_fmap_id.
    + destruct (List.find _ (prompts db)) as [r'|] eqn:Hf; [|done]. cbn.
      apply find_some_elem_of in Hf as [_ Heq%String.eqb_eq].
      rewrite (proj2 (String.eqb_neq (Row.id r') (Prompt.id p))); congruence.
    + intros r'. by destruct (String.eqb (Row.id r') (Prompt.id p)).
  - unfold select_prompt. cbn. rewrite find_app.
    destruct (List.find _ (prompts db)); [done|]. cbn.
    by rewrite (proj2 (String.eqb_neq (Prompt.id p) pid)).
Qed.

Lemma upsert_prompt_ids now p db :
  prompt_ids (upsert now p db) =
    if select_prompt (Prompt.id p) db is Some _ then prompt_ids db
    else prompt_ids db ++ [Prompt.id p].
Proof.
  unfold upsert, prompt_ids.
  destruct (select_prompt (Prompt.id p) db) as [r|]; cbn.
  - rewrite map_map. apply map_ext. intros r'.
    by destruct (String.eqb (Row.id r') (Prompt.id p)).
  - by rewrite map_app.
Qed.

Lemma upsert_ok now p db : db_ok db → db_ok (upsert now p db).
Proof.
  intros [Hpi Hti Htk Hl Hr]. split.
  - rewrite upsert_prompt_ids.
    destruct (select_prompt (Prompt.id p) db) as [r|] eqn:Hsel; [done|].
    apply NoDup_app. split; [done|]. split; [|apply NoDup_singleton].
    intros i Hi ->%list_elem_of_singleton.
    by apply select_prompt_None in Hsel.
  - unfold upsert. by destruct (select_prompt _ db).
  - unfold upsert. by destruct (select_prompt _ db).
  - unfold upsert. by destruct (select_prompt _ db).
  - unfold upsert. by destruct (select_prompt _ db).
Qed.

Lemma NoDup_filterb {A} (f : A → bool) (l : list A) :
  NoDup l → NoDup (List.filter f l).
Proof.
  induction 1 as [|x l Hx Hnd IH]; cbn; [apply NoDup_nil_2|].
  destruct (f x); [|done]. apply NoDup_cons. split; [|done].
  by intros [? _]%elem_of_filterb.
Qed.

Lemma delete_prompt_tags_ok pid db : db_ok db → db_ok (delete_prompt_tags pid db).
Proof.
  intros [Hpi Hti Htk Hl Hr]. split; try done; cbn.
  - by apply NoDup_filterb.
  - intros l [Hin _]%elem_of_filterb. by apply Hr.
Qed.

Lemma delete_prompt_tags_mine pid db x :
  x ∉ select_prompt_tags pid (delete_prompt_tags pid db).
Proof.
  intros (t & _ & _ & [_ Hl]%elem_of_filterb)%elem_of_select_prompt_tags.
  cbn in Hl. by rewrite String.eqb_refl in Hl.
Qed.

Lemma delete_prompt_tags_frame pid db pid' :
  pid' ≠ pid →
  select_prompt_tags pid' (delete_prompt_tags pid db)
  = select_prompt_tags pid' db.
Proof.
  intros Hne. unfold select_prompt_tags, delete_prompt_tags. cbn.
  apply flat_map_ext. intros t. f_equal.
  induction (prompt_tags db) as [|l ls IH]; [done|]. cbn.
  destruct (String.eqb (Link.prompt_id l) pid) eqn:Hl; cbn.
  - rewrite IH. unfold same_link at 2.
    apply String.eqb_eq in Hl. rewrite Hl.
    by rewrite (proj2 (String.eqb_neq pid pid')).
  - by rewrite IH.
Qed.

(** ** [save] on a sound database *)

Lemma tag_pairs_NoDup T : tag_map_ok T → NoDup (tag_pairs T).
Proof.
  intros [Hwf Hvals]. unfold dict_wf, dict_keys in Hwf.
  induction T as [|[c vs] T IH]; [apply NoDup_nil_2|].
  cbn in *. apply NoDup_cons in Hwf as [Hc Hwf].
  apply NoDup_app. split; [|split].
  - apply NoDup_fmap_2; [by intros ?? [=]|]. apply (Hvals (c, vs)). by left.
  - intros x (v & -> & Hv)%list_elem_of_fmap Hin.
    apply list_elem_of_In, in_flat_map in Hin as ([c' vs'] & Hitem & Hx).
    apply list_elem_of_In, list_elem_of_fmap in Hx as (v' & [= <- <-] & _).
    apply Hc. apply list_elem_of_fmap. exists (c, vs').
    split; [done|]. by apply list_elem_of_In.
  - apply IH; [done|]. intros item Hitem. apply Hvals. by right.
Qed.

Lemma save_spec now p T db :
  db_ok db → tag_map_ok T →
  ∃ db', save now p T db = Returned () db'
    ∧ db_ok db'
    ∧ select_prompt (Prompt.id p) db' = Some (stored_row now p db)
    ∧ prompt_ids db' = prompt_ids (upsert now p db)
    ∧ (∀ x, x ∈ select_prompt_tags (Prompt.id p) db' ↔
            (x.2, x.1) ∈ tag_pairs T)
    ∧ (∀ pid, pid ≠ Prompt.id p →
         select_prompt pid db' = select_prompt pid db
         ∧ select_prompt_tags pid db' = select_prompt_tags pid db).
Proof.
  intros Hok HT. unfold save, get_db_connection. rewrite save_body_eq.
  set (db1 := delete_prompt_tags (Prompt.id p) (upsert now p db)).
  assert (db_ok db1) as Hok1 by by apply delete_prompt_tags_ok, upsert_ok.
  destruct (attach_all_spec (Prompt.id p) (tag_pairs T) db1 Hok1)
    as (db' & -> & Hok' & Hp & Hmine & Hothers).
  { by apply tag_pairs_NoDup. }
  { intros c n _. apply delete_prompt_tags_mine. }
  exists db'. split; [done|]. split; [done|].
  assert (∀ pid, select_prompt pid db' = select_prompt pid (upsert now p db))
    as Hsel by (intros pid; unfold select_prompt; by rewrite Hp).
  split; [rewrite Hsel; apply upsert_select|].
  split; [unfold prompt_ids; by rewrite Hp|]. split.
  - intros x. rewrite Hmine. split; [|by right].
    intros [Hx|Hx]; [|done]. by apply delete_prompt_tags_mine in Hx.
  - intros pid Hne. split.
    + rewrite Hsel. by apply upsert_select_other.
    + rewrite (Hothers pid Hne). unfold db1.
      rewrite delete_prompt_tags_frame by done.
      unfold select_prompt_tags, upsert.
      by destruct (select_prompt (Prompt.id p) db).
Qed.

(** ** Dictionaries *)

Lemma dict_contains_keys {V} (d : dict V) k :
  dict_contains d k = true ↔ k ∈ dict_keys d.
Proof.
  unfold dict_contains, dict_keys. rewrite existsb_elem_of. split.
  - intros (kv & Hin & <-%String.eqb_eq). by apply list_elem_of_fmap_2.
  - intros (kv & -> & Hin)%list_elem_of_fmap. exists kv.
    by rewrite String.eqb_refl.
Qed.

Lemma dict_get_set {V} (d : dict V) k v k' :
  dict_get (dict_set d k v) k' =
    if decide (k = k') then Some v else dict_get d k'.
Proof.
  induction d as [|[k0 v0] d IH]; cbn.
  - case_decide as Hk; [subst; by rewrite String.eqb_refl|].
    by rewrite (proj2 (String.eqb_neq k k')).
  - destruct (String.eqb k0 k) eqn:Hk0; cbn.
    + apply String.eqb_eq in Hk0 as ->. case_decide as Hk.
      * subst. by rewrite String.eqb_refl.
      * by rewrite (proj2 (String.eqb_neq k k')).
    + destruct (String.eqb k0 k') eqn:Hk0'; [|done].
      apply String.eqb_eq in Hk0' as ->. apply String.eqb_neq in Hk0.
      by rewrite decide_False by done.
Qed.

Lemma dict_keys_set {V} (d : dict V) k v :
  dict_keys (dict_set d k v) =
    if dict_contains d k then dict_keys d else dict_keys d ++ [k].
Proof.
  unfold dict_keys, dict_contains.
  induction d as [|[k0 v0] d IH]; cbn; [done|].
  destruct (String.eqb k0 k) eqn:Hk0; cbn; [done|].
  rewrite IH. by destruct (existsb _ d).
Qed.

Lemma dict_get_None {V} (d : dict V) k :
  dict_get d k = None ↔ k ∉ dict_keys d.
Proof.
  unfold dict_keys. induction d as [|[k0 v0] d IH]; cbn.
  - split; [intros _ []%elem_of_nil|done].
  - rewrite not_elem_of_cons.
    destruct (String.eqb k0 k) eqn:Hk0.
    + apply String.eqb_eq in Hk0 as ->. split; [done|]. by intros [? _].
    + apply String.eqb_neq in Hk0. rewrite IH.
      split; [intros ?; split; [congruence|done]|by intros [_ ?]].
Qed.

Lemma dict_get_elem_of {V} (d : dict V) k v :
  dict_wf d → (k, v) ∈ d → dict_get d k = Some v.
Proof.
  unfold dict_wf, dict_keys. induction d as [|[k0 v0] d IH]; cbn.
  - by intros _ []%elem_of_nil.
  - intros [Hk0 Hnd]%NoDup_cons [[= -> ->]|Hin]%elem_of_cons.
    + by rewrite String.eqb_refl.
    + destruct (String.eqb k0 k) eqn:Heq; [|by apply IH].
      apply String.eqb_eq in Heq as ->. exfalso. apply Hk0.
      by apply (list_elem_of_fmap_2 fst _ (k, v)).
Qed.

Lemma dict_get_Some_elem_of {V} (d : dict V) k v :
  dict_get d k = Some v → (k, v) ∈ d.
Proof.
  induction d as [|[k0 v0] d IH]; cbn; [done|].
  destruct (String.eqb k0 k) eqn:Heq.
  - apply String.eqb_eq in Heq as ->. intros [= ->]. by left.
  - intros H. right. by apply IH.
Qed.

(** The values under a category are those of the pairs of the map. *)
Lemma values_of_tag_pairs T c v :
  dict_wf T → v ∈ values_of T c ↔ (c, v) ∈ tag_pairs T.
Proof.
  intros Hwf. unfold values_of, dict_get_default, tag_pairs.
  rewrite (list_elem_of_In _ (c, v)), in_flat_map. split.
  - destruct (dict_get T c) as [vs|] eqn:Hget; cbn; [|by intros []%elem_of_nil].
    intros Hv. exists (c, vs). split.
    + by apply list_elem_of_In, dict_get_Some_elem_of.
    + by apply list_elem_of_In, list_elem_of_fmap_2.
  - intros ([c' vs] & Hitem%list_elem_of_In & Hx%list_elem_of_In).
    apply list_elem_of_fmap in Hx as (v' & [= <- <-] & Hv). cbn in *.
    by rewrite (dict_get_elem_of T c vs).
Qed.

Lemma dict_keys_drop_empty T c :
  c ∈ dict_keys (drop_empty T) ↔ ∃ v, (c, v) ∈ tag_pairs T.
Proof.
  unfold dict_keys, drop_empty, tag_pairs. split.
  - intros ([c' vs] & -> & [Hin Hne]%elem_of_filterb)%list_elem_of_fmap.
    destruct vs as [|v vs]; [done|]. exists v. cbn.
    apply list_elem_of_In, in_flat_map. exists (c', v :: vs).
    split; [by apply list_elem_of_In|]. by left.
  - intros (v & ([c' vs] & Hitem%list_elem_of_In & Hx%list_elem_of_In)
              %list_elem_of_In%in_flat_map).
    apply list_elem_of_fmap in Hx as (v' & [= <- <-] & Hv). cbn in *.
    apply list_elem_of_fmap. exists (c, vs). split; [done|].
    apply elem_of_filterb. split; [done|]. by destruct vs; [inversion Hv|].
Qed.

Lemma values_of_drop_empty T c :
  dict_wf T → values_of (drop_empty T) c = values_of T c.
Proof.
  unfold values_of, dict_get_default, drop_empty, dict_wf, dict_keys.
  induction T as [|[c0 vs] T IH]; [done|]. cbn.
  intros [Hc0 Hnd]%NoDup_cons.
  destruct vs as [|v vs]; cbn.
  - rewrite IH by done. destruct (String.eqb c0 c) eqn:Heq; cbn; [|done].
    apply String.eqb_eq in Heq as ->.
    by rewrite (proj2 (dict_get_None T c)).
  - destruct (String.eqb c0 c); [done|by apply IH].
Qed.

(** ** The tag map built by the loaders *)

Lemma values_of_dict_append d c n c' :
  values_of (dict_append d c n) c' =
    if decide (c = c') then values_of d c ++ [n] else values_of d c'.
Proof.
  unfold values_of, dict_get_default, dict_append. cbv zeta.
  rewrite dict_get_set. destruct (dict_contains d c) eqn:Hin.
  - by destruct (decide (c = c')).
  - unfold dict_get_default. rewrite !dict_get_set.
    rewrite (decide_True (P := c = c)) by done.
    destruct (decide (c = c')) as [Hc|Hc]; [|done].
    assert (dict_get d c = None) as ->; [|done].
    apply dict_get_None. rewrite <- dict_contains_keys. congruence.
Qed.

Lemma dict_keys_dict_append d c n :
  dict_keys (dict_append d c n) =
    if dict_contains d c then dict_keys d else dict_keys d ++ [c].
Proof.
  unfold dict_append. cbv zeta. rewrite dict_keys_set.
  destruct (dict_contains d c) eqn:Hin; [by rewrite Hin|].
  rewrite dict_keys_set, Hin.
  assert (dict_contains (dict_set d c []) c = true) as ->; [|done].
  apply dict_contains_keys. rewrite dict_keys_set, Hin.
  apply elem_of_app. right. by left.
Qed.

Lemma group_tags_values rows acc c :
  values_of (foldl (λ d tag, dict_append d tag.2 tag.1) acc rows) c
  = values_of acc c
    ++ map fst (List.filter (λ tag, String.eqb tag.2 c) rows).
Proof.
  revert acc. induction rows as [|[n c0] rows IH]; intros acc.
  - cbn. by rewrite app_nil_r.
  - cbn [foldl List.filter]. rewrite IH. cbn [fst snd].
    rewrite values_of_dict_append. case_decide as Hc.
    + subst. rewrite String.eqb_refl. cbn. by rewrite <- app_assoc.
    + by rewrite (proj2 (String.eqb_neq c0 c)).
Qed.

Lemma group_tags_keys rows acc c :
  c ∈ dict_keys (foldl (λ d tag, dict_append d tag.2 tag.1) acc rows) ↔
  c ∈ dict_keys acc ∨ c ∈ map snd rows.
Proof.
  revert acc. induction rows as [|[n c0] rows IH]; intros acc.
  - cbn. split; [by left|]. by intros [?|[]%elem_of_nil].
  - cbn [foldl map]. rewrite IH. cbn [fst snd].
    rewrite dict_keys_dict_append, elem_of_cons.
    destruct (dict_contains acc c0) eqn:Hin.
    + apply dict_contains_keys in Hin. split; [tauto|].
      intros [?|[->|?]]; auto.
    + rewrite elem_of_app, list_elem_of_singleton. tauto.
Qed.

Lemma group_tags_wf rows acc :
  dict_wf acc →
  dict_wf (foldl (λ d tag, dict_append d tag.2 tag.1) acc rows).
Proof.
  revert acc. induction rows as [|[n c0] rows IH]; intros acc Hwf; [done|].
  cbn [foldl]. apply IH. cbn [fst snd].
  unfold dict_wf in *. rewrite dict_keys_dict_append.
  destruct (dict_contains acc c0) eqn:Hin; [done|].
  apply NoDup_app. split; [done|]. split; [|apply NoDup_singleton].
  intros k Hk ->%list_elem_of_singleton.
  apply dict_contains_keys in Hk. congruence.
Qed.

Lemma elem_of_group_tags rows c v :
  v ∈ values_of (group_tags rows) c ↔ (v, c) ∈ rows.
Proof.
  unfold group_tags. rewrite group_tags_values. cbn. split.
  - intros ([n c'] & -> & [Hin Heq]%elem_of_filterb)%list_elem_of_fmap.
    cbn in *. by apply String.eqb_eq in Heq as ->.
  - intros Hin. apply list_elem_of_fmap. exists (v, c). split; [done|].
    apply elem_of_filterb. split; [done|]. apply String.eqb_refl.
Qed.

Lemma group_tags_ok rows : NoDup rows → tag_map_ok (group_tags rows).
Proof.
  intros Hnd.
  assert (dict_wf (group_tags rows)) as Hwf.
  { apply group_tags_wf. apply NoDup_nil_2. }
  split; [done|]. intros [c vs] Hitem. cbn.
  assert (vs = values_of (group_tags rows) c) as ->.
  { unfold values_of, dict_get_default.
    by rewrite (dict_get_elem_of _ c vs). }
  unfold group_tags. rewrite group_tags_values. cbn.
  apply NoDup_fmap_2_strong; [|by apply NoDup_filterb].
  intros [n1 c1] [n2 c2] [_ H1]%elem_of_filterb [_ H2]%elem_of_filterb.
  cbn in *. apply String.eqb_eq in H1 as ->, H2 as ->. by intros ->.
Qed.

Lemma group_tags_nil rows : (∀ x, x ∉ rows) → group_tags rows = [].
Proof.
  intros Hno. destruct rows as [|x rows]; [done|].
  exfalso. apply (Hno x). by left.
Qed.

(** The rows of the join are pairwise distinct. *)
Lemma select_prompt_tags_NoDup pid db :
  db_ok db → NoDup (select_prompt_tags pid db).
Proof.
  intros [_ _ Htk Hl _]. unfold select_prompt_tags.
  assert (∀ tid, List.filter (same_link pid tid) (prompt_tags db)
                 = if existsb (same_link pid tid) (prompt_tags db)
                   then [Link.mk pid tid] else []) as Hone.
  { intros tid. induction Hl as [|l ls Hnotin Hl IH]; [done|]. cbn.
    destruct (same_link pid tid l) eqn:Hl0; cbn.
    - apply same_link_true in Hl0 as ->. f_equal. rewrite IH.
      destruct (existsb _ ls) eqn:Hex; [|done].
      apply existsb_elem_of in Hex as (l & Hin & ->%same_link_true). done.
    - apply IH. }
  induction (tags db) as [|t ts IH]; cbn; [apply NoDup_nil_2|].
  cbn in Htk. apply NoDup_cons in Htk as [Hk Htk].
  apply NoDup_app. split; [|split; [|by apply IH]].
  - rewrite Hone. destruct (existsb _ _); cbn;
      [apply NoDup_singleton|apply NoDup_nil_2].
  - intros x Hx Hin. apply Hk.
    apply list_elem_of_fmap in Hx as (_ & -> & _).
    apply list_elem_of_In, in_flat_map in Hin as (t' & Ht' & Hx).
    apply list_elem_of_In, list_elem_of_fmap in Hx as (_ & Heq & _).
    cbn in Heq. unfold tag_key. rewrite Heq.
    apply (list_elem_of_fmap_2 tag_key). by apply list_elem_of_In.
Qed.

(** ** The loaders *)

Lemma as_str_list_of l : as_str_list (of_str_list l) = Some l.
Proof.
  unfold as_str_list, of_str_list. induction l as [|s l IH]; [done|].
  cbn in *. by rewrite IH.
Qed.

Lemma as_tags_of d : as_tags (of_tags d) = Some d.
Proof.
  unfold as_tags, of_tags. induction d as [|[c vs] d IH]; [done|].
  cbn -[as_str_list of_str_list] in *. rewrite as_str_list_of.
  cbn -[as_str_list of_str_list]. by rewrite IH.
Qed.

Lemma from_dict_row r d :
  from_dict (dict_set (row_dict r) "tags" (of_tags d))
  = Some (prompt_of_row r d).
Proof.
  destruct r. unfold from_dict. cbn -[as_tags of_tags].
  by rewrite as_tags_of.
Qed.

Lemma load_prompt_eq r db :
  load_prompt r db
  = Some (prompt_of_row r (group_tags (select_prompt_tags (Row.id r) db)), db).
Proof.
  unfold load_prompt, mbind, tx_bind, tx_read. by rewrite from_dict_row.
Qed.

Lemma get_by_id_Some pid db r :
  select_prompt pid db = Some r →
  get_by_id pid db
  = Returned
      (Some (prompt_of_row r (group_tags (select_prompt_tags pid db)))) db.
Proof.
  intros Hsel. unfold get_by_id, get_db_connection, mbind, tx_bind, tx_read.
  rewrite Hsel, load_prompt_eq. cbn.
  by apply select_prompt_Some in Hsel as [_ ->].
Qed.

Lemma get_by_id_None pid db :
  select_prompt pid db = None → get_by_id pid db = Returned None db.
Proof.
  intros Hsel. unfold get_by_id, get_db_connection, mbind, tx_bind, tx_read.
  by rewrite Hsel.
Qed.

Lemma load_prompts_eq rows db :
  load_prompts rows db
  = Some (map (λ r, prompt_of_row r
                      (group_tags (select_prompt_tags (Row.id r) db))) rows,
          db).
Proof.
  induction rows as [|r rows IH]; [done|].
  cbn. unfold mbind, tx_bind in *. by rewrite load_prompt_eq, IH.
Qed.

Lemma get_all_eq db :
  get_all db
  = Returned
      (map (λ r, prompt_of_row r
                   (group_tags (select_prompt_tags (Row.id r) db)))
           (select_prompts_by_title db)) db.
Proof.
  unfold get_all, get_db_connection, mbind, tx_bind, tx_read.
  by rewrite load_prompts_eq.
Qed.

(** ** Saving and loading *)

(** The record [get_by_id] returns after a [save]. *)
Lemma save_then_get now p T db :
  db_ok db → tag_map_ok T →
  ∃ db' tags,
    save now p T db = Returned () db'
    ∧ db_ok db'
    ∧ get_by_id (Prompt.id p) db'
      = Returned (Some (prompt_of_row (stored_row now p db) tags)) db'
    ∧ same_tag_map tags (drop_empty T)
    ∧ tag_map_ok tags
    ∧ (tag_pairs T = [] → tags = []).
Proof.
  intros Hok HT.
  destruct (save_spec now p T db Hok HT)
    as (db' & Hsave & Hok' & Hrow & _ & Hmine & _).
  exists db', (group_tags (select_prompt_tags (Prompt.id p) db')).
  split; [done|]. split; [done|].
  split; [by apply get_by_id_Some|]. split; [|split].
  - split.
    + intros c. rewrite dict_keys_drop_empty.
      unfold group_tags. rewrite group_tags_keys. split.
      * intros [[]%elem_of_nil|([n c'] & -> & Hin)%list_elem_of_fmap].
        exists n. by apply (Hmine (n, c')).
      * intros [v Hv]. right.
        apply (list_elem_of_fmap_2 snd _ (v, c)). by apply Hmine.
    + intros c v. rewrite values_of_drop_empty by apply HT.
      rewrite elem_of_group_tags, values_of_tag_pairs by apply HT.
      apply (Hmine (v, c)).
  - by apply group_tags_ok, select_prompt_tags_NoDup.
  - intros Hnil. apply group_tags_nil. intros x Hx%Hmine.
    rewrite Hnil in Hx. by apply elem_of_nil in Hx.
Qed.

(** C1, as amended: for a tag map whose value lists hold no value twice,
    [save] succeeds and [get_by_id] then yields a record whose tag map
    has exactly the categories of the map that have a value, with the
    same values under each; categories given an empty list are not
    loaded, and a map without values leaves the prompt with no tags. *)
Theorem C1_save_replaces_tags now p T db :
  db_ok db → tag_map_ok T →
  ∃ db' r,
    save now p T db = Returned () db'
    ∧ get_by_id (Prompt.id p) db' = Returned (Some r) db'
    ∧ same_tag_map (Prompt.tags r) (drop_empty T)
    ∧ tag_map_ok (Prompt.tags r)
    ∧ (tag_pairs T = [] → Prompt.tags r = []).
Proof.
  intros Hok HT.
  destruct (save_then_get now p T db Hok HT)
    as (db' & tags & Hsave & _ & Hget & Hsame & Htok & Hnil).
  by exists db', (prompt_of_row (stored_row now p db) tags).
Qed.

(** C1 as stated fails: a category saved with an empty list of values is
    absent from the loaded tag map. *)
Lemma C1_empty_category_not_loaded :
  ¬ load_after_save_equals "2024-05-01 10:00:00 UTC" bug_triage
      [("Domain", [])] empty_db.
Proof.
  intros (db' & r & Hsave & Hget & Hkeys & _).
  vm_compute in Hsave. injection Hsave as <-.
  vm_compute in Hget. injection Hget as <-.
  specialize (Hkeys "Domain"). cbn in Hkeys.
  assert ("Domain" ∈ @nil string) as []%elem_of_nil.
  apply Hkeys. by left.
Qed.

(** C6, as amended: [save] on a stored id keeps the stored [id],
    [created_at] and [is_favorite], sets [last_modified] to the current
    time and overwrites the other fields with those of its argument. *)
Theorem C6_update_preserves_and_overwrites now p T db old :
  db_ok db → tag_map_ok T →
  get_by_id (Prompt.id p) db = Returned (Some old) db →
  ∃ db' new,
    save now p T db = Returned () db'
    ∧ get_by_id (Prompt.id p) db' = Returned (Some new) db'
    ∧ Prompt.id new = Prompt.id old
    ∧ Prompt.created_at new = Prompt.created_at old
    ∧ Prompt.last_modified new = now
    ∧ content new = content p
    ∧ Prompt.is_favorite new = Prompt.is_favorite old.
Proof.
  intros Hok HT Hold.
  destruct (save_then_get now p T db Hok HT)
    as (db' & tags & Hsave & _ & Hget & _).
  exists db', (prompt_of_row (stored_row now p db) tags).
  split; [done|]. split; [done|].
  unfold stored_row.
  destruct (select_prompt (Prompt.id p) db) as [r|] eqn:Hsel.
  - rewrite (get_by_id_Some _ _ _ Hsel) in Hold.
    injection Hold as <-. done.
  - rewrite (get_by_id_None _ _ Hsel) in Hold. done.
Qed.

(** C6 as stated fails: the update leaves the stored favorite flag as it
    is, whatever flag the record passed to [save] carries. *)
Lemma C6_favorite_not_overwritten :
  ¬ update_overwrites_all "2024-05-02 09:30:00 UTC" bug_triage
      bug_triage_tags favorite_db.
Proof.
  intros Hspec.
  destruct (Hspec favorite_record)
    as (db' & new & Hsave & Hget & _ & _ & _ & _ & Hfav).
  { by vm_compute. }
  vm_compute in Hsave. injection Hsave as <-.
  vm_compute in Hget. injection Hget as <-.
  done.
Qed.

(** ** Deleting *)

Lemma filterb_idemp {A} (f : A → bool) (l : list A) :
  List.filter f (List.filter f l) = List.filter f l.
Proof.
  induction l as [|x l IH]; [done|]. cbn.
  destruct (f x) eqn:Hx; [|done]. cbn. by rewrite Hx, IH.
Qed.

(** C5, as amended: [delete] never raises; it removes the association
    rows of the id and then its prompt row, leaves the other rows alone,
    and returns [True] whether or not the id was stored; a second
    [delete] of the same id returns [True] again and changes nothing. *)
Theorem C5_delete_is_safe prompt_id db :
  ∃ db',
    delete prompt_id db = Returned true db'
    ∧ (prompt_id ∉ prompt_ids db')
    ∧ (∀ l, l ∈ prompt_tags db' ↔
            l ∈ prompt_tags db ∧ Link.prompt_id l ≠ prompt_id)
    ∧ (∀ r, r ∈ prompts db' ↔ r ∈ prompts db ∧ Row.id r ≠ prompt_id)
    ∧ tags db' = tags db
    ∧ delete prompt_id db' = Returned true db'.
Proof.
  exists (delete_prompt prompt_id (delete_prompt_tags prompt_id db)).
  split; [done|].
  assert (∀ r, r ∈ List.filter (λ r, negb (String.eqb (Row.id r) prompt_id))
                     (prompts db)
               ↔ r ∈ prompts db ∧ Row.id r ≠ prompt_id) as Hrows.
  { intros r. rewrite elem_of_filterb, negb_true_iff.
    by rewrite String.eqb_neq. }
  assert (∀ l, l ∈ List.filter
                     (λ l, negb (String.eqb (Link.prompt_id l) prompt_id))
                     (prompt_tags db)
               ↔ l ∈ prompt_tags db ∧ Link.prompt_id l ≠ prompt_id) as Hls.
  { intros l. rewrite elem_of_filterb, negb_true_iff.
    by rewrite String.eqb_neq. }
  split; [|split; [done|split; [done|split; [done|]]]].
  - unfold prompt_ids. cbn.
    intros (r & Heq & [_ Hne]%Hrows)%list_elem_of_fmap. done.
  - unfold delete, get_db_connection, mbind, tx_bind, tx_write, mret, tx_ret.
    unfold delete_prompt, delete_prompt_tags. cbn. f_equal. f_equal.
    + apply filterb_idemp.
    + apply filterb_idemp.
Qed.

(** C5 as stated fails: [delete] of an id that was never stored returns
    [True], not an unsuccessful result. *)
Lemma C5_delete_missing_returns_true :
  ¬ delete_reports_absence "missing" empty_db.
Proof.
  intros Hspec. destruct Hspec as [db' Hdel].
  - by intros []%elem_of_nil.
  - vm_compute in Hdel. done.
Qed.

(** ** References from associations to prompts *)

Lemma prompt_refs_ok_empty : prompt_refs_ok empty_db.
Proof. by intros l []%elem_of_nil. Qed.

Lemma select_prompt_in_ids pid db r :
  select_prompt pid db = Some r → pid ∈ prompt_ids db.
Proof.
  intros [Hin <-]%select_prompt_Some. by apply (list_elem_of_fmap_2 Row.id).
Qed.

Lemma upsert_ids_mono now p db i :
  i ∈ prompt_ids db → i ∈ prompt_ids (upsert now p db).
Proof.
  rewrite upsert_prompt_ids. destruct (select_prompt _ db); [done|].
  intros Hi. apply elem_of_app. by left.
Qed.

(** What a [save] that returns has done to the tables that hold the
    references. *)
Lemma save_Returned now p T db db' :
  save now p T db = Returned () db' →
  Prompt.id p ∈ prompt_ids db'
  ∧ (∀ i, i ∈ prompt_ids db → i ∈ prompt_ids db')
  ∧ ∀ l, l ∈ prompt_tags db' →
         l ∈ prompt_tags db ∨ Link.prompt_id l = Prompt.id p.
Proof.
  unfold save, get_db_connection. rewrite save_body_eq.
  destruct (attach_all _ _ _) as [[[] db1]|] eqn:Hloop; [|done].
  intros [= <-]. apply attach_all_Some in Hloop as [Hp Hl].
  assert (prompt_ids db1 = prompt_ids (upsert now p db)) as ->.
  { unfold prompt_ids. by rewrite Hp. }
  split; [|split].
  - eapply select_prompt_in_ids, upsert_select.
  - intros i. apply upsert_ids_mono.
  - intros l [Hin|Hpid]%Hl; [|by right]. left.
    apply elem_of_filterb in Hin as [Hin _].
    unfold upsert in Hin. by destruct (select_prompt _ db).
Qed.

Lemma save_Raised now p T db db' :
  save now p T db = Raised db' → db' = db.
Proof.
  unfold save, get_db_connection.
  destruct (save_body now p T db) as [[[] ?]|]; [done|]. by intros [= <-].
Qed.

Lemma save_refs_ok now p T db :
  prompt_refs_ok db → prompt_refs_ok (store (save now p T db)).
Proof.
  intros Hrefs. destruct (save now p T db) as [[] db'|db'] eqn:Hsave; cbn.
  - apply save_Returned in Hsave as (Hpid & Hmono & Hlinks).
    intros l [Hl| ->]%Hlinks; [|done]. by apply Hmono, Hrefs.
  - by apply save_Raised in Hsave as ->.
Qed.

Lemma delete_store pid db :
  store (delete pid db) = delete_prompt pid (delete_prompt_tags pid db).
Proof. reflexivity. Qed.

Lemma delete_refs_ok pid db :
  prompt_refs_ok db → prompt_refs_ok (store (delete pid db)).
Proof.
  intros Hrefs l. rewrite delete_store. cbn.
  intros [Hl Hne]%elem_of_filterb.
  apply Hrefs, list_elem_of_fmap in Hl as (r & Heq & Hr).
  apply list_elem_of_fmap. exists r. split; [done|].
  apply elem_of_filterb. split; [done|]. by rewrite <- Heq.
Qed.

Lemma toggle_favorite_refs_ok pid status db :
  prompt_refs_ok db → prompt_refs_ok (store (toggle_favorite pid status db)).
Proof.
  intros Hrefs l Hl. cbn in *. unfold prompt_ids in *. cbn.
  rewrite map_map.
  erewrite map_ext; [by apply Hrefs|].
  intros r. cbn. by destruct (String.eqb (Row.id r) pid).
Qed.

Lemma get_by_id_store pid db : ∃ found, get_by_id pid db = Returned found db.
Proof.
  destruct (select_prompt pid db) as [r|] eqn:Hsel.
  - eexists. by apply get_by_id_Some.
  - eexists. by apply get_by_id_None.
Qed.

Lemma duplicate_refs_ok new_id now pid db :
  prompt_refs_ok db → prompt_refs_ok (store (duplicate new_id now pid db)).
Proof.
  intros Hrefs. unfold duplicate.
  destruct (get_by_id_store pid db) as [[original|] ->]; cbn; [|done].
  set (copy := Prompt.mk _ _ _ _ _ _ _ _ _ _ _ _ _ _ _ _ _).
  pose proof (save_refs_ok now copy (Prompt.tags original) db Hrefs) as Hs.
  by destruct (save now copy (Prompt.tags original) db).
Qed.

Lemma import_items_refs_ok uuid4 utcnow i items count db :
  prompt_refs_ok db →
  prompt_refs_ok (store (import_items uuid4 utcnow i items count db)).
Proof.
  revert i count db.
  induction items as [|item items IH]; intros i count db Hrefs; [done|].
  cbn. destruct (import_item (uuid4 i) item) as [[prompt tags]|]; [|done].
  pose proof (save_refs_ok (utcnow i) prompt tags db Hrefs) as Hs.
  destruct (save (utcnow i) prompt tags db) as [[] db'|db']; cbn in *.
  - by apply IH.
  - done.
Qed.

Lemma import_from_json_refs_ok json_loads uuid4 utcnow text db :
  prompt_refs_ok db →
  prompt_refs_ok (store (import_from_json json_loads uuid4 utcnow text db)).
Proof.
  intros Hrefs. unfold import_from_json.
  destruct (json_loads text) as [data|]; [|done].
  destruct (iterate data) as [items|]; [|done].
  by apply import_items_refs_ok.
Qed.

(** C10: when no association row references a missing prompt, the same
    holds of the database that [save], [delete], [duplicate],
    [toggle_favorite] and [import_from_json] leave, whether they return
    or raise; [delete] leaves no association row of the id it removes,
    and a [save] that returns has the id of its prompt in [prompts] and
    has added association rows for that id only. *)
Theorem C10_associations_reference_stored_prompts db :
  prompt_refs_ok db →
  (∀ now p T, prompt_refs_ok (store (save now p T db)))
  ∧ (∀ pid, prompt_refs_ok (store (delete pid db)))
  ∧ (∀ new_id now pid, prompt_refs_ok (store (duplicate new_id now pid db)))
  ∧ (∀ pid status, prompt_refs_ok (store (toggle_favorite pid status db)))
  ∧ (∀ json_loads uuid4 utcnow text,
       prompt_refs_ok
         (store (import_from_json json_loads uuid4 utcnow text db)))
  ∧ (∀ pid l, l ∈ prompt_tags (store (delete pid db)) →
              Link.prompt_id l ≠ pid)
  ∧ (∀ now p T db', save now p T db = Returned () db' →
       Prompt.id p ∈ prompt_ids db'
       ∧ ∀ l, l ∈ prompt_tags db' →
              l ∈ prompt_tags db ∨ Link.prompt_id l = Prompt.id p).
Proof.
  intros Hrefs. split_and!.
  - intros. by apply save_refs_ok.
  - intros. by apply delete_refs_ok.
  - intros. by apply duplicate_refs_ok.
  - intros. by apply toggle_favorite_refs_ok.
  - intros. by apply import_from_json_refs_ok.
  - intros pid l. rewrite delete_store. cbn.
    intros [_ Hne]%elem_of_filterb.
    by apply negb_true_iff, String.eqb_neq in Hne.
  - intros now p T db' (? & _ & ?)%save_Returned. done.
Qed.

(** ** The tag filters of the library page *)

Lemma issubset_true (tags have : list string) :
  issubset tags have = true ↔ Forall (λ v, v ∈ have) tags.
Proof.
  unfold issubset. rewrite bool_decide_eq_true, Forall_forall.
  rewrite elem_of_subseteq. by setoid_rewrite elem_of_list_to_set.
Qed.

Lemma filterb_filterb {A} (f g : A → bool) (l : list A) :
  List.filter g (List.filter f l) = List.filter (λ x, f x && g x) l.
Proof.
  induction l as [|x l IH]; [done|]. cbn.
  destruct (f x); cbn; [|done]. destruct (g x); by rewrite IH.
Qed.

Lemma filterb_ext {A} (f g : A → bool) (l : list A) :
  (∀ x, f x = g x) → List.filter f l = List.filter g l.
Proof. intros Hfg. induction l as [|x l IH]; cbn; by rewrite ?Hfg, ?IH. Qed.

Lemma filterb_true {A} (l : list A) : List.filter (λ _, true) l = l.
Proof. induction l as [|x l IH]; cbn; by rewrite ?IH. Qed.

(** One round of the loop keeps the prompts that have every selected
    value of the category. *)
Lemma tag_filter_eq ps (item : string * list string) :
  tag_filter ps item
  = List.filter
      (λ p, issubset item.2 (values_of (Prompt.tags p) item.1)) ps.
Proof.
  destruct item as [c [|v vs]]; unfold tag_filter; cbn [fst snd].
  - rewrite <- (filterb_true ps) at 1. apply filterb_ext. intros p.
    symmetry. apply issubset_true. constructor.
  - apply filterb_ext. intros p. unfold values_of.
    destruct (Prompt.tags p) as [|kv d] eqn:Htags; [|done]. cbn.
    symmetry. apply not_true_iff_false. rewrite issubset_true.
    intros Hall. apply Forall_cons in Hall as [[]%elem_of_nil _].
Qed.

Lemma tag_filters_eq selected_tags ps :
  tag_filters selected_tags ps
  = List.filter
      (λ p, forallb (λ item, issubset item.2
                               (values_of (Prompt.tags p) item.1))
                    selected_tags) ps.
Proof.
  unfold tag_filters. revert ps.
  induction selected_tags as [|item sel IH]; intros ps; cbn [foldl forallb].
  - by rewrite filterb_true.
  - by rewrite IH, tag_filter_eq, filterb_filterb.
Qed.

Lemma matches_forallb selected_tags p :
  forallb (λ item, issubset item.2 (values_of (Prompt.tags p) item.1))
          selected_tags = true
  ↔ matches selected_tags p.
Proof.
  unfold matches. rewrite forallb_forall, Forall_forall.
  split; intros H item Hin.
  - apply issubset_true, H. by apply list_elem_of_In.
  - apply issubset_true, H. by apply list_elem_of_In.
Qed.

Lemma elem_of_tag_filters selected_tags ps p :
  p ∈ tag_filters selected_tags ps ↔ p ∈ ps ∧ matches selected_tags p.
Proof.
  by rewrite tag_filters_eq, elem_of_filterb, matches_forallb.
Qed.

(** C7: the tag-filter stage keeps, in their order, exactly the prompts
    that have, under every category of the selection, all the values
    selected for it; a result of a filter with two values under one
    category has both; and the result of two filters put together (for
    filters on different categories, the items of the one followed by
    those of the other) holds the prompts that are in the result of
    each. *)
Theorem C7_tag_filters selected_tags (ps : list Prompt.t) :
  tag_filters selected_tags ps
  = List.filter (λ p, bool_decide (matches selected_tags p)) ps
  ∧ (∀ p, matches selected_tags p ↔
          ∀ category values v,
            (category, values) ∈ selected_tags → v ∈ values →
            v ∈ values_of (Prompt.tags p) category)
  ∧ (∀ category v1 v2 p,
       p ∈ tag_filters [(category, [v1; v2])] ps →
       v1 ∈ values_of (Prompt.tags p) category
       ∧ v2 ∈ values_of (Prompt.tags p) category)
  ∧ (∀ other p,
       p ∈ tag_filters (selected_tags ++ other) ps ↔
       p ∈ tag_filters selected_tags ps ∧ p ∈ tag_filters other ps).
Proof.
  split_and!.
  - rewrite tag_filters_eq. apply filterb_ext. intros p.
    apply eq_true_iff_eq.
    by rewrite matches_forallb, bool_decide_eq_true.
  - intros p. unfold matches. rewrite Forall_forall. split.
    + intros H c vs v Hitem Hv. specialize (H _ Hitem).
      rewrite Forall_forall in H. by apply H.
    + intros H [c vs] Hitem. apply Forall_forall. intros v Hv.
      by apply (H c vs).
  - intros c v1 v2 p [_ Hm]%elem_of_tag_filters.
    apply Forall_cons in Hm as [Hvs _]. cbn in Hvs.
    apply Forall_cons in Hvs as [H1 Hvs].
    by apply Forall_cons in Hvs as [H2 _].
  - intros other p. rewrite !elem_of_tag_filters. unfold matches.
    rewrite Forall_app. tauto.
Qed.

(** ** The order of strings *)

Lemma ascii_compare_Eq a b : Ascii.compare a b = Eq → a = b.
Proof.
  unfold Ascii.compare. intros H%N.compare_eq_iff.
  rewrite <- (ascii_N_embedding a), <- (ascii_N_embedding b). by rewrite H.
Qed.

Lemma ascii_compare_Lt_trans a b c :
  Ascii.compare a b = Lt → Ascii.compare b c = Lt → Ascii.compare a c = Lt.
Proof.
  unfold Ascii.compare. rewrite !N.compare_lt_iff. lia.
Qed.

Lemma string_compare_trans s1 s2 s3 :
  String.compare s1 s2 ≠ Gt → String.compare s2 s3 ≠ Gt →
  String.compare s1 s3 ≠ Gt.
Proof.
  revert s2 s3. induction s1 as [|a s1 IH]; intros [|b s2] [|c s3]; cbn;
    try done.
  destruct (Ascii.compare a b) eqn:Hab; [| |done];
    destruct (Ascii.compare b c) eqn:Hbc; try done.
  - apply ascii_compare_Eq in Hab as ->. rewrite Hbc. apply IH.
  - apply ascii_compare_Eq in Hab as ->. by rewrite Hbc.
  - apply ascii_compare_Eq in Hbc as <-. by rewrite Hab.
  - by rewrite (ascii_compare_Lt_trans a b c).
Qed.

Lemma str_le_compare s1 s2 : str_le s1 s2 ↔ String.compare s1 s2 ≠ Gt.
Proof.
  unfold str_le, String.leb. by destruct (String.compare s1 s2).
Qed.

Lemma str_le_trans : Transitive str_le.
Proof.
  intros s1 s2 s3. rewrite !str_le_compare. apply string_compare_trans.
Qed.

Lemma str_le_total : Total str_le.
Proof. intros s1 s2. apply String.leb_total. Qed.

(** ** The tag directory *)

Lemma add_db_tag_keys d tag : dict_keys (add_db_tag d tag) = dict_keys d.
Proof.
  unfold add_db_tag. cbv zeta.
  destruct (dict_contains d tag.2) eqn:Hin; cbn [andb]; [|done].
  destruct (negb _); [|done]. by rewrite dict_keys_set, Hin.
Qed.

Lemma add_db_tag_values d tag c :
  ∃ extra,
    values_of (add_db_tag d tag) c = values_of d c ++ extra
    ∧ extra = (if bool_decide (tag.2 = c ∧ c ∈ dict_keys d
                                ∧ tag.1 ∉ values_of d c)
               then [tag.1] else []).
Proof.
  eexists. split; [|done]. unfold add_db_tag. cbv zeta.
  destruct (dict_contains d tag.2) eqn:Hin; cbn [andb].
  - apply dict_contains_keys in Hin.
    destruct (existsb _ _) eqn:Hex; cbn [negb].
    + rewrite bool_decide_eq_false_2, app_nil_r; [done|].
      intros (<- & _ & Hnot). apply Hnot.
      apply existsb_elem_of in Hex as (v & Hv & ->%String.eqb_eq). done.
    + unfold values_of at 1, dict_get_default. rewrite dict_get_set.
      case_decide as Hc.
      * subst c. rewrite bool_decide_eq_true_2; [done|].
        split; [done|]. split; [done|]. intros Hv.
        rewrite existsb_false in Hex. specialize (Hex _ Hv).
        by rewrite String.eqb_refl in Hex.
      * rewrite bool_decide_eq_false_2, app_nil_r; [done|]. by intros [? _].
  - rewrite bool_decide_eq_false_2, app_nil_r; [done|].
    intros (<- & Hk%dict_contains_keys & _). congruence.
Qed.

(** The lists after the loop over the stored tags: the registry's list
    followed by stored values that it does not hold. *)
Lemma merged_tags_spec rows reg c :
  let merged := foldl add_db_tag reg rows in
  dict_keys merged = dict_keys reg
  ∧ ∃ extra,
      values_of merged c = values_of reg c ++ extra
      ∧ (∀ v, v ∈ extra ↔
              c ∈ dict_keys reg ∧ (v, c) ∈ rows ∧ v ∉ values_of reg c)
      ∧ (NoDup (values_of reg c) → NoDup (values_of reg c ++ extra)).
Proof.
  revert reg. induction rows as [|[n c0] rows IH]; intros reg; cbn [foldl].
  - split; [done|]. exists []. rewrite app_nil_r. split; [done|].
    split; [|done]. intros v. split; [by intros []%elem_of_nil|].
    by intros (_ & []%elem_of_nil & _).
  - destruct (IH (add_db_tag reg (n, c0))) as (Hkeys & extra & Hvals & Hex & Hnd).
    rewrite add_db_tag_keys in Hkeys, Hex. split; [done|].
    destruct (add_db_tag_values reg (n, c0) c) as (e0 & He0 & Hdef).
    cbn [fst snd] in Hdef. rewrite He0 in Hvals, Hex, Hnd.
    exists (e0 ++ extra). split; [by rewrite app_assoc|].
    case_bool_decide as Hnew; subst e0.
    + destruct Hnew as (-> & Hc & Hn). split.
      * intros v. rewrite elem_of_app, list_elem_of_singleton, Hex.
        rewrite elem_of_cons, elem_of_app, list_elem_of_singleton. split.
        -- intros [->|(_ & Hrow & Hv)]; [by auto|].
           split; [done|]. split; [by right|]. tauto.
        -- intros (_ & [[= -> ]|Hrow] & Hv); [by left|].
           destruct (decide (v = n)) as [->|Hne]; [by left|].
           right. split; [done|]. split; [done|]. tauto.
      * intros Hnd0. rewrite app_assoc. apply Hnd.
        apply NoDup_app. split; [done|].
        split; [|apply NoDup_singleton].
        by intros v Hv ->%list_elem_of_singleton.
    + cbn [app]. rewrite app_nil_r in Hex, Hnd. split; [|done].

      intros v. rewrite Hex, elem_of_cons. split; [tauto|].
      intros (Hc & [[= -> ->]|Hrow] & Hv); [|done].
      exfalso. apply Hnew. done.
Qed.

Lemma sort_tag_lists_keys d : dict_keys (sort_tag_lists d) = dict_keys d.
Proof.
  unfold dict_keys, sort_tag_lists. rewrite map_map. by apply map_ext.
Qed.

Lemma sort_tag_lists_values d c :
  values_of (sort_tag_lists d) c =
    if String.eqb c "Complexity" then values_of d c
    else merge_sort str_le (values_of d c).
Proof.
  unfold values_of, dict_get_default, sort_tag_lists.
  induction d as [|[k vs] d IH]; cbn [map dict_get fst snd].
  - by destruct (String.eqb c "Complexity").
  - destruct (String.eqb k c) eqn:Hk; [|done].
    apply String.eqb_eq in Hk as ->. by destruct (String.eqb c "Complexity").
Qed.

Lemma elem_of_select_tags_by_name db v c :
  (v, c) ∈ select_tags_by_name db ↔
  ∃ t, t ∈ tags db ∧ Tag.name t = v ∧ Tag.category t = c.
Proof.
  unfold select_tags_by_name. rewrite list_elem_of_fmap.
  split; intros (t & Heq & Ht).
  - exists t. rewrite merge_sort_Permutation in Ht. by injection Heq as -> ->.
  - exists t. rewrite merge_sort_Permutation. destruct Ht as [<- <-]. done.
Qed.

Lemma values_of_in_keys (d : dict (list string)) c v :
  v ∈ values_of d c → c ∈ dict_keys d.
Proof.
  unfold values_of, dict_get_default.
  destruct (dict_get d c) as [vs|] eqn:Hget; cbn; [|by intros []%elem_of_nil].
  intros _. apply dict_get_Some_elem_of in Hget.
  by apply (list_elem_of_fmap_2 fst _ (c, vs)).
Qed.

Lemma TAG_CATEGORIES_NoDup c : NoDup (values_of TAG_CATEGORIES c).
Proof.
  unfold values_of, dict_get_default.
  destruct (dict_get TAG_CATEGORIES c) as [vs|] eqn:Hget; [|apply NoDup_nil_2].
  apply dict_get_Some_elem_of in Hget. cbn.
  assert (Forall (λ item : string * list string, NoDup item.2)
            TAG_CATEGORIES) as Hall.
  { apply (bool_decide_unpack _). by vm_compute. }
  rewrite Forall_forall in Hall. apply (Hall _ Hget).
Qed.

(** C8: the tag directory has the categories of the registry, in its
    order, and no other; the list of a category holds the registry's
    values and the stored values of that category, each once; every list
    but that of "Complexity" is sorted in the order of strings, and the
    list of "Complexity" is the registry's list, in its own order,
    followed by the stored values it lacks. *)
Theorem C8_tag_directory db :
  ∃ d,
    get_all_tags_by_category db = Returned d db
    ∧ dict_keys d = dict_keys TAG_CATEGORIES
    ∧ (∀ c v, v ∈ values_of d c ↔
              c ∈ dict_keys TAG_CATEGORIES
              ∧ (v ∈ values_of TAG_CATEGORIES c
                 ∨ ∃ t, t ∈ tags db ∧ Tag.name t = v ∧ Tag.category t = c))
    ∧ (∀ c, NoDup (values_of d c))
    ∧ (∀ c, c ≠ "Complexity" → StronglySorted str_le (values_of d c))
    ∧ ∃ extra,
        values_of d "Complexity"
        = ["basic"; "simple"; "intermediate"; "advanced"; "expert"] ++ extra
        ∧ ∀ v, v ∈ extra →
               v ∉ ["basic"; "simple"; "intermediate"; "advanced"; "expert"].
Proof.
  set (rows := select_tags_by_name db).
  set (merged := foldl add_db_tag TAG_CATEGORIES rows).
  exists (sort_tag_lists merged). split; [done|].
  assert (∀ c, ∃ extra,
            values_of merged c = values_of TAG_CATEGORIES c ++ extra
            ∧ (∀ v, v ∈ extra ↔
                    c ∈ dict_keys TAG_CATEGORIES ∧ (v, c) ∈ rows
                    ∧ v ∉ values_of TAG_CATEGORIES c)
            ∧ NoDup (values_of merged c)) as Hmerged.
  { intros c.
    destruct (merged_tags_spec rows TAG_CATEGORIES c)
      as (_ & extra & Hvals & Hex & Hnd).
    exists extra. split; [done|]. split; [done|].
    fold merged in Hvals. rewrite Hvals. apply Hnd, TAG_CATEGORIES_NoDup. }
  split_and!.
  - rewrite sort_tag_lists_keys.
    apply (merged_tags_spec rows TAG_CATEGORIES "").
  - intros c v. destruct (Hmerged c) as (extra & Hvals & Hex & _).
    assert (v ∈ values_of (sort_tag_lists merged) c ↔ v ∈ values_of merged c)
      as ->.
    { rewrite sort_tag_lists_values. destruct (String.eqb c "Complexity");
        [done|]. by rewrite merge_sort_Permutation. }
    rewrite Hvals, elem_of_app, Hex.
    unfold rows. rewrite elem_of_select_tags_by_name. split.
    + intros [Hv|(Hc & Ht & _)]; [|by auto].
      split; [by eapply values_of_in_keys|by left].
    + intros (Hc & [Hv|Ht]); [by left|].
      destruct (decide (v ∈ values_of TAG_CATEGORIES c)); [by left|].
      by right.
  - intros c. destruct (Hmerged c) as (_ & _ & _ & Hnd).
    rewrite sort_tag_lists_values. destruct (String.eqb c "Complexity");
      [done|]. by rewrite merge_sort_Permutation.
  - intros c Hc%String.eqb_neq. rewrite sort_tag_lists_values, Hc.
    apply StronglySorted_merge_sort;
      [apply str_le_trans|apply str_le_total].
  - destruct (Hmerged "Complexity") as (extra & Hvals & Hex & _).
    exists extra. split.
    + by rewrite sort_tag_lists_values.
    + by intros v (_ & _ & Hv)%Hex.
Qed.

(** ** Export and import *)

Section ExportImport.

(** The two functions of the [json] library, the source of ids and the
    clock. *)
Variable json_dumps : Any → string.
Variable json_loads : string → option Any.
Variables uuid4 utcnow : nat → string.

Lemma export_all_eq db :
  ∃ exported,
    get_all db = Returned exported db
    ∧ export_all json_dumps db = Returned (json_dumps (document exported)) db
    ∧ exported
      = map (λ r, prompt_of_row r
                    (group_tags (select_prompt_tags (Row.id r) db)))
            (select_prompts_by_title db).
Proof.
  eexists. split; [apply get_all_eq|]. split; [|done].
  unfold export_all. by rewrite get_all_eq.
Qed.

Lemma import_item_to_dict new_id p :
  import_item new_id (VDict (to_dict p))
  = Some (imported_as new_id p, Prompt.tags p).
Proof.
  destruct p. unfold import_item, from_dict, to_dict.
  cbn -[as_tags of_tags]. by rewrite as_tags_of.
Qed.

(** The tag map of a loaded record has a value under each category. *)
Lemma group_tags_no_empty rows :
  same_tag_map (drop_empty (group_tags rows)) (group_tags rows).
Proof.
  assert (dict_wf (group_tags rows)) as Hwf.
  { apply group_tags_wf, NoDup_nil_2. }
  split.
  - intros c. rewrite dict_keys_drop_empty.
    unfold group_tags at 2. rewrite group_tags_keys. split.
    + intros [v Hv]. right.
      apply values_of_tag_pairs, elem_of_group_tags in Hv; [|done].
      by apply (list_elem_of_fmap_2 snd _ (v, c)).
    + intros [[]%elem_of_nil|([v c'] & -> & Hin)%list_elem_of_fmap].
      exists v. apply values_of_tag_pairs; [done|].
      by apply elem_of_group_tags.
  - intros c v. by rewrite values_of_drop_empty.
Qed.

Lemma same_tag_map_trans d1 d2 d3 :
  same_tag_map d1 d2 → same_tag_map d2 d3 → same_tag_map d1 d3.
Proof.
  intros [Hk1 Hv1] [Hk2 Hv2]. split.
  - intros c. by rewrite Hk1.
  - intros c v. by rewrite Hv1.
Qed.

Lemma drawn_cons i n :
  drawn uuid4 i (S n) = uuid4 i :: drawn uuid4 (S i) n.
Proof. reflexivity. Qed.

(** The loop of the import over exported records. *)
Lemma import_items_exported ps i count db :
  db_ok db →
  (∀ p, p ∈ ps → tag_map_ok (Prompt.tags p)) →
  NoDup (drawn uuid4 i (length ps)) →
  (∀ u, u ∈ drawn uuid4 i (length ps) → u ∉ prompt_ids db) →
  ∃ db',
    import_items uuid4 utcnow i (map (λ p, VDict (to_dict p)) ps) count db
    = Returned (count + length ps) db'
    ∧ db_ok db'
    ∧ prompt_ids db' = prompt_ids db ++ drawn uuid4 i (length ps)
    ∧ (∀ pid, pid ∉ drawn uuid4 i (length ps) →
         select_prompt pid db' = select_prompt pid db
         ∧ select_prompt_tags pid db' = select_prompt_tags pid db)
    ∧ ∀ k p, ps !! k = Some p →
        select_prompt (uuid4 (i + k)) db'
        = Some (new_row (utcnow (i + k)) (imported_as (uuid4 (i + k)) p))
        ∧ ∀ x, x ∈ select_prompt_tags (uuid4 (i + k)) db' ↔
               (x.2, x.1) ∈ tag_pairs (Prompt.tags p).
Proof.
  revert i count db.
  induction ps as [|p ps IH]; intros i count db Hok Htags Hnd Hfresh.
  - exists db. cbn. rewrite Nat.add_0_r, app_nil_r. done.
  - cbn [length] in *. rewrite drawn_cons in Hnd, Hfresh.
    apply NoDup_cons in Hnd as [Hhead Hnd].
    cbn [map import_items]. rewrite import_item_to_dict.
    set (q := imported_as (uuid4 i) p).
    destruct (save_spec (utcnow i) q (Prompt.tags p) db Hok)
      as (db1 & Hsave & Hok1 & Hrow & Hids & Hmine & Hothers).
    { apply Htags. by left. }
    assert (select_prompt (uuid4 i) db = None) as Hnew.
    { apply select_prompt_None, Hfresh. by left. }
    unfold stored_row in Hrow. rewrite upsert_prompt_ids in Hids.
    cbn [q imported_as Prompt.id] in Hrow, Hids, Hmine, Hothers.
    rewrite Hnew in Hrow, Hids.
    destruct (IH (S i) (S count) db1 Hok1) as
      (db' & Hloop & Hok' & Hids' & Hframe & Hrecords); [| done | |].
    { intros p' Hp'. apply Htags. by right. }
    { intros u Hu. rewrite Hids, not_elem_of_app, list_elem_of_singleton.
      split; [apply Hfresh; by right|]. by intros ->. }
    exists db'. rewrite Hsave. cbn [and_then]. rewrite Hloop. split_and!.
    + f_equal. lia.
    + done.
    + rewrite Hids', Hids, drawn_cons, <- app_assoc. done.
    + intros pid [Hne Hnot]%not_elem_of_cons.
      destruct (Hframe pid Hnot) as [-> ->]. by apply Hothers.
    + intros [|k] p' Hk.
      * injection Hk as <-. rewrite Nat.add_0_r.
        destruct (Hframe (uuid4 i) Hhead) as [-> Htg]. split; [done|].
        intros x. by rewrite Htg.
      * replace (i + S k) with (S i + k) by lia. by apply Hrecords.
Qed.

(** C3, as amended: importing the export of a library succeeds and
    returns the number of exported records; each exported record is
    stored again under the id drawn for it, with the same title, type,
    texts and version and the same tags, while its favorite flag is reset
    and its two timestamps are the time of the import. The ids drawn are
    taken to be new, and the text is taken to be read back as the
    document that was written. *)
Theorem C3_export_then_import source target exported :
  db_ok source → db_ok target →
  get_all source = Returned exported source →
  json_loads (json_dumps (document exported)) = Some (document exported) →
  fresh_ids uuid4 (length exported) target →
  ∃ text target',
    export_all json_dumps source = Returned text source
    ∧ import_from_json json_loads uuid4 utcnow text target
      = Returned (length exported) target'
    ∧ prompt_ids target'
      = prompt_ids target ++ drawn uuid4 0 (length exported)
    ∧ ∀ i p, exported !! i = Some p →
        ∃ r, get_by_id (uuid4 i) target' = Returned (Some r) target'
             ∧ Prompt.id r = uuid4 i
             ∧ content r = content p
             ∧ same_tag_map (Prompt.tags r) (Prompt.tags p)
             ∧ Prompt.is_favorite r = 0%Z
             ∧ Prompt.created_at r = utcnow i
             ∧ Prompt.last_modified r = utcnow i.
Proof.
  intros Hsrc Htgt Hget Hcodec [Hnd Hfresh].
  destruct (export_all_eq source) as (ex & Hget' & Hexp & Hrows).
  rewrite Hget in Hget'. injection Hget' as <-.
  assert (∀ p, p ∈ exported →
            ∃ rows, Prompt.tags p = group_tags rows ∧ NoDup rows) as Hloaded.
  { intros p. rewrite Hrows.
    intros (r & -> & _)%list_elem_of_fmap. eexists. split; [done|].
    by apply select_prompt_tags_NoDup. }
  destruct (import_items_exported exported 0 0 target Htgt)
    as (target' & Hloop & Hok' & Hids & _ & Hrecords); [|done|done|].
  { intros p (rows & -> & Hrows_nd)%Hloaded. by apply group_tags_ok. }
  exists (json_dumps (document exported)), target'. split; [done|].
  split; [|split; [done|]].
  - unfold import_from_json. rewrite Hcodec. done.
  - intros i p Hp. destruct (Hrecords i p Hp) as [Hrow Htags].
    cbn [Nat.add] in Hrow, Htags.
    eexists. split; [by apply get_by_id_Some|].
    split; [done|]. split; [done|]. split; [|done].
    destruct (Hloaded p) as (rows & Hp_tags & Hrows_nd).
    { by eapply list_elem_of_lookup_2. }
    assert (tag_map_ok (Prompt.tags p)) as [Hwf _].
    { rewrite Hp_tags. by apply group_tags_ok. }
    cbn [prompt_of_row Prompt.tags].
    eapply same_tag_map_trans;
      [|rewrite Hp_tags; apply group_tags_no_empty]. rewrite <- Hp_tags.
    split.
    + intros c. rewrite dict_keys_drop_empty.
      unfold group_tags. rewrite group_tags_keys. split.
      * intros [[]%elem_of_nil|([n c'] & -> & Hin)%list_elem_of_fmap].
        exists n. by apply (Htags (n, c')).
      * intros [v Hv]. right.
        apply (list_elem_of_fmap_2 snd _ (v, c)). by apply Htags.
    + intros c v. rewrite values_of_drop_empty by done.
      rewrite elem_of_group_tags, values_of_tag_pairs by done.
      apply (Htags (v, c)).
Qed.

(** C4: a structurally invalid text, one that [json.loads] rejects or
    reads as a value that cannot be iterated, makes the whole import
    raise before any write begins: the database is the one it was, so no
    record of a partial import is visible, and no count is returned. *)
Theorem C4_rejected_text_imports_nothing text db :
  json_loads text = None
  ∨ (∃ data, json_loads text = Some data ∧ iterate data = None) →
  import_from_json json_loads uuid4 utcnow text db = Raised db.
Proof.
  unfold import_from_json. intros [-> |(data & -> & ->)]; done.
Qed.

End ExportImport.

(** C3 as stated fails: the imported copy of a favorite is not a
    favorite, and its timestamps are those of the import. *)
Lemma C3_import_resets_favorite_and_times :
  ¬ export_import_reproduces ref_dumps ref_loads sample_uuid4 sample_utcnow
      favorite_db favorite_db.
Proof.
  intros (exported & text & target' & Hget & Hexp & Himp & Hrec).
  vm_compute in Hget. injection Hget as <-.
  vm_compute in Hexp. injection Hexp as <-.
  vm_compute in Himp. injection Himp as <-.
  destruct (Hrec 0 favorite_record) as (r & Hr & _ & Hfav & _); [done|].
  vm_compute in Hr. injection Hr as <-. done.
Qed.

(** ** Integrity is kept by every operation

    The conditions of [db_ok] hold of the empty database and of every
    database an operation leaves, so they hold of every database the
    program can reach. *)

Lemma attach_all_ok pid pairs db db' :
  db_ok db → attach_all pid pairs db = Some ((), db') → db_ok db'.
Proof.
  revert db. induction pairs as [|[c n] pairs IH]; intros db Hok.
  - by intros [= <-].
  - unfold attach_all in *. rewrite for_each_cons. cbn [fst snd].
    destruct (attach_tag pid c n db) as [[[] db1]|] eqn:Hat; [|done].
    apply IH. by eapply attach_tag_ok.
Qed.

Lemma save_ok now p T db : db_ok db → db_ok (store (save now p T db)).
Proof.
  intros Hok. unfold save, get_db_connection. rewrite save_body_eq.
  destruct (attach_all _ _ _) as [[[] db1]|] eqn:Hloop; cbn; [|done].
  eapply attach_all_ok; [|done]. by apply delete_prompt_tags_ok, upsert_ok.
Qed.

Lemma NoDup_fmap_filterb {A B} (f : A → B) (g : A → bool) (l : list A) :
  NoDup (map f l) → NoDup (map f (List.filter g l)).
Proof.
  induction l as [|x l IH]; cbn; [done|].
  intros [Hx Hnd]%NoDup_cons. destruct (g x); cbn; [|by apply IH].
  apply NoDup_cons. split; [|by apply IH].
  intros (y & Hy & [Hin _]%elem_of_filterb)%list_elem_of_fmap.
  apply Hx. rewrite Hy. by apply list_elem_of_fmap_2.
Qed.

Lemma delete_ok pid db : db_ok db → db_ok (store (delete pid db)).
Proof.
  intros Hok. rewrite delete_store.
  destruct (delete_prompt_tags_ok pid db Hok) as [Hpi Hti Htk Hl Hr].
  split; try done. by apply NoDup_fmap_filterb.
Qed.

Lemma toggle_favorite_ok pid status db :
  db_ok db → db_ok (store (toggle_favorite pid status db)).
Proof.
  intros [Hpi Hti Htk Hl Hr]. split; try done.
  unfold prompt_ids in *. cbn. rewrite map_map.
  erewrite map_ext; [done|].
  intros r. cbn. by destruct (String.eqb (Row.id r) pid).
Qed.

Lemma duplicate_ok new_id now pid db :
  db_ok db → db_ok (store (duplicate new_id now pid db)).
Proof.
  intros Hok. unfold duplicate.
  destruct (get_by_id_store pid db) as [[original|] ->]; cbn; [|done].
  set (copy := Prompt.mk _ _ _ _ _ _ _ _ _ _ _ _ _ _ _ _ _).
  pose proof (save_ok now copy (Prompt.tags original) db Hok) as Hs.
  by destruct (save now copy (Prompt.tags original) db).
Qed.

Lemma import_items_ok uuid4 utcnow i items count db :
  db_ok db → db_ok (store (import_items uuid4 utcnow i items count db)).
Proof.
  revert i count db.
  induction items as [|item items IH]; intros i count db Hok; [done|].
  cbn. destruct (import_item (uuid4 i) item) as [[prompt tags]|]; [|done].
  pose proof (save_ok (utcnow i) prompt tags db Hok) as Hs.
  destruct (save (utcnow i) prompt tags db) as [[] db'|db']; cbn in *.
  - by apply IH.
  - done.
Qed.

Lemma import_from_json_ok json_loads uuid4 utcnow text db :
  db_ok db →
  db_ok (store (import_from_json json_loads uuid4 utcnow text db)).
Proof.
  intros Hok. unfold import_from_json.
  destruct (json_loads text) as [data|]; [|done].
  destruct (iterate data) as [items|]; [|done].
  by apply import_items_ok.
Qed.

(** An import that raises has committed the records that precede the one
    it failed on, and no other. *)
Lemma import_items_Raised uuid4 utcnow i items count db db' :
  import_items uuid4 utcnow i items count db = Raised db' →
  ∃ k, k < length items
    ∧ import_items uuid4 utcnow i (take k items) count db
      = Returned (count + k) db'.
Proof.
  revert i count db.
  induction items as [|item items IH]; intros i count db; [done|].
  cbn [import_items].
  destruct (import_item (uuid4 i) item) as [[prompt tags]|] eqn:Hitem.
  - destruct (save (utcnow i) prompt tags db) as [[] db1|db1] eqn:Hsave;
      cbn [and_then].
    + intros (k & Hk & Hloop)%IH. exists (S k). split; [cbn; lia|].
      cbn [take import_items]. rewrite Hitem, Hsave. cbn [and_then].
      rewrite Hloop. f_equal. lia.
    + intros [= <-]. apply save_Raised in Hsave as ->.
      exists 0. split; [cbn; lia|]. cbn. f_equal. lia.
  - intros [= <-]. exists 0. split; [cbn; lia|]. cbn. f_equal. lia.
Qed.

(** ** Deciding the conditions on given data *)

Lemma db_ok_of_check db : db_ok_check db → db_ok db.
Proof.
  intros (? & ? & ? & ? & Hrefs). split; try done.
  by rewrite Forall_forall in Hrefs.
Qed.

Lemma tag_map_ok_of_check T : tag_map_check T → tag_map_ok T.
Proof.
  intros [? Hall]. split; [done|]. by rewrite Forall_forall in Hall.
Qed.

Lemma fresh_ids_of_check uuid4 n db :
  fresh_ids_check uuid4 n db → fresh_ids uuid4 n db.
Proof.
  intros [? Hall]. split; [done|]. by rewrite Forall_forall in Hall.
Qed.

Lemma prompt_refs_of_check db : prompt_refs_check db → prompt_refs_ok db.
Proof.
  intros Hall. unfold prompt_refs_check in Hall.
  by rewrite Forall_forall in Hall.
Qed.

(** ** The theorems on the sample data *)

Lemma C1_on_favorite_db :
  db_ok favorite_db ∧ tag_map_ok [("Domain", []); ("Tone", ["formal"])]
  ∧ ∃ db' r,
      save "2024-05-02 09:30:00 UTC" bug_triage
        [("Domain", []); ("Tone", ["formal"])] favorite_db = Returned () db'
      ∧ get_by_id "p-1" db' = Returned (Some r) db'
      ∧ same_tag_map (Prompt.tags r)
          (drop_empty [("Domain", []); ("Tone", ["formal"])])
      ∧ tag_map_ok (Prompt.tags r)
      ∧ (tag_pairs [("Domain", []); ("Tone", ["formal"])] = [] →
         Prompt.tags r = []).
Proof.
  assert (db_ok favorite_db) as Hdb
    by (apply db_ok_of_check; by_evaluation).
  assert (tag_map_ok [("Domain", []); ("Tone", ["formal"])]) as HT
    by (apply tag_map_ok_of_check; by_evaluation).
  split; [exact Hdb|]. split; [exact HT|].
  exact (C1_save_replaces_tags "2024-05-02 09:30:00 UTC" bug_triage
           [("Domain", []); ("Tone", ["formal"])] favorite_db Hdb HT).
Defined.

Lemma C6_on_favorite_db :
  db_ok favorite_db ∧ tag_map_ok bug_triage_tags
  ∧ get_by_id "p-1" favorite_db = Returned (Some favorite_record) favorite_db
  ∧ ∃ db' new,
      save "2024-05-02 09:30:00 UTC" bug_triage bug_triage_tags favorite_db
      = Returned () db'
      ∧ get_by_id "p-1" db' = Returned (Some new) db'
      ∧ Prompt.id new = Prompt.id favorite_record
      ∧ Prompt.created_at new = Prompt.created_at favorite_record
      ∧ Prompt.last_modified new = "2024-05-02 09:30:00 UTC"
      ∧ content new = content bug_triage
      ∧ Prompt.is_favorite new = Prompt.is_favorite favorite_record.
Proof.
  assert (db_ok favorite_db) as Hdb
    by (apply db_ok_of_check; by_evaluation).
  assert (tag_map_ok bug_triage_tags) as HT
    by (apply tag_map_ok_of_check; by_evaluation).
  assert (get_by_id "p-1" favorite_db
          = Returned (Some favorite_record) favorite_db) as Hold
    by (vm_compute; reflexivity).
  split; [exact Hdb|]. split; [exact HT|]. split; [exact Hold|].
  exact (C6_update_preserves_and_overwrites "2024-05-02 09:30:00 UTC"
           bug_triage bug_triage_tags favorite_db favorite_record
           Hdb HT Hold).
Defined.

Lemma C9_on_untyped_note :
  Prompt.prompt_type untyped_note ≠ "standard"
  ∧ get_copy_text untyped_note = render_structured untyped_note
  ∧ ∀ text,
      get_copy_text (with_instructions text untyped_note)
      = get_copy_text untyped_note.
Proof.
  assert (Prompt.prompt_type untyped_note ≠ "standard") as Hty
    by (vm_compute; discriminate).
  split; [exact Hty|].
  exact (C9_non_standard_is_structured untyped_note Hty).
Defined.

Lemma C10_on_favorite_db :
  prompt_refs_ok favorite_db
  ∧ (∀ now p T, prompt_refs_ok (store (save now p T favorite_db)))
  ∧ (∀ pid, prompt_refs_ok (store (delete pid favorite_db)))
  ∧ (∀ new_id now pid,
       prompt_refs_ok (store (duplicate new_id now pid favorite_db)))
  ∧ (∀ pid status,
       prompt_refs_ok (store (toggle_favorite pid status favorite_db)))
  ∧ (∀ json_loads uuid4 utcnow text,
       prompt_refs_ok
         (store (import_from_json json_loads uuid4 utcnow text favorite_db)))
  ∧ (∀ pid l, l ∈ prompt_tags (store (delete pid favorite_db)) →
              Link.prompt_id l ≠ pid)
  ∧ (∀ now p T db', save now p T favorite_db = Returned () db' →
       Prompt.id p ∈ prompt_ids db'
       ∧ ∀ l, l ∈ prompt_tags db' →
              l ∈ prompt_tags favorite_db ∨ Link.prompt_id l = Prompt.id p).
Proof.
  assert (prompt_refs_ok favorite_db) as Hrefs
    by (apply prompt_refs_of_check; by_evaluation).
  split; [exact Hrefs|].
  exact (C10_associations_reference_stored_prompts favorite_db Hrefs).
Defined.

Lemma C3_on_favorite_db :
  db_ok favorite_db
  ∧ get_all favorite_db = Returned [favorite_record] favorite_db
  ∧ ref_loads (ref_dumps (document [favorite_record]))
    = Some (document [favorite_record])
  ∧ fresh_ids sample_uuid4 1 favorite_db
  ∧ ∃ text target',
      export_all ref_dumps favorite_db = Returned text favorite_db
      ∧ import_from_json ref_loads sample_uuid4 sample_utcnow text
          favorite_db = Returned 1 target'
      ∧ prompt_ids target'
        = prompt_ids favorite_db ++ drawn sample_uuid4 0 1
      ∧ ∀ i p, [favorite_record] !! i = Some p →
          ∃ r, get_by_id (sample_uuid4 i) target' = Returned (Some r) target'
               ∧ Prompt.id r = sample_uuid4 i
               ∧ content r = content p
               ∧ same_tag_map (Prompt.tags r) (Prompt.tags p)
               ∧ Prompt.is_favorite r = 0%Z
               ∧ Prompt.created_at r = sample_utcnow i
               ∧ Prompt.last_modified r = sample_utcnow i.
Proof.
  assert (db_ok favorite_db) as Hdb
    by (apply db_ok_of_check; by_evaluation).
  assert (get_all favorite_db = Returned [favorite_record] favorite_db)
    as Hget by (vm_compute; reflexivity).
  assert (ref_loads (ref_dumps (document [favorite_record]))
          = Some (document [favorite_record])) as Hcodec
    by (vm_compute; reflexivity).
  assert (fresh_ids sample_uuid4 (length [favorite_record]) favorite_db)
    as Hfresh by (apply fresh_ids_of_check; by_evaluation).
  split; [exact Hdb|]. split; [exact Hget|]. split; [exact Hcodec|].
  split; [exact Hfresh|].
  exact (C3_export_then_import ref_dumps ref_loads sample_uuid4
           sample_utcnow favorite_db favorite_db [favorite_record]
           Hdb Hdb Hget Hcodec Hfresh).
Defined.

Lemma C4_on_truncated_document :
  (ref_loads truncated_document = None
   ∨ ∃ data, ref_loads truncated_document = Some data ∧ iterate data = None)
  ∧ import_from_json ref_loads sample_uuid4 sample_utcnow
      truncated_document favorite_db = Raised favorite_db.
Proof.
  assert (ref_loads truncated_document = None
          ∨ ∃ data, ref_loads truncated_document = Some data
                    ∧ iterate data = None) as Hrejected
    by (left; vm_compute; reflexivity).
  split; [exact Hrejected|].
  exact (C4_rejected_text_imports_nothing ref_loads sample_uuid4
           sample_utcnow truncated_document favorite_db Hrejected).
Defined.

(** * Further properties of the repository *)

(** ** Records and dictionaries *)

(** X1: [from_dict] reads back what [to_dict] wrote: the record with all
    its fields and its tag map. *)
Theorem X1_from_dict_to_dict (p : Prompt.t) : from_dict (to_dict p) = Some p.
Proof.
  destruct p. unfold from_dict, to_dict. cbn -[as_tags of_tags].
  by rewrite as_tags_of.
Qed.

Lemma dict_get_filter_key {V} (keep : string → bool) (d : dict V) k :
  keep k = true →
  dict_get (List.filter (λ kv, keep kv.1) d) k = dict_get d k.
Proof.
  intros Hk. induction d as [|[k0 v0] d IH]; [done|]. cbn.
  destruct (String.eqb k0 k) eqn:Heq.
  - apply String.eqb_eq in Heq as ->. rewrite Hk. cbn.
    by rewrite String.eqb_refl.
  - destruct (keep k0); cbn; by rewrite ?Heq, IH.
Qed.

Lemma filter_dict_set_dropped {V} (keep : string → bool) (d : dict V) k v :
  keep k = false →
  List.filter (λ kv, keep kv.1) (dict_set d k v)
  = List.filter (λ kv, keep kv.1) d.
Proof.
  intros Hk. induction d as [|[k0 v0] d IH]; cbn.
  - by rewrite Hk.
  - destruct (String.eqb k0 k) eqn:Heq; cbn.
    + apply String.eqb_eq in Heq as ->. by rewrite Hk.
    + by rewrite IH.
Qed.

Lemma dict_remove_set_ne {V} (d : dict V) k v k' :
  k ≠ k' → dict_remove (dict_set d k v) k' = dict_set (dict_remove d k') k v.
Proof.
  intros Hne. unfold dict_remove. induction d as [|[k0 v0] d IH]; cbn.
  - by rewrite (proj2 (String.eqb_neq k k')).
  - destruct (String.eqb k0 k) eqn:Heq; cbn.
    + apply String.eqb_eq in Heq as ->.
      rewrite (proj2 (String.eqb_neq k k')) by done. cbn.
      by rewrite String.eqb_refl.
    + destruct (String.eqb k0 k') eqn:Heq'; cbn; [done|].
      by rewrite Heq, IH.
Qed.

(** The fields [from_dict] reads, as a function of the dictionary. *)
Lemma from_dict_depends (data data' : dict Any) :
  dict_get data "tags" = dict_get data' "tags" →
  List.filter (λ kv, existsb (String.eqb kv.1) valid_keys)
    (dict_remove data "tags")
  = List.filter (λ kv, existsb (String.eqb kv.1) valid_keys)
      (dict_remove data' "tags") →
  from_dict data = from_dict data'.
Proof.
  intros Htags Hfiltered. unfold from_dict, dict_get_default.
  by rewrite Htags, Hfiltered.
Qed.

(** X2: a key that is not a field of the dataclass has no influence on
    the record [from_dict] builds. *)
Theorem X2_from_dict_ignores_unknown_keys (data : dict Any) k v :
  k ∉ valid_keys → from_dict (dict_set data k v) = from_dict data.
Proof.
  intros Hk.
  assert (existsb (String.eqb k) valid_keys = false) as Hdrop.
  { apply existsb_false. intros k' Hk'. apply String.eqb_neq.
    by intros ->. }
  assert (k ≠ "tags") as Hne.
  { intros ->. apply Hk. by vm_compute; repeat constructor. }
  apply from_dict_depends.
  - by rewrite dict_get_set, decide_False.
  - rewrite dict_remove_set_ne by done.
    by apply (filter_dict_set_dropped
                (λ k, existsb (String.eqb k) valid_keys)).
Qed.

Lemma from_dict_required (data : dict Any) key :
  key = "id" ∨ key = "title" →
  dict_get data key = None → from_dict data = None.
Proof.
  intros Hkey Hmissing. unfold from_dict.
  assert (kwarg as_str
            (List.filter (λ kv, existsb (String.eqb kv.1) valid_keys)
               (dict_remove data "tags")) key None = None) as Hnone.
  { unfold kwarg.
    rewrite (dict_get_filter_key (λ k, existsb (String.eqb k) valid_keys))
      by (destruct Hkey as [-> | ->]; reflexivity).
    unfold dict_remove.
    rewrite (dict_get_filter_key (λ k, negb (String.eqb k "tags")))
      by (destruct Hkey as [-> | ->]; reflexivity).
    by rewrite Hmissing. }
  destruct Hkey as [-> | ->].
  - by rewrite Hnone.
  - rewrite Hnone. by destruct (kwarg as_str _ "id" None).
Qed.

(** X3: [from_dict] fails on a dictionary without "id" or without
    "title", the two fields that have no default; given these two keys
    alone it builds the record with the defaults of the dataclass
    (type "structured", version "v1.0", no favorite, empty texts and no
    tags). *)
Theorem X3_from_dict_required_and_defaults (data : dict Any) :
  dict_get data "id" = None ∨ dict_get data "title" = None →
  from_dict data = None
  ∧ ∀ id title,
      from_dict [("id", VStr id); ("title", VStr title)]
      = Some (default_prompt id title).
Proof.
  intros Hmissing. split; [|done].
  destruct Hmissing as [H|H].
  - apply (from_dict_required data "id"); auto.
  - apply (from_dict_required data "title"); auto.
Qed.

(** ** Loading *)

(** X4: [get_by_id] returns no record exactly for an id that is not
    stored, a record it returns carries the id asked for, and the call
    leaves the database as it is. *)
Theorem X4_get_by_id_absent prompt_id db :
  (get_by_id prompt_id db = Returned None db ↔ prompt_id ∉ prompt_ids db)
  ∧ (∀ p o, get_by_id prompt_id db = Returned (Some p) o →
            Prompt.id p = prompt_id)
  ∧ store (get_by_id prompt_id db) = db.
Proof.
  destruct (select_prompt prompt_id db) as [r|] eqn:Hsel.
  - rewrite (get_by_id_Some _ _ _ Hsel). split_and!.
    + split; [done|]. intros Hno%select_prompt_None. congruence.
    + intros p o [= <- _]. by apply select_prompt_Some in Hsel as [_ ?].
    + done.
  - rewrite (get_by_id_None _ _ Hsel). split_and!; [|done|done].
    split; [|done]. intros _. by apply select_prompt_None.
Qed.

Lemma by_title_trans : Transitive by_title.
Proof. intros r1 r2 r3. apply str_le_trans. Qed.

Lemma by_title_total : Total by_title.
Proof. intros r1 r2. apply str_le_total. Qed.

Lemma StronglySorted_fmap {A B} (f : A → B) (R : relation B) (l : list A) :
  StronglySorted (λ x y, R (f x) (f y)) l → StronglySorted R (map f l).
Proof.
  induction 1 as [|x l Hl IH Hx]; cbn; constructor; [done|].
  apply Forall_fmap. by eapply Forall_impl.
Qed.

Lemma select_prompt_elem_of db r :
  NoDup (prompt_ids db) → r ∈ prompts db →
  select_prompt (Row.id r) db = Some r.
Proof.
  intros Hnd Hr.
  destruct (select_prompt (Row.id r) db) as [r'|] eqn:Hsel.
  - apply select_prompt_Some in Hsel as [Hr' Hid]. f_equal.
    by apply (NoDup_fmap_inj Row.id (prompts db)).
  - apply select_prompt_None in Hsel. exfalso. apply Hsel.
    by apply (list_elem_of_fmap_2 Row.id).
Qed.

(** X5: [get_all] returns one record for each stored prompt, ordered by
    title in the order of strings, and each of them is the record
    [get_by_id] returns for its id; the call leaves the database as it
    is. *)
Theorem X5_get_all_lists_every_prompt db :
  db_ok db →
  ∃ ps,
    get_all db = Returned ps db
    ∧ map Prompt.id ps ≡ₚ prompt_ids db
    ∧ StronglySorted str_le (map Prompt.title ps)
    ∧ ∀ p, p ∈ ps → get_by_id (Prompt.id p) db = Returned (Some p) db.
Proof.
  intros Hok. eexists. split; [apply get_all_eq|]. split_and!.
  - rewrite map_map. cbn. unfold select_prompts_by_title, prompt_ids.
    by rewrite merge_sort_Permutation.
  - rewrite map_map. cbn. apply (StronglySorted_fmap Row.title str_le).
    apply StronglySorted_merge_sort;
      [apply by_title_trans|apply by_title_total].
  - intros p (r & -> & Hr)%list_elem_of_fmap. cbn.
    unfold select_prompts_by_title in Hr.
    rewrite merge_sort_Permutation in Hr.
    apply get_by_id_Some, select_prompt_elem_of; [|done].
    apply (ok_prompt_ids db Hok).
Qed.

(** ** Saving *)

(** The record loaded after [save] has inserted a prompt. *)
Lemma save_insert_spec now p T db :
  db_ok db → tag_map_ok T → Prompt.id p ∉ prompt_ids db →
  ∃ db' tags,
    save now p T db = Returned () db'
    ∧ get_by_id (Prompt.id p) db'
      = Returned (Some (prompt_of_row (new_row now p) tags)) db'
    ∧ same_tag_map tags (drop_empty T)
    ∧ prompt_ids db' = prompt_ids db ++ [Prompt.id p].
Proof.
  intros Hok HT Hnew%select_prompt_None.
  destruct (save_then_get now p T db Hok HT)
    as (db' & tags & Hsave & _ & Hget & Hsame & _).
  destruct (save_spec now p T db Hok HT)
    as (db2 & Hsave2 & _ & _ & Hids & _).
  rewrite Hsave in Hsave2. injection Hsave2 as <-.
  rewrite upsert_prompt_ids, Hnew in Hids.
  unfold stored_row in Hget. rewrite Hnew in Hget.
  by exists db', tags.
Qed.

(** X6: [save] of a prompt whose id is not stored inserts it: the loaded
    record has the id and the texts of the argument, both timestamps are
    the time of the call and the favorite flag is 0, whatever flag and
    timestamps the argument carries; the other ids are as before. *)
Theorem X6_save_inserts_new_prompt now p T db :
  db_ok db → tag_map_ok T → Prompt.id p ∉ prompt_ids db →
  ∃ db' r,
    save now p T db = Returned () db'
    ∧ get_by_id (Prompt.id p) db' = Returned (Some r) db'
    ∧ Prompt.id r = Prompt.id p
    ∧ content r = content p
    ∧ Prompt.is_favorite r = 0%Z
    ∧ Prompt.created_at r = now
    ∧ Prompt.last_modified r = now
    ∧ prompt_ids db' = prompt_ids db ++ [Prompt.id p].
Proof.
  intros Hok HT Hnew.
  destruct (save_insert_spec now p T db Hok HT Hnew)
    as (db' & tags & Hsave & Hget & _ & Hids).
  by exists db', (prompt_of_row (new_row now p) tags).
Qed.

Lemma attach_all_frame pid pairs db db' pid' :
  db_ok db → attach_all pid pairs db = Some ((), db') → pid' ≠ pid →
  select_prompt_tags pid' db' = select_prompt_tags pid' db.
Proof.
  revert db. induction pairs as [|[c n] pairs IH]; intros db Hok.
  - by intros [= <-].
  - unfold attach_all in *. rewrite for_each_cons. cbn [fst snd].
    destruct (attach_tag pid c n db) as [[[] db1]|] eqn:Hat; [|done].
    intros Hloop Hne. rewrite (IH db1); [|by eapply attach_tag_ok|done..].
    by eapply attach_tag_frame.
Qed.

Lemma attach_all_tags_mono pid pairs db db' t :
  attach_all pid pairs db = Some ((), db') → t ∈ tags db → t ∈ tags db'.
Proof.
  revert db. induction pairs as [|[c n] pairs IH]; intros db.
  - by intros [= <-].
  - unfold attach_all in *. rewrite for_each_cons. cbn [fst snd].
    destruct (attach_tag pid c n db) as [[[] db1]|] eqn:Hat; [|done].
    intros Hloop Ht. apply (IH db1 Hloop).
    apply attach_tag_Some in Hat as (_ & tid & _ & _ & _ & [->|[-> _]]);
      [done|]. apply elem_of_app. by left.
Qed.

(** The rows [save] leaves for the prompts it was not called for. *)
Lemma save_frame now p T db pid :
  db_ok db → pid ≠ Prompt.id p →
  select_prompt pid (store (save now p T db)) = select_prompt pid db
  ∧ select_prompt_tags pid (store (save now p T db))
    = select_prompt_tags pid db.
Proof.
  intros Hok Hne. unfold save, get_db_connection. rewrite save_body_eq.
  destruct (attach_all _ _ _) as [[[] db']|] eqn:Hloop; cbn [store]; [|done].
  pose proof (attach_all_Some _ _ _ _ Hloop) as [Hp _].
  split.
  - unfold select_prompt. rewrite Hp. by apply upsert_select_other.
  - assert (db_ok (delete_prompt_tags (Prompt.id p) (upsert now p db)))
      as Hok1 by by apply delete_prompt_tags_ok, upsert_ok.
    rewrite (attach_all_frame _ _ _ _ pid Hok1 Hloop Hne).
    rewrite delete_prompt_tags_frame by done.
    unfold select_prompt_tags, upsert.
    by destruct (select_prompt (Prompt.id p) db).
Qed.

Lemma get_by_id_returned pid db :
  returned (get_by_id pid db)
  = Some ((λ r, prompt_of_row r (group_tags (select_prompt_tags pid db)))
            <$> select_prompt pid db).
Proof.
  destruct (select_prompt pid db) as [r|] eqn:Hsel.
  - by rewrite (get_by_id_Some _ _ _ Hsel).
  - by rewrite (get_by_id_None _ _ Hsel).
Qed.

(** X7: whether it returns or raises, [save] of one prompt leaves the
    record [get_by_id] loads for every other id as it was (fields and
    tags), and removes no row of [tags]. *)
Theorem X7_save_leaves_other_prompts now p T db :
  db_ok db →
  (∀ pid, pid ≠ Prompt.id p →
     returned (get_by_id pid (store (save now p T db)))
     = returned (get_by_id pid db))
  ∧ ∀ t, t ∈ tags db → t ∈ tags (store (save now p T db)).
Proof.
  intros Hok. split.
  - intros pid Hne. rewrite !get_by_id_returned.
    by destruct (save_frame now p T db pid Hok Hne) as [-> ->].
  - intros t Ht. unfold save, get_db_connection. rewrite save_body_eq.
    destruct (attach_all _ _ _) as [[[] db']|] eqn:Hloop; cbn [store];
      [|done].
    apply (attach_all_tags_mono _ _ _ _ _ Hloop). cbn.
    unfold upsert. by destruct (select_prompt _ db).
Qed.

Lemma attach_tag_linked pid c n db :
  db_ok db → (n, c) ∈ select_prompt_tags pid db →
  attach_tag pid c n db = None.
Proof.
  intros Hok (t & Ht & Hkey & Hlink)%elem_of_select_prompt_tags.
  destruct (attach_tag pid c n db) as [[[] db']|] eqn:Hat; [|done].
  exfalso.
  apply attach_tag_Some in Hat as (_ & tid & _ & Hfresh & Hin & Htags).
  apply Hfresh.
  destruct Htags as [Heq|(_ & _ & Hnew)]; [|by destruct (Hnew t Ht)].
  rewrite Heq in Hin.
  assert (t = Tag.mk tid n c) as ->; [|done].
  by apply (NoDup_fmap_inj tag_key (tags db) _ _ (ok_tag_keys db Hok)).
Qed.

Lemma attach_all_repeated pid pairs db :
  db_ok db →
  (∃ cn, cn ∈ pairs ∧ (cn.2, cn.1) ∈ select_prompt_tags pid db)
  ∨ ¬ NoDup pairs →
  attach_all pid pairs db = None.
Proof.
  revert db. induction pairs as [|[c n] pairs IH]; intros db Hok Hbad.
  { destruct Hbad as [(cn & Hcn & _)|Hnd].
    - by apply elem_of_nil in Hcn.
    - destruct Hnd. apply NoDup_nil_2. }
  unfold attach_all in *. rewrite for_each_cons. cbn [fst snd].
  destruct (attach_tag pid c n db) as [[[] db1]|] eqn:Hat; [|done].
  apply IH; [by eapply attach_tag_ok|].
  destruct (decide ((c, n) ∈ pairs)) as [Hin|Hnotin].
  { left. exists (c, n). split; [done|]. cbn.
    apply (attach_tag_tags _ _ _ _ _ _ Hok Hat). by right. }
  destruct Hbad as [([c' n'] & Hcn & Hlinked)|Hnd].
  - apply elem_of_cons in Hcn as [[= -> ->]|Hcn].
    + cbn in Hlinked. by rewrite (attach_tag_linked _ _ _ _ Hok Hlinked) in Hat.
    + left. exists (c', n'). split; [done|].
      apply (attach_tag_tags _ _ _ _ _ _ Hok Hat). by left.
  - right. intros Hnd'. apply Hnd. by apply NoDup_cons.
Qed.

Lemma tag_pairs_repeated T (item : string * list string) :
  item ∈ T → ¬ NoDup item.2 → ¬ NoDup (tag_pairs T).
Proof.
  intros Hitem Hrep Hnd. apply Hrep. clear Hrep.
  induction T as [|[c vs] T IH]; [by apply elem_of_nil in Hitem|].
  cbn in Hnd. apply NoDup_app in Hnd as (Hhd & _ & Htl).
  apply elem_of_cons in Hitem as [->|Hitem]; [|by apply IH].
  cbn. by apply NoDup_fmap_1 in Hhd.
Qed.

(** X8: a tag map that lists a value twice under a category makes [save]
    raise, and the rollback leaves the database as it was: no prompt row
    is inserted or updated and the previous tags of the prompt stay. *)
Theorem X8_save_with_repeated_value_raises now p T db item :
  db_ok db → item ∈ T → ¬ NoDup item.2 →
  save now p T db = Raised db.
Proof.
  intros Hok Hitem Hrep. unfold save, get_db_connection.
  rewrite save_body_eq, attach_all_repeated; [done| |].
  - by apply delete_prompt_tags_ok, upsert_ok.
  - right. by eapply tag_pairs_repeated.
Qed.

(** ** Deleting and the tag directory *)

Lemma find_filterb {A} (f g : A → bool) (l : list A) :
  (∀ x, f x = true → g x = true) →
  List.find f (List.filter g l) = List.find f l.
Proof.
  intros Hfg. induction l as [|x l IH]; [done|]. cbn.
  destruct (f x) eqn:Hf.
  - rewrite (Hfg x Hf). cbn. by rewrite Hf.
  - destruct (g x); cbn; by rewrite ?Hf, IH.
Qed.

Lemma delete_frame pid db pid' :
  pid' ≠ pid →
  select_prompt pid' (store (delete pid db)) = select_prompt pid' db
  ∧ select_prompt_tags pid' (store (delete pid db))
    = select_prompt_tags pid' db.
Proof.
  intros Hne. rewrite delete_store. split.
  - unfold select_prompt. cbn. apply find_filterb.
    intros r ->%String.eqb_eq. by apply negb_true_iff, String.eqb_neq.
  - by apply (delete_prompt_tags_frame pid db pid').
Qed.

(** The directory is a function of the table [tags]. *)
Lemma tag_directory_of_tags db1 db2 :
  tags db1 = tags db2 →
  returned (get_all_tags_by_category db1)
  = returned (get_all_tags_by_category db2).
Proof.
  intros Htags. unfold get_all_tags_by_category, get_db_connection.
  unfold mbind, tx_bind, tx_read, mret, tx_ret, select_tags_by_name. cbn.
  by rewrite Htags.
Qed.

(** X9: after [delete] of an id, [get_by_id] finds no record for it and
    loads for every other id the record it loaded before; the table of
    tags is not touched, so the tag directory offers the same values as
    before the prompt was deleted. *)
Theorem X9_delete_then_load prompt_id db :
  get_by_id prompt_id (store (delete prompt_id db))
  = Returned None (store (delete prompt_id db))
  ∧ (∀ pid, pid ≠ prompt_id →
       returned (get_by_id pid (store (delete prompt_id db)))
       = returned (get_by_id pid db))
  ∧ tags (store (delete prompt_id db)) = tags db
  ∧ returned (get_all_tags_by_category (store (delete prompt_id db)))
    = returned (get_all_tags_by_category db).
Proof.
  split_and!.
  - apply get_by_id_None, select_prompt_None.
    rewrite delete_store. unfold prompt_ids. cbn.
    intros (r & Heq & [_ Hne]%elem_of_filterb)%list_elem_of_fmap.
    apply negb_true_iff, String.eqb_neq in Hne. congruence.
  - intros pid Hne. rewrite !get_by_id_returned.
    by destruct (delete_frame prompt_id db pid Hne) as [-> ->].
  - done.
  - by apply tag_directory_of_tags.
Qed.

(** ** The favorite flag *)

Lemma update_favorite_select flag pid db pid' :
  select_prompt pid' (update_favorite flag pid db)
  = (λ r, if String.eqb (Row.id r) pid then set_favorite flag r else r)
      <$> select_prompt pid' db.
Proof.
  unfold select_prompt, update_favorite. cbn. apply find_fmap_id.
  intros r. by destruct (String.eqb (Row.id r) pid).
Qed.

Lemma update_favorite_missing flag pid db :
  pid ∉ prompt_ids db → update_favorite flag pid db = db.
Proof.
  intros Hno. destruct db as [rows ts ls]. unfold update_favorite. cbn.
  f_equal. rewrite <- (map_id rows) at 2. apply map_ext_in.
  intros r Hr%list_elem_of_In.
  destruct (String.eqb (Row.id r) pid) eqn:Heq; [|done].
  apply String.eqb_eq in Heq as <-. exfalso. apply Hno.
  by apply (list_elem_of_fmap_2 Row.id).
Qed.

(** X10: [toggle_favorite] stores 1 when the value passed to it is 0 and
    0 otherwise, whatever flag is stored; the other fields and the tags
    of the prompt, and the other prompts, load as before; for an id that
    is not stored the call changes nothing. *)
Theorem X10_toggle_favorite_sets_flag prompt_id current_status db :
  let new_status := if Z.eqb current_status 0 then 1%Z else 0%Z in
  ∃ db',
    toggle_favorite prompt_id current_status db = Returned () db'
    ∧ (∀ old, get_by_id prompt_id db = Returned (Some old) db →
         get_by_id prompt_id db'
         = Returned (Some (with_favorite new_status old)) db')
    ∧ (∀ pid, pid ≠ prompt_id →
         returned (get_by_id pid db') = returned (get_by_id pid db))
    ∧ (prompt_id ∉ prompt_ids db → db' = db).
Proof.
  intros new_status.
  exists (update_favorite new_status prompt_id db). split_and!.
  - done.
  - intros old Hold.
    destruct (select_prompt prompt_id db) as [r|] eqn:Hsel.
    + rewrite (get_by_id_Some _ _ _ Hsel) in Hold. injection Hold as <-.
      erewrite get_by_id_Some.
      2:{ rewrite update_favorite_select, Hsel. cbn.
          apply select_prompt_Some in Hsel as [_ ->].
          by rewrite String.eqb_refl. }
      done.
    + by rewrite (get_by_id_None _ _ Hsel) in Hold.
  - intros pid Hne. rewrite !get_by_id_returned.
    rewrite update_favorite_select.
    unfold select_prompt_tags at 1. cbn [tags prompt_tags update_favorite].
    fold (select_prompt_tags pid db).
    destruct (select_prompt pid db) as [r|] eqn:Hsel; [|done]. cbn.
    apply select_prompt_Some in Hsel as [_ ->].
    by rewrite (proj2 (String.eqb_neq pid prompt_id)).
  - apply update_favorite_missing.
Qed.

(** ** Duplicating *)

(** X11: [duplicate] of an id that is not stored returns no id and
    leaves the database as it is. *)
Theorem X11_duplicate_missing new_id now prompt_id db :
  prompt_id ∉ prompt_ids db →
  duplicate new_id now prompt_id db = Returned None db.
Proof.
  intros Hno%select_prompt_None. unfold duplicate.
  by rewrite (get_by_id_None _ _ Hno).
Qed.

(** X12: [duplicate] of a stored prompt, with a new id, returns that id
    and stores under it a record with the title of the original followed
    by " (Copy)", its other texts and its tags, the favorite flag 0 and
    the time of the call as both timestamps; the original loads as
    before. *)
Theorem X12_duplicate_copies new_id now prompt_id db original :
  db_ok db →
  get_by_id prompt_id db = Returned (Some original) db →
  new_id ∉ prompt_ids db →
  ∃ db' copy,
    duplicate new_id now prompt_id db = Returned (Some new_id) db'
    ∧ get_by_id new_id db' = Returned (Some copy) db'
    ∧ Prompt.id copy = new_id
    ∧ content copy
      = (Prompt.title original ++ " (Copy)")%string :: tail (content original)
    ∧ same_tag_map (Prompt.tags copy) (Prompt.tags original)
    ∧ Prompt.is_favorite copy = 0%Z
    ∧ Prompt.created_at copy = now
    ∧ Prompt.last_modified copy = now
    ∧ get_by_id prompt_id db' = Returned (Some original) db'
    ∧ prompt_ids db' = prompt_ids db ++ [new_id].
Proof.
  intros Hok Hget Hnew.
  destruct (select_prompt prompt_id db) as [r|] eqn:Hsel;
    [|by rewrite (get_by_id_None _ _ Hsel) in Hget].
  pose proof Hget as Hget0.
  rewrite (get_by_id_Some _ _ _ Hsel) in Hget. injection Hget as Horig.
  assert (tag_map_ok (Prompt.tags original)) as HT.
  { rewrite <- Horig. by apply group_tags_ok, select_prompt_tags_NoDup. }
  assert (prompt_id ≠ new_id) as Hne.
  { intros ->. by apply select_prompt_in_ids in Hsel. }
  unfold duplicate. rewrite Hget0. cbn [and_then].
  set (copy := Prompt.mk _ _ _ _ _ _ _ _ _ _ _ _ _ _ _ _ _).
  change (Prompt.tags copy) with (Prompt.tags original).
  assert (Prompt.id copy = new_id) as Hid by done.
  assert (Prompt.id copy ∉ prompt_ids db) as Hnew' by by rewrite Hid.
  destruct (save_insert_spec now copy (Prompt.tags original) db Hok HT Hnew')
    as (db' & tags & Hsave & Hload & Hsame & Hids).
  exists db', (prompt_of_row (new_row now copy) tags).
  rewrite Hsave. cbn [and_then]. rewrite Hid in *.
  split_and!; try done.
  - cbn. eapply same_tag_map_trans; [exact Hsame|].
    rewrite <- Horig. apply group_tags_no_empty.
  - destruct (save_frame now copy (Prompt.tags original) db prompt_id Hok)
      as [Hrow Htags]; [by rewrite Hid|].
    rewrite Hsave in Hrow, Htags. cbn [store] in Hrow, Htags.
    rewrite <- Hrow in Hsel. rewrite (get_by_id_Some _ _ _ Hsel).
    by rewrite Htags, Horig.
Qed.

(** ** Saved tags in the directory *)

(** The values the directory lists under a category. *)
Lemma tag_directory_values db c v :
  ∃ d,
    get_all_tags_by_category db = Returned d db
    ∧ dict_keys d = dict_keys TAG_CATEGORIES
    ∧ (v ∈ values_of d c ↔
       c ∈ dict_keys TAG_CATEGORIES
       ∧ (v ∈ values_of TAG_CATEGORIES c
          ∨ ∃ t, t ∈ tags db ∧ Tag.name t = v ∧ Tag.category t = c)).
Proof.
  set (rows := select_tags_by_name db).
  set (merged := foldl add_db_tag TAG_CATEGORIES rows).
  exists (sort_tag_lists merged). split; [done|].
  destruct (merged_tags_spec rows TAG_CATEGORIES c)
    as (Hkeys & extra & Hvals & Hex & _).
  fold merged in Hkeys, Hvals. split.
  - by rewrite sort_tag_lists_keys.
  - assert (v ∈ values_of (sort_tag_lists merged) c ↔ v ∈ values_of merged c)
      as ->.
    { rewrite sort_tag_lists_values. destruct (String.eqb c "Complexity");
        [done|]. by rewrite merge_sort_Permutation. }
    rewrite Hvals, elem_of_app, Hex.
    unfold rows. rewrite elem_of_select_tags_by_name. split.
    + intros [Hv|(Hc & Ht & _)]; [|by auto].
      split; [by eapply values_of_in_keys|by left].
    + intros (Hc & [Hv|Ht]); [by left|].
      destruct (decide (v ∈ values_of TAG_CATEGORIES c)); [by left|].
      by right.
Qed.

(** X13: after [save] with a value under a category of the registry, the
    tag directory lists that value under that category, also when the
    value is not in the registry; a category that is not in the registry
    is stored with its values but is not a category of the directory. *)
Theorem X13_saved_value_is_listed now p T db c v :
  db_ok db → tag_map_ok T → (c, v) ∈ tag_pairs T →
  ∃ db' d,
    save now p T db = Returned () db'
    ∧ get_all_tags_by_category db' = Returned d db'
    ∧ (∃ t, t ∈ tags db' ∧ Tag.name t = v ∧ Tag.category t = c)
    ∧ (c ∈ dict_keys TAG_CATEGORIES → v ∈ values_of d c)
      ∧ (c ∉ dict_keys TAG_CATEGORIES →
       (c ∉ dict_keys d) ∧ values_of d c = []).
Proof.
  intros Hok HT Hpair.
  destruct (save_spec now p T db Hok HT)
    as (db' & Hsave & _ & _ & _ & Hmine & _).
  destruct (tag_directory_values db' c v) as (d & Hdir & Hkeys & Hvals).
  assert (∃ t, t ∈ tags db' ∧ Tag.name t = v ∧ Tag.category t = c) as Htag.
  { apply (Hmine (v, c)) in Hpair.
    apply elem_of_select_prompt_tags in Hpair as (t & Ht & [= <- <-] & _).
    by exists t. }
  exists db', d. split_and!; try done.
  - intros Hc. apply Hvals. split; [done|]. by right.
  - intros Hc. rewrite Hkeys. split; [done|].
    unfold values_of, dict_get_default.
    rewrite (proj2 (dict_get_None d c)); [done|]. by rewrite Hkeys.
Qed.

(** ** Importing *)

Lemma dict_set_set {V} (d : dict V) k v v' :
  dict_set (dict_set d k v) k v' = dict_set d k v'.
Proof.
  induction d as [|[k0 v0] d IH]; cbn.
  - by rewrite String.eqb_refl.
  - destruct (String.eqb k0 k) eqn:Heq; cbn; by rewrite Heq, ?IH.
Qed.

(** X14: the id a record of the document carries has no influence on
    what is imported: the record is saved under the id drawn for it. *)
Theorem X14_import_discards_supplied_id new_id (item : dict Any) v :
  import_item new_id (VDict (dict_set item "id" v))
  = import_item new_id (VDict item)
  ∧ ∀ prompt tags,
      import_item new_id (VDict item) = Some (prompt, tags) →
      Prompt.id prompt = new_id.
Proof.
  split.
  - unfold import_item, dict_get_default.
    rewrite dict_get_set, decide_False by done.
    by rewrite dict_remove_set_ne, dict_set_set.
  - intros prompt tags. unfold import_item.
    destruct (from_dict _) as [q|] eqn:Hfrom; [|done].
    destruct (as_tags _); [|done]. intros [= <- _].
    unfold from_dict in Hfrom.
    assert (kwarg as_str
              (List.filter (λ kv, existsb (String.eqb kv.1) valid_keys)
                 (dict_remove
                    (dict_set (dict_remove item "tags") "id" (VStr new_id))
                    "tags")) "id" None = Some new_id) as Hid.
    { unfold kwarg.
      rewrite (dict_get_filter_key (λ k, existsb (String.eqb k) valid_keys))
        by reflexivity.
      unfold dict_remove at 1.
      rewrite (dict_get_filter_key (λ k, negb (String.eqb k "tags")))
        by reflexivity.
      by rewrite dict_get_set, decide_True. }
    rewrite Hid in Hfrom. cbn in Hfrom.
    repeat (match type of Hfrom with
            | context [mbind _ ?o] => destruct o; cbn in Hfrom; [|done]
            end).
    by injection Hfrom as <-.
Qed.

Section ImportOutcome.

Variable json_loads : string → option Any.
Variables uuid4 utcnow : nat → string.

Lemma import_items_Returned i items count db n db' :
  import_items uuid4 utcnow i items count db = Returned n db' →
  n = count + length items.
Proof.
  revert i count db.
  induction items as [|item items IH]; intros i count db.
  - cbn. intros [= <- _]. lia.
  - cbn [import_items].
    destruct (import_item (uuid4 i) item) as [[prompt tags]|]; [|done].
    destruct (save (utcnow i) prompt tags db) as [[] db1|db1];
      cbn [and_then]; [|done].
    intros ->%IH. cbn. lia.
Qed.

(** X15: for a text that is read as a collection, an import that returns
    gives the number of its elements, and an import that raises has
    committed exactly the elements before the one it failed on: importing
    those alone returns their number and leaves the same database. An
    empty collection gives 0 and changes nothing. *)
Theorem X15_import_outcome text data items db :
  json_loads text = Some data → iterate data = Some items →
  (∀ n db', import_from_json json_loads uuid4 utcnow text db
            = Returned n db' → n = length items)
  ∧ (∀ db', import_from_json json_loads uuid4 utcnow text db = Raised db' →
       ∃ k, k < length items
         ∧ import_items uuid4 utcnow 0 (take k items) 0 db = Returned k db')
  ∧ (items = [] →
     import_from_json json_loads uuid4 utcnow text db = Returned 0 db).
Proof.
  intros Hloads Hiter. unfold import_from_json. rewrite Hloads, Hiter.
  split_and!.
  - by intros n db' ->%import_items_Returned.
  - intros db' (k & Hk & Hprefix)%import_items_Raised. by exists k.
  - by intros ->.
Qed.

End ImportOutcome.

(** ** The library page *)

Lemma append_cons a (s t : string) :
  (String a s ++ t)%string = String a (s ++ t)%string.
Proof. reflexivity. Qed.

Lemma prefix_spec (needle hay : string) :
  String.prefix needle hay = true ↔ ∃ post, hay = (needle ++ post)%string.
Proof.
  revert hay. induction needle as [|a needle IH]; intros hay.
  - split; [intros _; by exists hay|]. intros _. by destruct hay.
  - destruct hay as [|b hay]; cbn [String.prefix].
    + split; [done|]. by intros [post ?].
    + destruct (Ascii.ascii_dec a b) as [->|Hne].
      * rewrite IH. split; intros [post Hpost]; exists post;
          rewrite append_cons in *; congruence.
      * split; [done|]. intros [post Hpost]. rewrite append_cons in Hpost.
        congruence.
Qed.

Lemma contains_spec (needle hay : string) :
  contains needle hay = true
  ↔ ∃ pre post, hay = (pre ++ needle ++ post)%string.
Proof.
  induction hay as [|b hay IH]; cbn [contains];
    rewrite orb_true_iff, prefix_spec.
  - split.
    + intros [[post Hpost]|?]; [|done]. by exists "", post.
    + intros ([|??] & post & Hpost); [left; by exists post|done].
  - rewrite IH. split.
    + intros [[post Hpost]|(pre & post & ->)].
      * by exists "", post.
      * by exists (String b pre), post.
    + intros ([|a pre] & post & Hpost).
      * left. by exists post.
      * right. exists pre, post. rewrite append_cons in Hpost. congruence.
Qed.

Lemma search_hit_spec lower query p :
  search_hit lower query p = true
  ↔ ∃ field, field ∈ searched_fields p ∧ contains query (lower field) = true.
Proof.
  unfold search_hit, searched_fields. rewrite !orb_true_iff. split.
  - intros H. repeat destruct H as [H|H];
      (eexists; split; [|exact H]); set_solver.
  - intros (field & Hin & H).
    rewrite !elem_of_cons, elem_of_nil in Hin.
    destruct Hin as [->|[->|[->|[->|[->|[->|[->|[]]]]]]]]; tauto.
Qed.

Lemma truthy_spec s : truthy s = true ↔ s ≠ "".
Proof. by destruct s. Qed.

Lemma or_empty s : (if truthy s then s else "") = s.
Proof. by destruct s. Qed.

(** The three filter stages are one filter. *)
Lemma filters_eq lower show_favorites selected_tags search_query ps :
  search_filter lower search_query
    (tag_filters selected_tags (favorites_filter show_favorites ps))
  = List.filter (listed lower show_favorites selected_tags search_query) ps.
Proof.
  rewrite tag_filters_eq.
  assert (favorites_filter show_favorites ps
          = List.filter
              (λ p, if show_favorites
                    then Z.eqb (Prompt.is_favorite p) 1 else true) ps)
    as ->.
  { unfold favorites_filter. destruct show_favorites; [done|].
    by rewrite filterb_true. }
  assert (∀ l, search_filter lower search_query l
               = List.filter
                   (λ p, if truthy search_query
                         then search_hit lower (lower search_query) p
                         else true) l) as ->.
  { intros l. unfold search_filter. destruct (truthy search_query); [done|].
    by rewrite filterb_true. }
  rewrite !filterb_filterb. apply filterb_ext. intros p. unfold listed.
  assert (forallb (λ item, issubset item.2
                             (values_of (Prompt.tags p) item.1))
                  selected_tags
          = bool_decide (matches selected_tags p)) as ->;
    [|by rewrite andb_assoc].
  apply eq_true_iff_eq. by rewrite matches_forallb, bool_decide_eq_true.
Qed.

Lemma listed_spec lower show_favorites selected_tags search_query p :
  listed lower show_favorites selected_tags search_query p = true
  ↔ (show_favorites = true → Prompt.is_favorite p = 1%Z)
    ∧ matches selected_tags p
    ∧ (search_query ≠ "" →
       ∃ field pre post,
         field ∈ searched_fields p
         ∧ lower field = (pre ++ lower search_query ++ post)%string).
Proof.
  unfold listed. rewrite !andb_true_iff, bool_decide_eq_true.
  rewrite <- truthy_spec.
  assert ((if show_favorites then Z.eqb (Prompt.is_favorite p) 1 else true)
          = true
          ↔ (show_favorites = true → Prompt.is_favorite p = 1%Z)) as ->.
  { destruct show_favorites; [rewrite Z.eqb_eq|]; naive_solver. }
  assert ((if truthy search_query
           then search_hit lower (lower search_query) p else true) = true
          ↔ (truthy search_query = true →
             ∃ field pre post,
               field ∈ searched_fields p
               ∧ lower field = (pre ++ lower search_query ++ post)%string))
    as ->.
  { destruct (truthy search_query); [|naive_solver].
    rewrite search_hit_spec. split.
    - intros (field & Hin & (pre & post & H)%contains_spec) _.
      by exists field, pre, post.
    - intros H. destruct (H eq_refl) as (field & pre & post & Hin & Heq).
      exists field. split; [done|]. apply contains_spec. by exists pre, post. }
  tauto.
Qed.

(** *** Sorting *)

Lemma insert_by_perm {A} (key : A → string) x l :
  insert_by key x l ≡ₚ x :: l.
Proof.
  induction l as [|y l IH]; cbn; [done|].
  destruct (String.leb (key x) (key y)); [done|].
  rewrite IH. apply Permutation_swap.
Qed.

Lemma stable_sort_perm {A} (key : A → string) l : stable_sort key l ≡ₚ l.
Proof.
  induction l as [|x l IH]; cbn; [done|].
  fold (stable_sort key l). by rewrite insert_by_perm, IH.
Qed.

Lemma list_sort_perm {A} (key : A → string) (reverse : bool) l :
  list_sort key reverse l ≡ₚ l.
Proof.
  unfold list_sort. destruct reverse; [|apply stable_sort_perm].
  rewrite <- Permutation_rev, stable_sort_perm. symmetry.
  apply Permutation_rev.
Qed.

Lemma insert_by_sorted {A} (key : A → string) x l :
  StronglySorted (λ a b, str_le (key a) (key b)) l →
  StronglySorted (λ a b, str_le (key a) (key b)) (insert_by key x l).
Proof.
  induction 1 as [|y l Hl IH Hy]; cbn.
  - by repeat constructor.
  - destruct (String.leb (key x) (key y)) eqn:Hxy.
    + constructor; [by constructor|]. constructor; [done|].
      eapply Forall_impl; [exact Hy|]. intros z Hz. cbn in Hz.
      by apply (str_le_trans _ (key y)).
    + constructor; [done|]. rewrite insert_by_perm.
      constructor; [|done].
      destruct (str_le_total (key x) (key y)) as [H|H]; [|done].
      unfold str_le in H. congruence.
Qed.

Lemma stable_sort_sorted {A} (key : A → string) l :
  StronglySorted (λ a b, str_le (key a) (key b)) (stable_sort key l).
Proof.
  induction l as [|x l IH]; cbn; [constructor|].
  by apply insert_by_sorted.
Qed.

Lemma StronglySorted_rev {A} (R : relation A) l :
  StronglySorted R l → StronglySorted (flip R) (rev l).
Proof.
  induction 1 as [|x l Hl IH Hx]; cbn; [constructor|].
  apply StronglySorted_app_2; [|done|by repeat constructor].
  intros a b Ha ->%list_elem_of_singleton. unfold flip.
  rewrite Forall_forall in Hx. apply Hx.
  by rewrite list_elem_of_In, in_rev, <- list_elem_of_In.
Qed.

Lemma StronglySorted_mono {A} (R R' : relation A) l :
  (∀ a b, R a b → R' a b) → StronglySorted R l → StronglySorted R' l.
Proof.
  intros HR. induction 1 as [|x l Hl IH Hx]; constructor; [done|].
  eapply Forall_impl; [exact Hx|]. intros b. apply HR.
Qed.

Lemma list_sort_sorted {A} (key : A → string) (reverse : bool) l :
  StronglySorted
    (λ a b, if reverse then str_le (key b) (key a)
            else str_le (key a) (key b))
    (list_sort key reverse l).
Proof.
  unfold list_sort. destruct reverse; [|apply stable_sort_sorted].
  apply (StronglySorted_rev (λ a b, str_le (key a) (key b))).
  apply stable_sort_sorted.
Qed.

Lemma insert_by_filter {A} (key : A → string) k x l :
  List.filter (λ a, String.eqb (key a) k) (insert_by key x l)
  = List.filter (λ a, String.eqb (key a) k) (x :: l).
Proof.
  induction l as [|y l IH]; [done|]. cbn [insert_by].
  destruct (String.leb (key x) (key y)) eqn:Hxy; [done|].
  cbn [List.filter] in *. rewrite IH.
  destruct (String.eqb (key x) k) eqn:Hx; [|done].
  destruct (String.eqb (key y) k) eqn:Hy; [|done].
  apply String.eqb_eq in Hx, Hy. rewrite Hx, Hy in Hxy.
  destruct (str_le_total k k) as [H|H]; unfold str_le in H; congruence.
Qed.

Lemma stable_sort_filter {A} (key : A → string) k l :
  List.filter (λ a, String.eqb (key a) k) (stable_sort key l)
  = List.filter (λ a, String.eqb (key a) k) l.
Proof.
  induction l as [|x l IH]; [done|]. cbn [stable_sort foldr].
  fold (stable_sort key l). rewrite insert_by_filter. cbn. by rewrite IH.
Qed.

(** Elements with the same key keep the order they had. *)
Lemma list_sort_filter {A} (key : A → string) (reverse : bool) k l :
  List.filter (λ a, String.eqb (key a) k) (list_sort key reverse l)
  = List.filter (λ a, String.eqb (key a) k) l.
Proof.
  unfold list_sort. destruct reverse; [|apply stable_sort_filter].
  by rewrite filter_rev, stable_sort_filter, filter_rev, rev_involutive.
Qed.

Lemma sort_prompts_perm lower sort_option ps :
  sort_prompts lower sort_option ps ≡ₚ ps.
Proof.
  unfold sort_prompts.
  destruct (sort_key lower sort_option) as [[key reverse]|]; [|done].
  apply list_sort_perm.
Qed.

(** X16: the list the library page shows holds exactly the loaded
    prompts that pass every active filter, each as often as it was
    loaded: with the favorites toggle on the flag is 1, every selected
    tag value is among the prompt's values of its category, and for a
    search text that is not empty the lowercased text occurs in the
    lowercased title, use case, description, instructions, task, persona
    or context. Usage notes, style, variables, version and the tags are
    not searched. The three stages are one filter followed by the sort. *)
Theorem X16_library_results_filters lower show_favorites selected_tags
    search_query sort_option all_prompts :
  let results :=
    library_results lower show_favorites selected_tags search_query
                    sort_option all_prompts in
  let keep := listed lower show_favorites selected_tags search_query in
  results = sort_prompts lower sort_option (List.filter keep all_prompts)
  ∧ results ≡ₚ List.filter keep all_prompts
  ∧ ∀ p, p ∈ results
         ↔ p ∈ all_prompts
           ∧ (show_favorites = true → Prompt.is_favorite p = 1%Z)
           ∧ matches selected_tags p
           ∧ (search_query ≠ "" →
              ∃ field pre post,
                field ∈ searched_fields p
                ∧ lower field
                  = (pre ++ lower search_query ++ post)%string).
Proof.
  intros results keep.
  assert (results
          = sort_prompts lower sort_option (List.filter keep all_prompts))
    as Heq.
  { unfold results, library_results. cbv zeta. by rewrite filters_eq. }
  assert (results ≡ₚ List.filter keep all_prompts) as Hperm.
  { rewrite Heq. apply sort_prompts_perm. }
  split_and!; [done..|].
  intros p. rewrite Hperm, elem_of_filterb. unfold keep.
  by rewrite listed_spec.
Qed.

(** X17: the sort stage reorders and neither drops nor repeats a prompt.
    Under the option for titles A-Z the lowercased titles ascend in the
    order of strings, under Z-A they descend, under Newest the
    modification times descend, under Oldest the creation times ascend;
    any other option string leaves the list in the order it had. *)
Theorem X17_sort_options lower sort_option ps :
  let sorted := sort_prompts lower sort_option ps in
  sorted ≡ₚ ps
  ∧ (sort_option = "Title (A-Z)" →
     StronglySorted str_le (map (λ p, lower (Prompt.title p)) sorted))
  ∧ (sort_option = "Title (Z-A)" →
     StronglySorted (flip str_le) (map (λ p, lower (Prompt.title p)) sorted))
  ∧ (sort_option = "Newest" →
     StronglySorted (flip str_le) (map Prompt.last_modified sorted))
  ∧ (sort_option = "Oldest" →
     StronglySorted str_le (map Prompt.created_at sorted))
  ∧ (sort_option ∉ ["Title (A-Z)"; "Title (Z-A)"; "Newest"; "Oldest"] →
     sorted = ps).
Proof.
  intros sorted. split; [apply sort_prompts_perm|].
  split_and!.
  - intros ->. apply StronglySorted_fmap.
    apply (list_sort_sorted (λ p, lower (Prompt.title p)) false).
  - intros ->. apply StronglySorted_fmap.
    apply (list_sort_sorted (λ p, lower (Prompt.title p)) true).
  - intros ->. apply StronglySorted_fmap. unfold sorted, sort_prompts. cbn.
    eapply StronglySorted_mono;
      [|apply (list_sort_sorted
                 (λ p, if truthy (Prompt.last_modified p)
                       then Prompt.last_modified p else "") true)].
    intros a b. cbn. by rewrite !or_empty.
  - intros ->. apply StronglySorted_fmap. unfold sorted, sort_prompts. cbn.
    eapply StronglySorted_mono;
      [|apply (list_sort_sorted
                 (λ p, if truthy (Prompt.created_at p)
                       then Prompt.created_at p else "") false)].
    intros a b. cbn. by rewrite !or_empty.
  - intros Hno. unfold sorted, sort_prompts, sort_key.
    rewrite !not_elem_of_cons in Hno.
    destruct Hno as (H1 & H2 & H3 & H4 & _).
    apply String.eqb_neq in H1, H2, H3, H4. by rewrite H1, H2, H3, H4.
Qed.

(** X18: the sort is stable under each of the four options, also the two
    that sort in reverse: the prompts with one and the same key
    (lowercased title, modification time, creation time) stand in the
    order in which they were loaded. *)
Theorem X18_sort_keeps_order_of_ties lower ps k :
  let same (key : Prompt.t → string) :=
    List.filter (λ p, String.eqb (key p) k) in
  same (λ p, lower (Prompt.title p)) (sort_prompts lower "Title (A-Z)" ps)
  = same (λ p, lower (Prompt.title p)) ps
  ∧ same (λ p, lower (Prompt.title p)) (sort_prompts lower "Title (Z-A)" ps)
    = same (λ p, lower (Prompt.title p)) ps
  ∧ same Prompt.last_modified (sort_prompts lower "Newest" ps)
    = same Prompt.last_modified ps
  ∧ same Prompt.created_at (sort_prompts lower "Oldest" ps)
    = same Prompt.created_at ps.
Proof.
  intros same. unfold same. split_and!.
  - apply (list_sort_filter (λ p, lower (Prompt.title p)) false).
  - apply (list_sort_filter (λ p, lower (Prompt.title p)) true).
  - pose (key := λ p, if truthy (Prompt.last_modified p)
                      then Prompt.last_modified p else "").
    change (sort_prompts lower "Newest" ps) with (list_sort key true ps).
    trans (List.filter (λ p, String.eqb (key p) k) (list_sort key true ps)).
    { apply filterb_ext. intros p. unfold key. by rewrite or_empty. }
    rewrite list_sort_filter. apply filterb_ext. intros p. unfold key.
    by rewrite or_empty.
  - pose (key := λ p, if truthy (Prompt.created_at p)
                      then Prompt.created_at p else "").
    change (sort_prompts lower "Oldest" ps) with (list_sort key false ps).
    trans (List.filter (λ p, String.eqb (key p) k) (list_sort key false ps)).
    { apply filterb_ext. intros p. unfold key. by rewrite or_empty. }
    rewrite list_sort_filter. apply filterb_ext. intros p. unfold key.
    by rewrite or_empty.
Qed.

Lemma stable_sort_rev {A} (key : A → string) l :
  NoDup (map key l) → stable_sort key (rev l) = stable_sort key l.
Proof.
  intros Hnd.
  apply (StronglySorted_unique_strong (λ a b, str_le (key a) (key b)));
    [|apply stable_sort_sorted..|].
  - intros a b Ha Hb Hab Hba.
    rewrite stable_sort_perm in Hb.
    rewrite stable_sort_perm, list_elem_of_In, <- in_rev,
      <- list_elem_of_In in Ha.
    apply (NoDup_fmap_inj key l); [done..|].
    by apply String.leb_antisym.
  - rewrite !stable_sort_perm. symmetry. apply Permutation_rev.
Qed.

(** X19: when no two prompts of the list have the same lowercased title,
    the order under Z-A is the order under A-Z read backwards. *)
Theorem X19_title_orders_are_reverses lower ps :
  NoDup (map (λ p, lower (Prompt.title p)) ps) →
  sort_prompts lower "Title (Z-A)" ps
  = rev (sort_prompts lower "Title (A-Z)" ps).
Proof.
  intros Hnd. unfold sort_prompts. cbn. unfold list_sort.
  by rewrite stable_sort_rev.
Qed.

(** ** The favorite button and the edit form *)

Lemma get_by_id_loaded pid db p :
  get_by_id pid db = Returned (Some p) db →
  ∃ r, select_prompt pid db = Some r
       ∧ p = prompt_of_row r (group_tags (select_prompt_tags pid db)).
Proof.
  intros Hget. destruct (select_prompt pid db) as [r|] eqn:Hsel.
  - rewrite (get_by_id_Some _ _ _ Hsel) in Hget. exists r. split; [done|].
    congruence.
  - by rewrite (get_by_id_None _ _ Hsel) in Hget.
Qed.

(** X20: pressing the favorite button on a prompt as loaded, and once
    more on the prompt as loaded after that, brings the database back to
    what it was, when the stored flag is 0 or 1; in between the flag is
    the other of the two values. *)
Theorem X20_favorite_button_twice prompt db :
  db_ok db →
  get_by_id (Prompt.id prompt) db = Returned (Some prompt) db →
  Prompt.is_favorite prompt = 0%Z ∨ Prompt.is_favorite prompt = 1%Z →
  ∃ db1 shown,
    favorite_button prompt db = Returned () db1
    ∧ get_by_id (Prompt.id prompt) db1 = Returned (Some shown) db1
    ∧ Prompt.is_favorite shown = (1 - Prompt.is_favorite prompt)%Z
    ∧ favorite_button shown db1 = Returned () db.
Proof.
  intros Hok Hget Hflag.
  destruct (get_by_id_loaded _ _ _ Hget) as (r & Hsel & Hp).
  set (pid := Prompt.id prompt) in *.
  set (f := Prompt.is_favorite prompt) in *.
  assert (Row.is_favorite r = f) as Hf by (unfold f; by rewrite Hp).
  set (new := if Z.eqb f 0 then 1%Z else 0%Z).
  assert (new = (1 - f)%Z) as Hnew by (unfold new; by destruct Hflag as [->| ->]).
  assert ((if Z.eqb new 0 then 1%Z else 0%Z) = f) as Hback
    by (unfold new; by destruct Hflag as [->| ->]).
  set (db1 := update_favorite new pid db).
  assert (select_prompt pid db1 = Some (set_favorite new r)) as Hsel1.
  { unfold db1. rewrite update_favorite_select, Hsel. cbn.
    apply select_prompt_Some in Hsel as [_ ->]. by rewrite String.eqb_refl. }
  exists db1, (prompt_of_row (set_favorite new r)
                 (group_tags (select_prompt_tags pid db1))).
  split_and!.
  - done.
  - by apply get_by_id_Some.
  - done.
  - unfold favorite_button, toggle_favorite, get_db_connection. cbn.
    apply select_prompt_Some in Hsel as [Hin Hid]. rewrite Hid, Hback.
    f_equal. destruct db as [rows ts ls]. unfold db1, update_favorite. cbn.
    f_equal. rewrite map_map. rewrite <- (map_id rows) at 2.
    apply map_ext_in. intros r' Hr'%list_elem_of_In.
    destruct (String.eqb (Row.id r') pid) eqn:Heq; cbn; rewrite Heq; [|done].
    apply String.eqb_eq in Heq.
    assert (r' = r) as ->.
    { apply (NoDup_fmap_inj Row.id rows); [apply Hok|done..|congruence]. }
    rewrite <- Hf. by destruct r.
Qed.

(** X21: submitting the edit form for a stored prompt. A title that is
    blank after stripping saves nothing. Otherwise the prompt is stored
    with the stripped title, the lowercased prompt type and the texts
    entered; its favorite flag and creation time stay and the
    modification time is the current time. The content the form of the
    chosen type does not draw is overwritten with the empty text: saved
    as Structured the prompt loses its instructions, saved as any other
    type it loses persona, context, task, style and variables. *)
Theorem X21_edit_form_overwrites_by_type strip lower new_id now old
    prompt_type title use_case version description usage_notes
    persona context task style variables instructions tags_data db :
  db_ok db → tag_map_ok tags_data →
  get_by_id (Prompt.id old) db = Returned (Some old) db →
  let run :=
    submit_form strip lower new_id now (Some old)
      prompt_type title use_case version description usage_notes
      persona context task style variables instructions tags_data db in
  (strip title = "" → run = Returned false db)
  ∧ (strip title ≠ "" →
     ∃ db' saved,
       run = Returned true db'
       ∧ get_by_id (Prompt.id old) db' = Returned (Some saved) db'
       ∧ Prompt.title saved = strip title
       ∧ Prompt.prompt_type saved = lower prompt_type
       ∧ [Prompt.use_case saved; Prompt.description saved;
          Prompt.usage_notes saved; Prompt.version saved]
         = [use_case; description; usage_notes; version]
       ∧ Prompt.is_favorite saved = Prompt.is_favorite old
       ∧ Prompt.created_at saved = Prompt.created_at old
       ∧ Prompt.last_modified saved = now
       ∧ same_tag_map (Prompt.tags saved) (drop_empty tags_data)
       ∧ (prompt_type = "Structured" →
          [Prompt.persona saved; Prompt.context saved; Prompt.task saved;
           Prompt.style saved; Prompt.variables saved]
          = [persona; context; task; style; variables]
          ∧ Prompt.instructions saved = "")
       ∧ (prompt_type ≠ "Structured" →
          [Prompt.persona saved; Prompt.context saved; Prompt.task saved;
           Prompt.style saved; Prompt.variables saved]
          = [""; ""; ""; ""; ""]
          ∧ Prompt.instructions saved = instructions)).
Proof.
  intros Hok HT Hget run. unfold run, submit_form.
  destruct (get_by_id_loaded _ _ _ Hget) as (r & Hsel & Hold).
  split.
  - intros ->. by destruct (String.eqb prompt_type "Structured").
  - intros Htitle%truthy_spec.
    destruct (String.eqb prompt_type "Structured") eqn:Htype;
      rewrite Htitle; cbn [negb]; cbv zeta;
      match goal with
      | |- context [save now ?p tags_data db] =>
          destruct (save_then_get now p tags_data db Hok HT)
            as (db' & tags & -> & _ & Hload & Htags & _)
      end;
      cbn [Prompt.id] in Hload; unfold stored_row in Hload;
      cbn [Prompt.id] in Hload; rewrite Hsel in Hload;
      (eexists _, _; split; [reflexivity|]; split; [exact Hload|]);
      cbn; rewrite ?or_empty, Hold; cbn.
    + apply String.eqb_eq in Htype. by split_and!.
    + apply String.eqb_neq in Htype. by split_and!.
Qed.

(** ** The copy text and the tag widgets *)

Lemma concat_nonempty sep c s parts :
  String.concat sep (String c s :: parts) ≠ "".
Proof. by destruct parts. Qed.

(** X22: the copy text is empty exactly when there is nothing to copy:
    for the type standard when the instructions are empty, for any other
    type when persona, context, task, style and variables are all
    empty. *)
Theorem X22_copy_text_empty (p : Prompt.t) :
  get_copy_text p = ""
  ↔ if String.eqb (Prompt.prompt_type p) "standard"
    then Prompt.instructions p = ""
    else Prompt.persona p = "" ∧ Prompt.context p = ""
         ∧ Prompt.task p = "" ∧ Prompt.style p = ""
         ∧ Prompt.variables p = "".
Proof.
  unfold get_copy_text.
  destruct (String.eqb (Prompt.prompt_type p) "standard").
  - by rewrite truthy_or_empty.
  - cbv zeta. unfold append_if.
    destruct (Prompt.persona p) as [|c1 s1], (Prompt.context p) as [|c2 s2],
      (Prompt.task p) as [|c3 s3], (Prompt.style p) as [|c4 s4],
      (Prompt.variables p) as [|c5 s5];
      cbn [truthy app];
      (split; [|try done; intros (? & ? & ? & ? & ?); done]);
      try done; intros H; exfalso; revert H; apply concat_nonempty.
Qed.

Lemma filterb_all {A} (f : A → bool) (l : list A) :
  (∀ x, x ∈ l → f x = true) → List.filter f l = l.
Proof.
  induction l as [|x l IH]; [done|]. intros H. cbn.
  rewrite (H x) by left. f_equal. apply IH. intros y Hy. apply H. by right.
Qed.

Lemma widget_categories_spec (groups d : dict (list string)) :
  dict_keys d = dict_keys TAG_CATEGORIES →
  NoDup (concat (map snd groups)) →
  (∀ c, c ∈ concat (map snd groups) ↔ c ∈ dict_keys TAG_CATEGORIES) →
  widget_categories groups d = concat (map snd groups)
  ∧ widget_categories groups d ≡ₚ dict_keys d
  ∧ NoDup (widget_categories groups d).
Proof.
  intros Hkeys Hnd Hsame.
  assert (widget_categories groups d = concat (map snd groups)) as ->.
  { apply filterb_all. intros c Hc. apply dict_contains_keys.
    rewrite Hkeys. by apply Hsame. }
  split_and!; [done| |done].
  rewrite Hkeys. apply NoDup_Permutation; [done| |done].
  assert (NoDup (dict_keys TAG_CATEGORIES)) as H; [|exact H].
  apply (bool_decide_unpack _). by vm_compute.
Qed.

(** X23: whatever the database holds, the filter of the library page and
    the edit form each draw exactly one multiselect for every category
    of the tag directory: no category is left out of the tabs and none
    is drawn twice. The edit form therefore hands [save] a tag map with
    all twenty categories as keys. *)
Theorem X23_every_category_has_one_widget db :
  ∃ d,
    get_all_tags_by_category db = Returned d db
    ∧ widget_categories category_groups d ≡ₚ dict_keys d
    ∧ NoDup (widget_categories category_groups d)
    ∧ widget_categories tag_groups d ≡ₚ dict_keys d
    ∧ NoDup (widget_categories tag_groups d)
    ∧ length (widget_categories tag_groups d) = 20.
Proof.
  destruct (tag_directory_values db "" "") as (d & Hd & Hkeys & _).
  exists d. split; [done|].
  assert (∀ groups : dict (list string),
            NoDup (concat (map snd groups))
            ∧ Forall (λ c, c ∈ dict_keys TAG_CATEGORIES)
                     (concat (map snd groups))
            ∧ Forall (λ c, c ∈ concat (map snd groups))
                     (dict_keys TAG_CATEGORIES) →
            widget_categories groups d = concat (map snd groups)
            ∧ widget_categories groups d ≡ₚ dict_keys d
            ∧ NoDup (widget_categories groups d)) as Hgroups.
  { intros groups (Hnd & H1 & H2). apply widget_categories_spec; [done..|].
    rewrite Forall_forall in H1, H2. intros c. split; [apply H1|apply H2]. }
  destruct (Hgroups category_groups) as (_ & Hp1 & Hn1).
  { apply (bool_decide_unpack _). by vm_compute. }
  destruct (Hgroups tag_groups) as (Heq & Hp2 & Hn2).
  { apply (bool_decide_unpack _). by vm_compute. }
  split_and!; [done..|]. by rewrite Heq.
Qed.

(** ** The further properties on sample data *)

Lemma X2_on_bug_triage :
  ("color" ∉ valid_keys)
  ∧ from_dict (dict_set (to_dict bug_triage) "color" (VStr "red"))
    = from_dict (to_dict bug_triage).
Proof.
  assert ("color" ∉ valid_keys) as Hkey by by_evaluation.
  split; [exact Hkey|].
  exact (X2_from_dict_ignores_unknown_keys (to_dict bug_triage) "color"
           (VStr "red") Hkey).
Defined.

Lemma X3_on_record_without_id :
  (dict_get [("title", VStr "No id")] "id" = None
   ∨ dict_get [("title", VStr "No id")] "title" = None)
  ∧ from_dict [("title", VStr "No id")] = None
  ∧ ∀ id title,
      from_dict [("id", VStr id); ("title", VStr title)]
      = Some (default_prompt id title).
Proof.
  assert (dict_get [("title", VStr "No id")] "id" = None
          ∨ dict_get [("title", VStr "No id")] "title" = None) as Hmissing
    by (left; vm_compute; reflexivity).
  split; [exact Hmissing|].
  exact (X3_from_dict_required_and_defaults [("title", VStr "No id")]
           Hmissing).
Defined.

Lemma X5_on_favorite_db :
  db_ok favorite_db
  ∧ ∃ ps,
      get_all favorite_db = Returned ps favorite_db
      ∧ map Prompt.id ps ≡ₚ prompt_ids favorite_db
      ∧ StronglySorted str_le (map Prompt.title ps)
      ∧ ∀ p, p ∈ ps →
             get_by_id (Prompt.id p) favorite_db
             = Returned (Some p) favorite_db.
Proof.
  assert (db_ok favorite_db) as Hdb
    by (apply db_ok_of_check; by_evaluation).
  split; [exact Hdb|].
  exact (X5_get_all_lists_every_prompt favorite_db Hdb).
Defined.

Lemma X6_on_favorite_db :
  db_ok favorite_db ∧ tag_map_ok bug_triage_tags
  ∧ (Prompt.id untyped_note ∉ prompt_ids favorite_db)
  ∧ ∃ db' r,
      save "2024-05-02 09:30:00 UTC" untyped_note bug_triage_tags favorite_db
      = Returned () db'
      ∧ get_by_id (Prompt.id untyped_note) db' = Returned (Some r) db'
      ∧ Prompt.id r = Prompt.id untyped_note
      ∧ content r = content untyped_note
      ∧ Prompt.is_favorite r = 0%Z
      ∧ Prompt.created_at r = "2024-05-02 09:30:00 UTC"
      ∧ Prompt.last_modified r = "2024-05-02 09:30:00 UTC"
      ∧ prompt_ids db' = prompt_ids favorite_db ++ [Prompt.id untyped_note].
Proof.
  assert (db_ok favorite_db) as Hdb
    by (apply db_ok_of_check; by_evaluation).
  assert (tag_map_ok bug_triage_tags) as HT
    by (apply tag_map_ok_of_check; by_evaluation).
  assert (Prompt.id untyped_note ∉ prompt_ids favorite_db) as Hnew
    by by_evaluation.
  split; [exact Hdb|]. split; [exact HT|]. split; [exact Hnew|].
  exact (X6_save_inserts_new_prompt "2024-05-02 09:30:00 UTC" untyped_note
           bug_triage_tags favorite_db Hdb HT Hnew).
Defined.

Lemma X7_on_favorite_db :
  db_ok favorite_db
  ∧ (∀ pid, pid ≠ Prompt.id untyped_note →
       returned (get_by_id pid
                   (store (save "2024-05-02 09:30:00 UTC" untyped_note
                             bug_triage_tags favorite_db)))
       = returned (get_by_id pid favorite_db))
  ∧ ∀ t, t ∈ tags favorite_db →
         t ∈ tags (store (save "2024-05-02 09:30:00 UTC" untyped_note
                            bug_triage_tags favorite_db)).
Proof.
  assert (db_ok favorite_db) as Hdb
    by (apply db_ok_of_check; by_evaluation).
  split; [exact Hdb|].
  exact (X7_save_leaves_other_prompts "2024-05-02 09:30:00 UTC" untyped_note
           bug_triage_tags favorite_db Hdb).
Defined.

Lemma X8_on_repeated_tone :
  db_ok favorite_db
  ∧ ("Tone", ["formal"; "formal"]) ∈ [("Tone", ["formal"; "formal"])]
  ∧ ¬ NoDup (("Tone", ["formal"; "formal"]) : string * list string).2
  ∧ save "2024-05-02 09:30:00 UTC" bug_triage
      [("Tone", ["formal"; "formal"])] favorite_db
    = Raised favorite_db.
Proof.
  assert (db_ok favorite_db) as Hdb
    by (apply db_ok_of_check; by_evaluation).
  assert (("Tone", ["formal"; "formal"])
          ∈ [("Tone", ["formal"; "formal"])]) as Hin by by_evaluation.
  assert (¬ NoDup (("Tone", ["formal"; "formal"])
                   : string * list string).2) as Hrep by by_evaluation.
  split; [exact Hdb|]. split; [exact Hin|]. split; [exact Hrep|].
  exact (X8_save_with_repeated_value_raises "2024-05-02 09:30:00 UTC"
           bug_triage [("Tone", ["formal"; "formal"])] favorite_db
           ("Tone", ["formal"; "formal"]) Hdb Hin Hrep).
Defined.

Lemma X11_on_favorite_db :
  ("p-9" ∉ prompt_ids favorite_db)
  ∧ duplicate "p-1-copy" "2024-05-02 09:30:00 UTC" "p-9" favorite_db
    = Returned None favorite_db.
Proof.
  assert ("p-9" ∉ prompt_ids favorite_db) as Hmissing by by_evaluation.
  split; [exact Hmissing|].
  exact (X11_duplicate_missing "p-1-copy" "2024-05-02 09:30:00 UTC" "p-9"
           favorite_db Hmissing).
Defined.

Lemma X12_on_favorite_db :
  db_ok favorite_db
  ∧ get_by_id "p-1" favorite_db = Returned (Some favorite_record) favorite_db
  ∧ ("p-1-copy" ∉ prompt_ids favorite_db)
  ∧ ∃ db' copy,
      duplicate "p-1-copy" "2024-05-02 09:30:00 UTC" "p-1" favorite_db
      = Returned (Some "p-1-copy") db'
      ∧ get_by_id "p-1-copy" db' = Returned (Some copy) db'
      ∧ Prompt.id copy = "p-1-copy"
      ∧ content copy
        = (Prompt.title favorite_record ++ " (Copy)")%string
          :: tail (content favorite_record)
      ∧ same_tag_map (Prompt.tags copy) (Prompt.tags favorite_record)
      ∧ Prompt.is_favorite copy = 0%Z
      ∧ Prompt.created_at copy = "2024-05-02 09:30:00 UTC"
      ∧ Prompt.last_modified copy = "2024-05-02 09:30:00 UTC"
      ∧ get_by_id "p-1" db' = Returned (Some favorite_record) db'
      ∧ prompt_ids db' = prompt_ids favorite_db ++ ["p-1-copy"].
Proof.
  assert (db_ok favorite_db) as Hdb
    by (apply db_ok_of_check; by_evaluation).
  assert (get_by_id "p-1" favorite_db
          = Returned (Some favorite_record) favorite_db) as Hget
    by (vm_compute; reflexivity).
  assert ("p-1-copy" ∉ prompt_ids favorite_db) as Hnew by by_evaluation.
  split; [exact Hdb|]. split; [exact Hget|]. split; [exact Hnew|].
  exact (X12_duplicate_copies "p-1-copy" "2024-05-02 09:30:00 UTC" "p-1"
           favorite_db favorite_record Hdb Hget Hnew).
Defined.

Lemma X13_on_favorite_db :
  db_ok favorite_db ∧ tag_map_ok [("Tone", ["wry"]); ("Mood", ["calm"])]
  ∧ ("Tone", "wry") ∈ tag_pairs [("Tone", ["wry"]); ("Mood", ["calm"])]
  ∧ ∃ db' d,
      save "2024-05-02 09:30:00 UTC" bug_triage
        [("Tone", ["wry"]); ("Mood", ["calm"])] favorite_db
      = Returned () db'
      ∧ get_all_tags_by_category db' = Returned d db'
      ∧ (∃ t, t ∈ tags db' ∧ Tag.name t = "wry" ∧ Tag.category t = "Tone")
      ∧ ("Tone" ∈ dict_keys TAG_CATEGORIES → "wry" ∈ values_of d "Tone")
      ∧ ("Tone" ∉ dict_keys TAG_CATEGORIES →
         ("Tone" ∉ dict_keys d) ∧ values_of d "Tone" = []).
Proof.
  assert (db_ok favorite_db) as Hdb
    by (apply db_ok_of_check; by_evaluation).
  assert (tag_map_ok [("Tone", ["wry"]); ("Mood", ["calm"])]) as HT
    by (apply tag_map_ok_of_check; by_evaluation).
  assert (("Tone", "wry")
          ∈ tag_pairs [("Tone", ["wry"]); ("Mood", ["calm"])]) as Hpair
    by by_evaluation.
  split; [exact Hdb|]. split; [exact HT|]. split; [exact Hpair|].
  exact (X13_saved_value_is_listed "2024-05-02 09:30:00 UTC" bug_triage
           [("Tone", ["wry"]); ("Mood", ["calm"])] favorite_db
           "Tone" "wry" Hdb HT Hpair).
Defined.

Lemma X15_on_broken_document :
  ref_loads broken_document
  = Some (VList [VDict [("title", VStr "First")]; VInt 7])
  ∧ iterate (VList [VDict [("title", VStr "First")]; VInt 7])
    = Some [VDict [("title", VStr "First")]; VInt 7]
  ∧ (∀ n db', import_from_json ref_loads sample_uuid4 sample_utcnow
                broken_document favorite_db = Returned n db' →
              n = length [VDict [("title", VStr "First")]; VInt 7])
  ∧ (∀ db', import_from_json ref_loads sample_uuid4 sample_utcnow
              broken_document favorite_db = Raised db' →
       ∃ k, k < length [VDict [("title", VStr "First")]; VInt 7]
         ∧ import_items sample_uuid4 sample_utcnow 0
             (take k [VDict [("title", VStr "First")]; VInt 7]) 0
             favorite_db
           = Returned k db')
  ∧ ([VDict [("title", VStr "First")]; VInt 7] = [] →
     import_from_json ref_loads sample_uuid4 sample_utcnow broken_document
       favorite_db = Returned 0 favorite_db).
Proof.
  assert (ref_loads broken_document
          = Some (VList [VDict [("title", VStr "First")]; VInt 7]))
    as Hparsed by (vm_compute; reflexivity).
  assert (iterate (VList [VDict [("title", VStr "First")]; VInt 7])
          = Some [VDict [("title", VStr "First")]; VInt 7]) as Hitems
    by (vm_compute; reflexivity).
  split; [exact Hparsed|]. split; [exact Hitems|].
  exact (X15_import_outcome ref_loads sample_uuid4 sample_utcnow
           broken_document _ _ favorite_db Hparsed Hitems).
Defined.

Lemma X19_on_two_titles :
  NoDup (map (λ p, ascii_lower (Prompt.title p))
             [untyped_note; favorite_record])
  ∧ sort_prompts ascii_lower "Title (Z-A)" [untyped_note; favorite_record]
    = rev (sort_prompts ascii_lower "Title (A-Z)"
             [untyped_note; favorite_record]).
Proof.
  assert (NoDup (map (λ p, ascii_lower (Prompt.title p))
                     [untyped_note; favorite_record])) as Hdistinct
    by by_evaluation.
  split; [exact Hdistinct|].
  exact (X19_title_orders_are_reverses ascii_lower
           [untyped_note; favorite_record] Hdistinct).
Defined.

Lemma X20_on_favorite_db :
  db_ok favorite_db
  ∧ get_by_id (Prompt.id favorite_record) favorite_db
    = Returned (Some favorite_record) favorite_db
  ∧ (Prompt.is_favorite favorite_record = 0%Z
     ∨ Prompt.is_favorite favorite_record = 1%Z)
  ∧ ∃ db1 shown,
      favorite_button favorite_record favorite_db = Returned () db1
      ∧ get_by_id (Prompt.id favorite_record) db1
        = Returned (Some shown) db1
      ∧ Prompt.is_favorite shown
        = (1 - Prompt.is_favorite favorite_record)%Z
      ∧ favorite_button shown db1 = Returned () favorite_db.
Proof.
  assert (db_ok favorite_db) as Hdb
    by (apply db_ok_of_check; by_evaluation).
  assert (get_by_id (Prompt.id favorite_record) favorite_db
          = Returned (Some favorite_record) favorite_db) as Hget
    by (vm_compute; reflexivity).
  assert (Prompt.is_favorite favorite_record = 0%Z
          ∨ Prompt.is_favorite favorite_record = 1%Z) as Hflag
    by (right; reflexivity).
  split; [exact Hdb|]. split; [exact Hget|]. split; [exact Hflag|].
  exact (X20_favorite_button_twice favorite_record favorite_db
           Hdb Hget Hflag).
Defined.

Lemma X21_on_favorite_db :
  db_ok favorite_db ∧ tag_map_ok bug_triage_tags
  ∧ get_by_id (Prompt.id favorite_record) favorite_db
    = Returned (Some favorite_record) favorite_db
  ∧ (ascii_strip "  Bug Triage 2 " = "" →
     submit_form ascii_strip ascii_lower "p-new" "2024-05-02 09:30:00 UTC"
       (Some favorite_record) "Structured" "  Bug Triage 2 " "Support"
       "v1.1" "Sorts reports" "" "Triage lead" "" "Sort the reports" "" ""
       "ignored" bug_triage_tags favorite_db
     = Returned false favorite_db)
  ∧ (ascii_strip "  Bug Triage 2 " ≠ "" →
     ∃ db' saved,
       submit_form ascii_strip ascii_lower "p-new" "2024-05-02 09:30:00 UTC"
         (Some favorite_record) "Structured" "  Bug Triage 2 " "Support"
         "v1.1" "Sorts reports" "" "Triage lead" "" "Sort the reports" "" ""
         "ignored" bug_triage_tags favorite_db
       = Returned true db'
       ∧ get_by_id (Prompt.id favorite_record) db'
         = Returned (Some saved) db'
       ∧ Prompt.title saved = ascii_strip "  Bug Triage 2 "
       ∧ Prompt.prompt_type saved = ascii_lower "Structured"
       ∧ [Prompt.use_case saved; Prompt.description saved;
          Prompt.usage_notes saved; Prompt.version saved]
         = ["Support"; "Sorts reports"; ""; "v1.1"]
       ∧ Prompt.is_favorite saved = Prompt.is_favorite favorite_record
       ∧ Prompt.created_at saved = Prompt.created_at favorite_record
       ∧ Prompt.last_modified saved = "2024-05-02 09:30:00 UTC"
       ∧ same_tag_map (Prompt.tags saved) (drop_empty bug_triage_tags)
       ∧ ("Structured" = "Structured" →
          [Prompt.persona saved; Prompt.context saved; Prompt.task saved;
           Prompt.style saved; Prompt.variables saved]
          = ["Triage lead"; ""; "Sort the reports"; ""; ""]
          ∧ Prompt.instructions saved = "")
       ∧ ("Structured" ≠ "Structured" →
          [Prompt.persona saved; Prompt.context saved; Prompt.task saved;
           Prompt.style saved; Prompt.variables saved]
          = [""; ""; ""; ""; ""]
          ∧ Prompt.instructions saved = "ignored")).
Proof.
  assert (db_ok favorite_db) as Hdb
    by (apply db_ok_of_check; by_evaluation).
  assert (tag_map_ok bug_triage_tags) as HT
    by (apply tag_map_ok_of_check; by_evaluation).
  assert (get_by_id (Prompt.id favorite_record) favorite_db
          = Returned (Some favorite_record) favorite_db) as Hget
    by (vm_compute; reflexivity).
  split; [exact Hdb|]. split; [exact HT|]. split; [exact Hget|].
  exact (X21_edit_form_overwrites_by_type ascii_strip ascii_lower "p-new"
           "2024-05-02 09:30:00 UTC" favorite_record "Structured"
           "  Bug Triage 2 " "Support" "v1.1" "Sorts reports" ""
           "Triage lead" "" "Sort the reports" "" "" "ignored"
           bug_triage_tags favorite_db Hdb HT Hget).
Defined.
